(** * littlesnow market monitor front end: ingestion and presentation core

    A shallow embedding of the JavaScript front end of the market monitor:
    - [service/websocket-service.js]  (module [WebSocketService]);
    - the parent dashboard component  (module [MarketDashboard]);
    - [component/LatencyChart.js]     (module [LatencyChart]);
    - the adapter card component      (module [AdapterCard]);
    - the class-based [dashboard.js]  (module [Dashboard]).

    Conventions of the embedding.
    - JavaScript numbers are idealised as exact rationals ([Q], kept in
      reduced form by the arithmetic below); [NaN] is a value of its own.
      No statement in this file depends on IEEE rounding.
    - Plain objects used as dictionaries keep their insertion order
      ([obj], an association list without duplicate keys), because
      [Object.entries] and [JSON.stringify] observe it.  Keys that look
      like array indices, which JavaScript would move to the front, do
      not occur among adapter ids.
    - [obj_get] reads the keys an object has itself.  At a name inherited
      from [Object.prototype] ([inherited]: [constructor], [toString],
      [__proto__], ...) JavaScript answers that member, so the merges find
      no array to push to and throw.  [MarketDashboard] and [Dashboard]
      are the code on adapter ids that are not such names;
      [MarketDashboardAnyId] and [DashboardAnyId] are the merges at any
      id, and agree with them on the other ids ([updateChartData_plain],
      [updateAdapters_plain], [updateCharts_plain]).
    - The [Map] of listeners is only ever accessed with [has]/[get]/[set],
      so it is a [gmap].
    - [Date.now()] and [new Date()] read a clock oracle [clock : nat -> Z]
      (milliseconds): the n-th reading made by the code embedded here is
      [clock n].  The reading that the running-time display makes is
      part of [elapsedTime] only, not of the runs.
    - [localStorage] is a string map that may refuse reads and writes
      ([MarketDashboardView.localStorage]).
    - The chart library is seen through the chart objects it holds:
      [new Chart] adds one unless it throws, [destroy()] removes it
      ([LatencyChartPanel]).

    The modules after [Dashboard] embed further parts of the same files:
    the merges at any adapter id,
    the time axis, the elapsed-time display and the collapse states of
    the parent component, its unmounting, the chart object of
    [LatencyChart.js], and the reset and collapse states of
    [dashboard.js]. *)

From stdpp Require Import base list strings gmap pretty.
From Stdlib Require Import ZArith QArith Qabs Qround Lia Lqa Sorted.

Local Open Scope string_scope.
Local Open Scope list_scope.

(** ** JavaScript values that reach this core *)

(** Metric values are numeric or boolean (or [null]); a missing key reads
    as [undefined].  [JTimeString t] is the string that
    [new Date(t).toLocaleTimeString()] returns: a non-empty string that
    does not parse as a number. *)
Inductive jsval : Type :=
| JUndefined
| JNull
| JBool (b : bool)
| JNaN
| JNum (q : Q)
| JTimeString (t : Z).

(** [ToBoolean]. *)
Definition truthy (v : jsval) : bool :=
  match v with
  | JUndefined | JNull | JNaN => false
  | JBool b => b
  | JNum q => negb (Qeq_bool q 0)
  | JTimeString _ => true
  end.

(** [a || b]. *)
Definition js_or (a b : jsval) : jsval := if truthy a then a else b.

(** [ToNumber]; [None] is [NaN]. *)
Definition ToNumber (v : jsval) : option Q :=
  match v with
  | JUndefined | JNaN | JTimeString _ => None
  | JNull => Some 0%Q
  | JBool b => Some (if b then 1%Q else 0%Q)
  | JNum q => Some q
  end.

(** [a * b]. *)
Definition js_mul (a b : jsval) : jsval :=
  match ToNumber a, ToNumber b with
  | Some p, Some q => JNum (Qred (p * q))
  | _, _ => JNaN
  end.

(** Relational operators against a number; a [NaN] operand makes every
    comparison false. *)
Definition Qlt_bool (p q : Q) : bool := negb (Qle_bool q p).

Definition js_gt (v : jsval) (q : Q) : bool :=
  match ToNumber v with Some p => Qlt_bool q p | None => false end.
Definition js_ge (v : jsval) (q : Q) : bool :=
  match ToNumber v with Some p => Qle_bool q p | None => false end.
Definition js_lt (v : jsval) (q : Q) : bool :=
  match ToNumber v with Some p => Qlt_bool p q | None => false end.
Definition js_le (v : jsval) (q : Q) : bool :=
  match ToNumber v with Some p => Qle_bool p q | None => false end.

(** [v === q] for a number [q]: no coercion. *)
Definition js_strict_eq_num (v : jsval) (q : Q) : bool :=
  match v with JNum p => Qeq_bool p q | _ => false end.

(** [v !== false]. *)
Definition js_not_false (v : jsval) : bool :=
  match v with JBool false => false | _ => true end.

(** ** Insertion-ordered objects *)

Definition obj (V : Type) : Type := list (string * V).

(** [o[k]]. *)
Fixpoint obj_get {V} (o : obj V) (k : string) : option V :=
  match o with
  | [] => None
  | (k', v) :: o' => if String.eqb k' k then Some v else obj_get o' k
  end.

(** [o[k] = v]: an existing key keeps its position, a new key goes last. *)
Fixpoint obj_set {V} (o : obj V) (k : string) (v : V) : obj V :=
  match o with
  | [] => [(k, v)]
  | (k', v') :: o' =>
      if String.eqb k' k then (k', v) :: o' else (k', v') :: obj_set o' k v
  end.

(** [Object.keys(o)]. *)
Definition obj_keys {V} (o : obj V) : list string := map fst o.

(** [{...a, ...b}]. *)
Definition obj_spread {V} (a b : obj V) : obj V :=
  fold_left (fun acc kv => obj_set acc (fst kv) (snd kv)) b a.

(** A property read on a possibly missing record: [o.k], [undefined] when
    the key is absent. *)
Definition obj_field (o : obj jsval) (k : string) : jsval :=
  match obj_get o k with Some v => v | None => JUndefined end.

(** ** Arrays *)

(** [arr.push(x)]. *)
Definition push {A} (arr : list A) (x : A) : list A := arr ++ [x].

(** [arr.shift()], for its effect on the array. *)
Definition shift {A} (arr : list A) : list A := tail arr.

(** [arr.slice(-n)]. *)
Definition slice_last {A} (n : nat) (arr : list A) : list A :=
  drop (length arr - n) arr.

(** [arr.indexOf(x)], [-1] when absent. *)
Fixpoint indexOf (arr : list nat) (x : nat) : Z :=
  match arr with
  | [] => (-1)%Z
  | y :: arr' =>
      if Nat.eqb y x then 0%Z
      else let i := indexOf arr' x in
           if (i <? 0)%Z then (-1)%Z else (i + 1)%Z
  end.

(** [arr.splice(i, 1)] for a non-negative [i], for its effect on the array. *)
Definition splice1 {A} (arr : list A) (i : Z) : list A :=
  take (Z.to_nat i) arr ++ drop (S (Z.to_nat i)) arr.

(** ** service/websocket-service.js *)

Module WebSocketService.

Inductive readyState : Type := CONNECTING | OPEN | CLOSING | CLOSED.

(** A callback is a function reference; [off] compares references, so a
    callback is represented by its identity and its code is looked up in
    [impl] when it is called. *)
Abbreviation callback := nat.

(** What [emit] passes to the callbacks. *)
Inductive payload (D : Type) : Type :=
| Undefined
| Data (d : D)
| ErrorEvent.
Arguments Undefined {D}.
Arguments Data {D} d.
Arguments ErrorEvent {D}.

(** The code of a callback acts on the state [W] of the subscribers; it
    may throw after having changed part of it.  No callback subscribes or
    unsubscribes while an event is being delivered (none of those the
    dashboard registers does). *)
Inductive completion : Type := Normal | Throws.

Definition handler (D W : Type) : Type := payload D -> W -> W * completion.

(** What a pending [setTimeout] will run. *)
Inductive timerAction : Type :=
| RunRequestInitialData
| RunConnect.

Inductive outbound : Type := GetInitialData.

(** The closure state of [createWebSocketService]: [ws] is [None] for
    [null], otherwise the [readyState] of the current socket. *)
Record service : Type := mkService {
  ws : option readyState;
  reconnectAttempts : Z;
  listeners : gmap string (list callback);
  timers : list (Z * timerAction);
  sent : list outbound;
  errorLog : list string
}.

Definition maxReconnectAttempts : Z := 5.

Definition createWebSocketService : service :=
  {| ws := None; reconnectAttempts := 0; listeners := ∅;
     timers := []; sent := []; errorLog := [] |}.

Definition set_ws (r : option readyState) (s : service) : service :=
  {| ws := r; reconnectAttempts := reconnectAttempts s;
     listeners := listeners s; timers := timers s; sent := sent s;
     errorLog := errorLog s |}.

Definition set_reconnectAttempts (n : Z) (s : service) : service :=
  {| ws := ws s; reconnectAttempts := n;
     listeners := listeners s; timers := timers s; sent := sent s;
     errorLog := errorLog s |}.

Definition set_listeners (l : gmap string (list callback)) (s : service)
  : service :=
  {| ws := ws s; reconnectAttempts := reconnectAttempts s;
     listeners := l; timers := timers s; sent := sent s;
     errorLog := errorLog s |}.

(** [setTimeout(action, delay)]. *)
Definition setTimeout (a : timerAction) (delay : Z) (s : service) : service :=
  {| ws := ws s; reconnectAttempts := reconnectAttempts s;
     listeners := listeners s; timers := timers s ++ [(delay, a)];
     sent := sent s; errorLog := errorLog s |}.

Definition console_error (msg : string) (s : service) : service :=
  {| ws := ws s; reconnectAttempts := reconnectAttempts s;
     listeners := listeners s; timers := timers s; sent := sent s;
     errorLog := errorLog s ++ [msg] |}.

(** [on(event, callback)]. *)
Definition on (event : string) (cb : callback) (s : service) : service :=
  let l := match listeners s !! event with
           | Some _ => listeners s
           | None => <[event := []]> (listeners s)
           end in
  set_listeners (<[event := push (default [] (l !! event)) cb]> l) s.

(** [off(event, callback)]. *)
Definition off (event : string) (cb : callback) (s : service) : service :=
  match listeners s !! event with
  | Some callbacks =>
      let index := indexOf callbacks cb in
      if (index >? -1)%Z
      then set_listeners (<[event := splice1 callbacks index]> (listeners s)) s
      else s
  | None => s
  end.

(** [send(data)]: [true] when the socket is open. *)
Definition send (m : outbound) (s : service) : service * bool :=
  match ws s with
  | Some OPEN =>
      ({| ws := ws s; reconnectAttempts := reconnectAttempts s;
          listeners := listeners s; timers := timers s;
          sent := sent s ++ [m]; errorLog := errorLog s |}, true)
  | _ => (s, false)
  end.

Definition requestInitialData (s : service) : service :=
  fst (send GetInitialData s).

(** The delay computed in [ws.onclose], from the counter after its
    increment. *)
Definition reconnectDelay (attempts : Z) : Z :=
  Z.min (3000 * attempts) 30000.

(** The reconnections waiting in the timer queue. *)
Definition isReconnect (t : Z * timerAction) : bool :=
  match snd t with RunConnect => true | RunRequestInitialData => false end.

Definition pendingReconnects (s : service) : nat :=
  length (filter (fun t => isReconnect t = true) (timers s)).

(** The state the service is left in when the last attempt has failed. *)
Definition gaveUp (s : service) : Prop :=
  reconnectAttempts s = maxReconnectAttempts
  /\ pendingReconnects s = 0%nat
  /\ ws s <> Some CONNECTING.

Section Callbacks.

Context {D W : Type}.
Variable JSON_parse : string -> option D.
Variable impl : callback -> handler D W.

(** The body of the [forEach] in [emit]: every callback runs inside its own
    [try]; [invoked] records the calls made. *)
Fixpoint forEach_callback (event : string) (cbs : list callback)
  (data : payload D) (s : service) (w : W) (invoked : list callback)
  : service * W * list callback :=
  match cbs with
  | [] => (s, w, invoked)
  | cb :: cbs' =>
      let '(w', c) := impl cb data w in
      let s' := match c with
                | Normal => s
                | Throws => console_error event s
                end in
      forEach_callback event cbs' data s' w' (invoked ++ [cb])
  end.

(** [emit(event, data)]; the last component lists the callbacks called,
    in call order. *)
Definition emit (event : string) (data : payload D) (s : service) (w : W)
  : service * W * list callback :=
  match listeners s !! event with
  | Some cbs => forEach_callback event cbs data s w []
  | None => (s, w, [])
  end.

(** [connect()]. *)
Definition connect (s : service) : service :=
  match ws s with
  | Some OPEN => s
  | _ => set_ws (Some CONNECTING) s
  end.

(** [disconnect()]. *)
Definition disconnect (s : service) : service :=
  match ws s with
  | Some _ => set_ws None s
  | None => s
  end.

(** [ws.onopen]. *)
Definition onopen (s : service) (w : W) : service * W :=
  let s := set_reconnectAttempts 0 s in
  let '(s, w, _) := emit "connected" Undefined s w in
  (setTimeout RunRequestInitialData 1000 s, w).

(** [ws.onmessage]: [JSON.parse] throws on a malformed payload, which the
    [catch] logs. *)
Definition onmessage (event_data : string) (s : service) (w : W)
  : service * W :=
  match JSON_parse event_data with
  | Some data =>
      let '(s, w, _) := emit "message" (Data data) s w in (s, w)
  | None => (console_error "parse" s, w)
  end.

(** [ws.onclose]. *)
Definition onclose (s : service) (w : W) : service * W :=
  let '(s, w, _) := emit "disconnected" Undefined s w in
  if (reconnectAttempts s <? maxReconnectAttempts)%Z then
    let s := set_reconnectAttempts (reconnectAttempts s + 1) s in
    let delay := reconnectDelay (reconnectAttempts s) in
    (setTimeout RunConnect delay s, w)
  else (s, w).

(** [ws.onerror]. *)
Definition onerror (s : service) (w : W) : service * W :=
  let '(s, w, _) := emit "error" ErrorEvent s w in (s, w).

(** What the transport, the timer queue and the application deliver.  The
    transport sets the socket's [readyState] before it calls the handler,
    and only a socket that is connecting can open; a socket that a later
    [connect()] has replaced is taken to deliver nothing more.
    [TimerFires i] runs the i-th pending timer and removes it. *)
Inductive event : Type :=
| SocketOpens
| SocketMessage (event_data : string)
| SocketCloses
| SocketError
| TimerFires (i : nat)
| CallConnect
| CallDisconnect.

Definition runTimer (a : timerAction) (s : service) : service :=
  match a with
  | RunRequestInitialData => requestInitialData s
  | RunConnect => connect s
  end.

Definition socketState (r : readyState) (s : service) : service :=
  match ws s with
  | Some _ => set_ws (Some r) s
  | None => s
  end.

Definition step (e : event) (sw : service * W) : service * W :=
  let '(s, w) := sw in
  match e with
  | SocketOpens =>
      match ws s with
      | Some CONNECTING => onopen (socketState OPEN s) w
      | _ => (s, w)
      end
  | SocketMessage d => onmessage d s w
  | SocketCloses => onclose (socketState CLOSED s) w
  | SocketError => onerror s w
  | TimerFires i =>
      match timers s !! i with
      | Some (_, a) =>
          (runTimer a
             {| ws := ws s; reconnectAttempts := reconnectAttempts s;
                listeners := listeners s; timers := delete i (timers s);
                sent := sent s; errorLog := errorLog s |}, w)
      | None => (s, w)
      end
  | CallConnect => (connect s, w)
  | CallDisconnect => (disconnect s, w)
  end.

Definition run (es : list event) (sw : service * W) : service * W :=
  fold_left (fun acc e => step e acc) es sw.

End Callbacks.

End WebSocketService.

(** ** The parent dashboard component (MarketDashboard) *)

Module MarketDashboard.

(** A chart point [{x, y}]. *)
Record point : Type := mkPoint { x : Q; y : jsval }.

(** [summary]: adapter id -> metric name -> value. *)
Definition summary : Type := obj (obj jsval).

(** An inbound message after [JSON.parse], read through the fields the
    dispatcher looks at (section 6 of the specification): [data_summary] is
    [data.data?.summary], [summary_field] is [data.summary]; both are
    objects when present. *)
Record message : Type := mkMessage {
  type : option string;
  data_summary : option summary;
  summary_field : option summary;
  test_running : jsval;
  start_time : jsval;
  message_text : option string
}.

(** [JSON.parse] may also return [null], on which [data.type] throws. *)
Inductive decoded : Type :=
| DNull
| DObject (m : message).

(** The reactive state of the component.  [chartDataRef] is the identity of
    the object held in [latencyData] / [successData]: every
    [{...this.latencyData}] allocates a new one, which is what the chart
    components watch.  [clockReads] counts the clock readings made so far.
    The timer handle and the collapse states play no part here. *)
Record dashboard : Type := mkDashboard {
  connected : bool;
  testRunning : bool;
  adapters : obj (obj jsval);
  latencyData : obj (list point);
  successData : obj (list point);
  startTime : jsval;
  chartStartTime : option Q;
  totalDataPoints : Z;
  lastUpdate : jsval;
  notifications : list (option string);
  chartDataRef : nat;
  clockReads : nat
}.

Definition set_connection (c t : bool) (a : obj (obj jsval)) (d : dashboard)
  : dashboard :=
  {| connected := c; testRunning := t; adapters := a;
     latencyData := latencyData d; successData := successData d;
     startTime := startTime d; chartStartTime := chartStartTime d;
     totalDataPoints := totalDataPoints d; lastUpdate := lastUpdate d;
     notifications := notifications d; chartDataRef := chartDataRef d;
     clockReads := clockReads d |}.

Definition set_connected (c : bool) (d : dashboard) : dashboard :=
  set_connection c (testRunning d) (adapters d) d.
Definition set_testRunning (t : bool) (d : dashboard) : dashboard :=
  set_connection (connected d) t (adapters d) d.
Definition set_adapters (a : obj (obj jsval)) (d : dashboard) : dashboard :=
  set_connection (connected d) (testRunning d) a d.

Definition set_series (l s : obj (list point)) (d : dashboard) : dashboard :=
  {| connected := connected d; testRunning := testRunning d;
     adapters := adapters d; latencyData := l; successData := s;
     startTime := startTime d; chartStartTime := chartStartTime d;
     totalDataPoints := totalDataPoints d; lastUpdate := lastUpdate d;
     notifications := notifications d; chartDataRef := S (chartDataRef d);
     clockReads := clockReads d |}.

Definition set_times (st : jsval) (cst : option Q) (d : dashboard)
  : dashboard :=
  {| connected := connected d; testRunning := testRunning d;
     adapters := adapters d; latencyData := latencyData d;
     successData := successData d; startTime := st; chartStartTime := cst;
     totalDataPoints := totalDataPoints d; lastUpdate := lastUpdate d;
     notifications := notifications d; chartDataRef := chartDataRef d;
     clockReads := clockReads d |}.

Definition set_counters (n : Z) (u : jsval) (d : dashboard) : dashboard :=
  {| connected := connected d; testRunning := testRunning d;
     adapters := adapters d; latencyData := latencyData d;
     successData := successData d; startTime := startTime d;
     chartStartTime := chartStartTime d; totalDataPoints := n;
     lastUpdate := u; notifications := notifications d;
     chartDataRef := chartDataRef d; clockReads := clockReads d |}.

Definition notify (m : option string) (d : dashboard) : dashboard :=
  {| connected := connected d; testRunning := testRunning d;
     adapters := adapters d; latencyData := latencyData d;
     successData := successData d; startTime := startTime d;
     chartStartTime := chartStartTime d;
     totalDataPoints := totalDataPoints d; lastUpdate := lastUpdate d;
     notifications := notifications d ++ [m];
     chartDataRef := chartDataRef d; clockReads := clockReads d |}.

(** Milliseconds to seconds: [t / 1000]. *)
Definition seconds (t : Z) : Q := Qred (inject_Z t / 1000).

(** [new Date(v).getTime()]: a number is truncated to whole milliseconds
    within the range of time values; an invalid date has time value [NaN]. *)
Definition Date_getTime (v : jsval) : jsval :=
  match v with
  | JNum q =>
      if Qle_bool (Qabs q) (inject_Z 8640000000000000)
      then JNum (inject_Z (Z.quot (Qnum q) (Zpos (Qden q))))
      else JNaN
  | JBool b => JNum (if b then 1 else 0)
  | JNull => JNum 0
  | JUndefined | JNaN | JTimeString _ => JNaN
  end.

(** The array stored under an adapter, [[]] when there is none yet. *)
Definition series_of (o : obj (list point)) (adapter : string) : list point :=
  default [] (obj_get o adapter).

Definition maxPoints : nat := 100.

(** Both buffers of every adapter have the same length, at most 100. *)
Definition buffers_ok (d : dashboard) : Prop :=
  forall a,
    length (series_of (latencyData d) a) = length (series_of (successData d) a)
    /\ (length (series_of (latencyData d) a) <= maxPoints)%nat.

Section Clock.

Variable clock : nat -> Z.

(** [Date.now()] / [new Date()]: the next clock reading. *)
Definition Date_now (d : dashboard) : Z * dashboard :=
  (clock (clockReads d),
   {| connected := connected d; testRunning := testRunning d;
      adapters := adapters d; latencyData := latencyData d;
      successData := successData d; startTime := startTime d;
      chartStartTime := chartStartTime d;
      totalDataPoints := totalDataPoints d; lastUpdate := lastUpdate d;
      notifications := notifications d; chartDataRef := chartDataRef d;
      clockReads := S (clockReads d) |}).

(** [data()]: the initial state; [startTime: Date.now()]. *)
Definition data : dashboard :=
  {| connected := false; testRunning := true; adapters := [];
     latencyData := []; successData := [];
     startTime := JNum (inject_Z (clock 0)); chartStartTime := None;
     totalDataPoints := 0; lastUpdate := JNull; notifications := [];
     chartDataRef := 0; clockReads := 1 |}.

(** [!this.chartStartTime]: [null] and [0] are both falsy. *)
Definition chartStartTime_unset (d : dashboard) : bool :=
  match chartStartTime d with
  | None => true
  | Some c => Qeq_bool c 0
  end.

(** One series after [push] and the conditional [shift]. *)
Definition appendPoint (o : obj (list point)) (adapter : string) (p : point)
  : obj (list point) :=
  let o := match obj_get o adapter with
           | Some _ => o
           | None => obj_set o adapter []
           end in
  let o := obj_set o adapter (push (series_of o adapter) p) in
  if (maxPoints <? length (series_of o adapter))%nat
  then obj_set o adapter (shift (series_of o adapter))
  else o.

(** [updateChartData(adapter, metrics)]. *)
Definition updateChartData (adapter : string) (metrics : obj jsval)
  (d : dashboard) : dashboard :=
  let d := if chartStartTime_unset d
           then let '(t, d) := Date_now d in
                set_times (startTime d) (Some (seconds t)) d
           else d in
  let '(t, d) := Date_now d in
  let now := seconds t in
  let elapsedSeconds :=
    Qred (now - default 0%Q (chartStartTime d)) in
  let latencyPoint :=
    {| x := elapsedSeconds;
       y := js_or (obj_field metrics "avg_latency_ms") (JNum 0) |} in
  let successPoint :=
    {| x := elapsedSeconds;
       y := js_mul (js_or (obj_field metrics "success_rate") (JNum 0))
                   (JNum 100) |} in
  set_series (appendPoint (latencyData d) adapter latencyPoint)
             (appendPoint (successData d) adapter successPoint) d.

(** The body of the [forEach] in [updateAdapters]. *)
Definition updateAdapter (d : dashboard) (entry : string * obj jsval)
  : dashboard :=
  let '(adapter, metrics) := entry in
  let '(t, d) := Date_now d in
  let previous := default [] (obj_get (adapters d) adapter) in
  let record :=
    obj_set (obj_spread previous metrics) "lastUpdate" (JTimeString t) in
  let d := set_adapters (obj_set (adapters d) adapter record) d in
  updateChartData adapter metrics d.

(** [updateAdapters(summary)]. *)
Definition updateAdapters (s : summary) (d : dashboard) : dashboard :=
  fold_left updateAdapter s d.

(** [markAdaptersOffline()]. *)
Definition markAdaptersOffline (d : dashboard) : dashboard :=
  set_adapters
    (fold_left
       (fun a adapter =>
          match obj_get a adapter with
          | Some record =>
              obj_set a adapter (obj_set record "is_connected" (JBool false))
          | None => a
          end)
       (obj_keys (adapters d)) (adapters d))
    d.

(** The record of an adapter once it is marked. *)
Definition offline (record : obj jsval) : obj jsval :=
  obj_set record "is_connected" (JBool false).

(** Every adapter record carries [is_connected: false]. *)
Definition all_offline (d : dashboard) : Prop :=
  forall a record, obj_get (adapters d) a = Some record ->
    obj_field record "is_connected" = JBool false.

(** The chart epoch is set and is not the instant 0. *)
Definition epoch_is (c : Q) (d : dashboard) : Prop :=
  chartStartTime d = Some c /\ Qeq_bool c 0 = false.

(** [handleWebSocketMessage(data)]. *)
Definition handleWebSocketMessage (msg : decoded) (d : dashboard)
  : dashboard * WebSocketService.completion :=
  let '(t, d) := Date_now d in
  let d := set_counters (totalDataPoints d + 1) (JTimeString t) d in
  match msg with
  | DNull => (d, WebSocketService.Throws)
  | DObject m =>
      let d :=
        match type m with
        | Some "metrics_update" =>
            updateAdapters (default [] (data_summary m)) d
        | Some "status" =>
            let d := set_testRunning (js_not_false (test_running m)) d in
            match summary_field m with
            | Some s => updateAdapters s d
            | None => d
            end
        | Some "initial_data" =>
            let d := if truthy (start_time m)
                     then set_times (Date_getTime (start_time m))
                                    (chartStartTime d) d
                     else d in
            match summary_field m with
            | Some s => updateAdapters s d
            | None => d
            end
        | Some "test_complete" =>
            notify (message_text m) (set_testRunning false d)
        | Some "summary" =>
            match summary_field m with
            | Some s => updateAdapters s d
            | None => d
            end
        | _ => d
        end in
      (d, WebSocketService.Normal)
  end.

(** The three callbacks registered in [mounted()]. *)
Definition onConnected : WebSocketService.callback := 0%nat.
Definition onDisconnected : WebSocketService.callback := 1%nat.
Definition onMessage : WebSocketService.callback := 2%nat.

Definition impl (cb : WebSocketService.callback)
  : WebSocketService.handler decoded dashboard :=
  fun p d =>
    match cb with
    | 0%nat => (set_connected true d, WebSocketService.Normal)
    | 1%nat =>
        (markAdaptersOffline (set_testRunning false (set_connected false d)),
         WebSocketService.Normal)
    | 2%nat =>
        match p with
        | WebSocketService.Data msg => handleWebSocketMessage msg d
        | _ => handleWebSocketMessage DNull d
        end
    | _ => (d, WebSocketService.Normal)
    end.

(** [mounted()], on the service. *)
Definition mounted (s : WebSocketService.service) : WebSocketService.service :=
  WebSocketService.on "message" onMessage
    (WebSocketService.on "disconnected" onDisconnected
       (WebSocketService.on "connected" onConnected
          (WebSocketService.connect s))).

(** A run of the component: the callbacks are called one after the other,
    each with its payload, however they complete. *)
Definition deliver (d : dashboard)
  (e : WebSocketService.callback * WebSocketService.payload decoded)
  : dashboard :=
  fst (impl (fst e) (snd e) d).

Definition run
  (es : list (WebSocketService.callback * WebSocketService.payload decoded))
  (d : dashboard) : dashboard :=
  fold_left deliver es d.

End Clock.

End MarketDashboard.

(** ** component/LatencyChart.js *)

Module LatencyChart.

Import MarketDashboard.

(** The text that [JSON.stringify] produces, at the level of its lexical
    tokens; two such texts are the same string exactly when their token
    sequences are equal.  A number token carries the number in reduced
    form; [NaN] is written [null]. *)
Inductive token : Type :=
| LBrace | RBrace | LBracket | RBracket | Comma | Colon
| Str (s : string)
| Num (n d : Z)
| Null
| Bool (b : bool)
| TimeStr (t : Z).

Definition Num_of (q : Q) : token :=
  let r := Qred q in Num (Qnum r) (Zpos (Qden r)).

(** The text of a value; [None] for [undefined], whose property is left
    out of the enclosing object. *)
Definition stringify_value (v : jsval) : option (list token) :=
  match v with
  | JUndefined => None
  | JNull | JNaN => Some [Null]
  | JBool b => Some [Bool b]
  | JNum q => Some [Num_of q]
  | JTimeString t => Some [TimeStr t]
  end.

Definition stringify_point (p : point) : list token :=
  [LBrace; Str "x"; Colon; Num_of (x p)]
  ++ match stringify_value (y p) with
     | Some ts => [Comma; Str "y"; Colon] ++ ts
     | None => []
     end
  ++ [RBrace].

(** Items separated by commas. *)
Fixpoint commas (items : list (list token)) : list token :=
  match items with
  | [] => []
  | [i] => i
  | i :: rest => i ++ [Comma] ++ commas rest
  end.

Definition stringify_array (ps : list point) : list token :=
  [LBracket] ++ commas (map stringify_point ps) ++ [RBracket].

(** [JSON.stringify] of an object of point arrays. *)
Definition JSON_stringify (o : obj (list point)) : list token :=
  [LBrace]
  ++ commas (map (fun kv => [Str (fst kv); Colon] ++ stringify_array (snd kv)) o)
  ++ [RBrace].

Definition token_eqb (a b : token) : bool :=
  match a, b with
  | LBrace, LBrace | RBrace, RBrace | LBracket, LBracket
  | RBracket, RBracket | Comma, Comma | Colon, Colon | Null, Null => true
  | Str s, Str t => String.eqb s t
  | Num n d, Num n' d' => Z.eqb n n' && Z.eqb d d'
  | Bool b, Bool b' => Bool.eqb b b'
  | TimeStr t, TimeStr t' => Z.eqb t t'
  | _, _ => false
  end.

(** [a === b] on two texts. *)
Fixpoint text_eqb (a b : list token) : bool :=
  match a, b with
  | [], [] => true
  | t :: a', u :: b' => token_eqb t u && text_eqb a' b'
  | _, _ => false
  end.

Inductive status : Type :=
| WaitingForData
| UpdatingChart
| ChartReady
| NoValidData
| InitFailed.

(** The state of the component.  [lastDataHash] starts as the empty
    string; [nextTick] is the queue of deferred [initChart(newData)]
    calls. *)
Record chart : Type := mkChart {
  mountedReady : bool;
  showPlaceholder : bool;
  chartStatus : status;
  lastDataHash : list token;
  nextTick : list (obj (list point))
}.

Definition data : chart :=
  {| mountedReady := false; showPlaceholder := true;
     chartStatus := WaitingForData; lastDataHash := []; nextTick := [] |}.

(** [checkDataHasContent(data)]. *)
Definition checkDataHasContent (d : obj (list point)) : bool :=
  existsb (fun kv => (0 <? length (snd kv))%nat) d.

(** The object [hashData] built by [calculateDataHash]. *)
Definition hashData (d : obj (list point)) : obj (list point) :=
  fold_left
    (fun h kv =>
       if (0 <? length (snd kv))%nat
       then obj_set h (fst kv) (slice_last 5 (snd kv))
       else h)
    d [].

(** What [hashData] keeps of an entry, and of which entries. *)
Definition tailEntry (kv : string * list point) : string * list point :=
  (kv.1, slice_last 5 kv.2).

Definition hasPoints (kv : string * list point) : bool :=
  (0 <? length kv.2)%nat.

(** [calculateDataHash(data)]. *)
Definition calculateDataHash (d : obj (list point)) : list token :=
  JSON_stringify (hashData d).

(** The [chartData] watcher. *)
Definition watch_chartData (newData : obj (list point)) (c : chart) : chart :=
  if negb (mountedReady c) then c
  else if negb (checkDataHasContent newData) then
    {| mountedReady := mountedReady c; showPlaceholder := true;
       chartStatus := WaitingForData; lastDataHash := lastDataHash c;
       nextTick := nextTick c |}
  else
    let newHash := calculateDataHash newData in
    if text_eqb newHash (lastDataHash c) then c
    else
      {| mountedReady := mountedReady c; showPlaceholder := false;
         chartStatus := UpdatingChart; lastDataHash := newHash;
         nextTick := nextTick c ++ [newData] |}.

(** [mounted()]. *)
Definition mounted (chartData : obj (list point)) (c : chart) : chart :=
  {| mountedReady := true; showPlaceholder := showPlaceholder c;
     chartStatus := chartStatus c; lastDataHash := lastDataHash c;
     nextTick := if checkDataHasContent chartData
                 then nextTick c ++ [chartData] else nextTick c |}.

(** One aggregation cycle: the parent handles a message, and the watcher
    runs when the parent has assigned a new [latencyData] object. *)
Definition cycle (clock : nat -> Z) (msg : decoded) (dc : dashboard * chart)
  : dashboard * chart :=
  let '(d, c) := dc in
  let d' := fst (handleWebSocketMessage clock msg d) in
  (d', if Nat.eqb (chartDataRef d') (chartDataRef d) then c
       else watch_chartData (latencyData d') c).

End LatencyChart.

(** ** The adapter card component *)

Module AdapterCard.

Record condition : Type := mkCondition {
  cond_condition : string;
  cond_value : Q;
  cond_class : string
}.

Record thresholdRule : Type := mkThresholdRule {
  th_min : Q;
  th_class : string
}.

(** [metricConfig.color]: [conditions] and [thresholds] are absent unless
    the configuration declares them. *)
Record colorConfig : Type := mkColorConfig {
  color_type : string;
  color_value : option string;
  color_conditions : option (list condition);
  color_thresholds : option (list thresholdRule)
}.

Record thresholdPair : Type := mkThresholdPair { good : Q; warning : Q }.

Record metricConfig : Type := mkMetricConfig {
  color : option colorConfig;
  thresholds : option thresholdPair
}.

Record adapterConfig : Type := mkAdapterConfig {
  metrics : obj metricConfig
}.

(** What a method call produces: the returned class ([None] for
    [undefined]) or a [TypeError] (iterating over a missing array). *)
Inductive outcome : Type :=
| Return (c : option string)
| TypeError.

(** The [switch] on [condition.condition]. *)
Definition meetsCondition (value : jsval) (c : condition) : bool :=
  match cond_condition c with
  | ">" => js_gt value (cond_value c)
  | ">=" => js_ge value (cond_value c)
  | "<" => js_lt value (cond_value c)
  | "<=" => js_le value (cond_value c)
  | "=" | "===" => js_strict_eq_num value (cond_value c)
  | _ => false
  end.

(** The loop over [colorConfig.conditions]: the class of the first
    condition met, if any. *)
Fixpoint firstCondition (value : jsval) (cs : list condition)
  : option string :=
  match cs with
  | [] => None
  | c :: cs' =>
      if meetsCondition value c then Some (cond_class c)
      else firstCondition value cs'
  end.

(** The loop over [colorConfig.thresholds]. *)
Fixpoint firstThreshold (value : jsval) (ts : list thresholdRule)
  : option string :=
  match ts with
  | [] => None
  | t :: ts' =>
      if js_ge value (th_min t) then Some (th_class t)
      else firstThreshold value ts'
  end.

(** The good / warning pair. *)
Definition byThresholdPair (value : jsval) (t : thresholdPair) : string :=
  if js_le value (good t) then "text-success"
  else if js_le value (warning t) then "text-warning"
  else "text-danger".

(** [getMetricClass(metricKey)].  The function is a sequence of blocks
    that either return or fall through; [afterConditional], [afterStatic]
    and [afterThreshold] are what remains of the body after the block
    named. *)
Definition getMetricClass (adapterData : obj jsval)
  (config : option adapterConfig) (metricKey : string) : outcome :=
  let value := js_or (obj_field adapterData metricKey) (JNum 0) in
  let metricConfig :=
    match config with
    | Some cfg => obj_get (metrics cfg) metricKey
    | None => None
    end in
  match metricConfig with
  | None => Return (Some "")
  | Some mc =>
      match color mc with
      | None => Return (Some "")
      | Some colorConfig =>
          let afterThreshold :=
            match thresholds mc with
            | Some t => Return (Some (byThresholdPair value t))
            | None => Return (Some "")
            end in
          let afterStatic :=
            if String.eqb (color_type colorConfig) "threshold" then
              match color_thresholds colorConfig with
              | None => TypeError
              | Some ts =>
                  match firstThreshold value ts with
                  | Some c => Return (Some c)
                  | None => afterThreshold
                  end
              end
            else afterThreshold in
          let afterConditional :=
            if String.eqb (color_type colorConfig) "static"
            then Return (color_value colorConfig)
            else afterStatic in
          if String.eqb (color_type colorConfig) "conditional" then
            match color_conditions colorConfig with
            | None => TypeError
            | Some cs =>
                match firstCondition value cs with
                | Some c => Return (Some c)
                | None => afterConditional
                end
            end
          else afterConditional
      end
  end.

(** [latencyClass]. *)
Definition latencyClass (adapterData : obj jsval)
  (config : option adapterConfig) : string :=
  let latency := js_or (obj_field adapterData "avg_latency_ms") (JNum 0) in
  let thresholds :=
    match config with
    | Some cfg =>
        match obj_get (metrics cfg) "avg_latency_ms" with
        | Some mc => thresholds mc
        | None => None
        end
    | None => None
    end in
  match thresholds with
  | Some t => byThresholdPair latency t
  | None =>
      if js_lt latency 50 then "text-success"
      else if js_lt latency 100 then "text-warning"
      else "text-danger"
  end.

(** *** The rule set as the specification words it

    Categories in strict priority order: static colour, conditional
    ladder, threshold ladder, default fallback.  A category answers [None]
    when it has no matching rule, and only then is the next one
    consulted. *)

Definition staticRule (cc : colorConfig) : option outcome :=
  if String.eqb (color_type cc) "static"
  then Some (Return (color_value cc)) else None.

Definition conditionalLadder (value : jsval) (cc : colorConfig)
  : option outcome :=
  if String.eqb (color_type cc) "conditional" then
    match color_conditions cc with
    | None => Some TypeError
    | Some cs => option_map (fun c => Return (Some c)) (firstCondition value cs)
    end
  else None.

Definition thresholdLadder (value : jsval) (cc : colorConfig)
  : option outcome :=
  if String.eqb (color_type cc) "threshold" then
    match color_thresholds cc with
    | None => Some TypeError
    | Some ts => option_map (fun c => Return (Some c)) (firstThreshold value ts)
    end
  else None.

Definition defaultFallback (value : jsval) (mc : metricConfig) : outcome :=
  match thresholds mc with
  | Some t => Return (Some (byThresholdPair value t))
  | None => Return (Some "")
  end.

Fixpoint firstMatch (categories : list (option outcome)) (fallback : outcome)
  : outcome :=
  match categories with
  | [] => fallback
  | Some o :: _ => o
  | None :: rest => firstMatch rest fallback
  end.

Definition classifyByPriority (value : jsval) (mc : metricConfig)
  (cc : colorConfig) : outcome :=
  firstMatch
    [staticRule cc; conditionalLadder value cc; thresholdLadder value cc]
    (defaultFallback value mc).

End AdapterCard.

(** ** The class-based dashboard (dashboard.js) *)

Module Dashboard.

Abbreviation point := MarketDashboard.point.
Abbreviation summary := MarketDashboard.summary.

(** [dataHistory[adapter]]. *)
Record history : Type := mkHistory {
  latency : list point;
  success : list point
}.

(** What an overview card shows of an adapter. *)
Record card : Type := mkCard {
  card_latency : jsval;
  card_successRate : jsval;
  card_isConnected : bool
}.

(** The fields of the instance that the data path touches; [overviewCards]
    is the content of the [#overview-cards] container.  [lastSummary] is
    read by [updateAdaptersToOffline] and assigned nowhere. *)
Record dashboard : Type := mkDashboard {
  connected : bool;
  testRunning : bool;
  dataHistory : obj history;
  chartStartTime : option Q;
  lastSummary : option summary;
  overviewCards : list (string * card);
  reconnects : list Z;
  clockReads : nat
}.

(** Both buffers of every adapter have the same length, at most 100. *)
Definition history_ok (h : obj history) : Prop :=
  forall a e, obj_get h a = Some e ->
    length (latency e) = length (success e)
    /\ (length (latency e) <= 100)%nat.

Definition constructor : dashboard :=
  {| connected := false; testRunning := true; dataHistory := [];
     chartStartTime := None; lastSummary := None; overviewCards := [];
     reconnects := []; clockReads := 0 |}.

Section Clock.

Variable clock : nat -> Z.

Definition Date_now (d : dashboard) : Z * dashboard :=
  (clock (clockReads d),
   {| connected := connected d; testRunning := testRunning d;
      dataHistory := dataHistory d; chartStartTime := chartStartTime d;
      lastSummary := lastSummary d; overviewCards := overviewCards d;
      reconnects := reconnects d; clockReads := S (clockReads d) |}).

Definition set_chart (h : obj history) (c : option Q) (d : dashboard)
  : dashboard :=
  {| connected := connected d; testRunning := testRunning d;
     dataHistory := h; chartStartTime := c;
     lastSummary := lastSummary d; overviewCards := overviewCards d;
     reconnects := reconnects d; clockReads := clockReads d |}.

Definition chartStartTime_unset (d : dashboard) : bool :=
  match chartStartTime d with
  | None => true
  | Some c => Qeq_bool c 0
  end.

(** The body of the [forEach] in [updateCharts]. *)
Definition recordPoint (elapsed : Q) (h : obj history)
  (entry : string * obj jsval) : obj history :=
  let '(adapter, metrics) := entry in
  let latency := js_or (obj_field metrics "avg_latency_ms") (JNum 0) in
  let successRate :=
    js_mul (js_or (obj_field metrics "success_rate") (JNum 0)) (JNum 100) in
  let h := match obj_get h adapter with
           | Some _ => h
           | None => obj_set h adapter {| latency := []; success := [] |}
           end in
  let cur := default {| latency := []; success := [] |} (obj_get h adapter) in
  let cur :=
    {| latency := push (Dashboard.latency cur)
                       (MarketDashboard.mkPoint elapsed latency);
       success := push (success cur)
                       (MarketDashboard.mkPoint elapsed successRate) |} in
  let cur :=
    if (100 <? length (Dashboard.latency cur))%nat
    then {| latency := shift (Dashboard.latency cur);
            success := shift (success cur) |}
    else cur in
  obj_set h adapter cur.

(** [updateCharts(summary)], up to the chart objects. *)
Definition updateCharts (s : summary) (d : dashboard) : dashboard :=
  let d := if chartStartTime_unset d
           then let '(t, d) := Date_now d in
                set_chart (dataHistory d) (Some (MarketDashboard.seconds t)) d
           else d in
  let '(t, d) := Date_now d in
  let now := MarketDashboard.seconds t in
  let elapsed := Qred (now - default 0%Q (chartStartTime d)) in
  set_chart (fold_left (recordPoint elapsed) s (dataHistory d))
            (chartStartTime d) d.

(** [updateOverviewCards(summary)], with the [#overview-cards] container
    in the page: it is emptied and one card is written per entry. *)
Definition updateOverviewCards (s : summary) (d : dashboard) : dashboard :=
  {| connected := connected d; testRunning := testRunning d;
     dataHistory := dataHistory d; chartStartTime := chartStartTime d;
     lastSummary := lastSummary d;
     overviewCards :=
       map (fun entry =>
              (fst entry,
               {| card_latency :=
                    js_or (obj_field (snd entry) "avg_latency_ms") (JNum 0);
                  card_successRate :=
                    js_mul (js_or (obj_field (snd entry) "success_rate")
                                  (JNum 0)) (JNum 100);
                  card_isConnected :=
                    truthy (js_or (obj_field (snd entry) "is_connected")
                                  (JBool false)) |}))
           s;
     reconnects := reconnects d; clockReads := clockReads d |}.

(** [updateDashboard(data)] for [data = { summary }], up to the metrics
    table and the statistics panel. *)
Definition updateDashboard (s : summary) (d : dashboard) : dashboard :=
  updateCharts s (updateOverviewCards s d).

(** The body of the [forEach] in [updateAdaptersToOffline]. *)
Definition offlineEntry (acc : summary * dashboard) (adapter : string)
  : summary * dashboard :=
  let '(offlineSummary, d) := acc in
  let '(t, d) := Date_now d in
  (obj_set offlineSummary adapter
     [("avg_latency_ms", JNum 0); ("success_rate", JNum 0);
      ("messages_received", JNum 0); ("is_connected", JBool false);
      ("last_update", JTimeString t)],
   d).

(** [updateAdaptersToOffline()]. *)
Definition updateAdaptersToOffline (d : dashboard) : dashboard :=
  let adapters :=
    match lastSummary d with
    | Some ((_ :: _) as s) => obj_keys s
    | _ => ["binance"; "polymarket"]
    end in
  let '(offlineSummary, d) := fold_left offlineEntry adapters ([], d) in
  updateDashboard offlineSummary d.

(** [this.ws.onclose]: [reconnects] collects the delays passed to
    [setTimeout] for the reconnection. *)
Definition onclose (d : dashboard) : dashboard :=
  let d :=
    {| connected := false; testRunning := false;
       dataHistory := dataHistory d; chartStartTime := chartStartTime d;
       lastSummary := lastSummary d; overviewCards := overviewCards d;
       reconnects := reconnects d; clockReads := clockReads d |} in
  let d := updateAdaptersToOffline d in
  {| connected := connected d; testRunning := testRunning d;
     dataHistory := dataHistory d; chartStartTime := chartStartTime d;
     lastSummary := lastSummary d; overviewCards := overviewCards d;
     reconnects := reconnects d ++ [3000%Z]; clockReads := clockReads d |}.

(** What the instance reacts to on its data path. *)
Inductive input : Type :=
| Snapshot (s : summary)
| Close.

Definition react (d : dashboard) (i : input) : dashboard :=
  match i with
  | Snapshot s => updateDashboard s d
  | Close => onclose d
  end.

Definition run (inputs : list input) (d : dashboard) : dashboard :=
  fold_left react inputs d.

End Clock.

End Dashboard.

(** ** Adapter ids that every object inherits *)

(** The property names of [Object.prototype].  At such a name [o[k]]
    answers a function (the prototype itself at [__proto__]) unless [o]
    has the key itself, so [!o[k]] is false on a fresh object.  [obj_get]
    reads the own keys: the modules above are the code on ids that are not
    such names, and the two modules below are the merges at any id. *)
Definition Object_prototype : list string :=
  ["constructor"; "__defineGetter__"; "__defineSetter__"; "hasOwnProperty";
   "__lookupGetter__"; "__lookupSetter__"; "isPrototypeOf";
   "propertyIsEnumerable"; "toString"; "valueOf"; "__proto__";
   "toLocaleString"].

Definition inherited (k : string) : bool :=
  existsb (String.eqb k) Object_prototype.

(** A snapshot none of whose ids is inherited. *)
Definition plain_ids {V} (s : obj V) : Prop :=
  Forall (fun k => inherited k = false) (obj_keys s).

(** ** The merge of the parent component at any adapter id *)

Module MarketDashboardAnyId.

Import MarketDashboard.

(** [if (!o[adapter]) o[adapter] = []]: an array and an inherited function
    are both truthy. *)
Definition initSeries (o : obj (list point)) (adapter : string)
  : obj (list point) :=
  match obj_get o adapter with
  | Some _ => o
  | None => if inherited adapter then o else obj_set o adapter []
  end.

(** [o[adapter].push(p)]; [None] is the [TypeError] raised when [o] has no
    array of its own under the key. *)
Definition pushPoint (o : obj (list point)) (adapter : string) (p : point)
  : option (obj (list point)) :=
  match obj_get o adapter with
  | Some series => Some (obj_set o adapter (push series p))
  | None => None
  end.

(** [if (o[adapter].length > maxPoints) o[adapter].shift()]. *)
Definition trimSeries (o : obj (list point)) (adapter : string)
  : obj (list point) :=
  if (maxPoints <? length (series_of o adapter))%nat
  then obj_set o adapter (shift (series_of o adapter))
  else o.

(** The series as the mutations in place leave them when the function is
    left by an exception: the two objects are not replaced. *)
Definition set_series_in_place (l s : obj (list point)) (d : dashboard)
  : dashboard :=
  {| connected := connected d; testRunning := testRunning d;
     adapters := adapters d; latencyData := l; successData := s;
     startTime := startTime d; chartStartTime := chartStartTime d;
     totalDataPoints := totalDataPoints d; lastUpdate := lastUpdate d;
     notifications := notifications d; chartDataRef := chartDataRef d;
     clockReads := clockReads d |}.

Section Clock.

Variable clock : nat -> Z.

(** [updateChartData(adapter, metrics)], with the exception it raises at
    an id that the series objects inherit. *)
Definition updateChartData (adapter : string) (metrics : obj jsval)
  (d : dashboard) : dashboard * WebSocketService.completion :=
  let d := if chartStartTime_unset d
           then let '(t, d) := Date_now clock d in
                set_times (startTime d) (Some (seconds t)) d
           else d in
  let '(t, d) := Date_now clock d in
  let now := seconds t in
  let elapsedSeconds :=
    Qred (now - default 0%Q (chartStartTime d)) in
  let latencyData := initSeries (latencyData d) adapter in
  let successData := initSeries (successData d) adapter in
  let latencyPoint :=
    {| x := elapsedSeconds;
       y := js_or (obj_field metrics "avg_latency_ms") (JNum 0) |} in
  let successPoint :=
    {| x := elapsedSeconds;
       y := js_mul (js_or (obj_field metrics "success_rate") (JNum 0))
                   (JNum 100) |} in
  match pushPoint latencyData adapter latencyPoint with
  | None =>
      (set_series_in_place latencyData successData d,
       WebSocketService.Throws)
  | Some latencyData =>
      match pushPoint successData adapter successPoint with
      | None =>
          (set_series_in_place latencyData successData d,
           WebSocketService.Throws)
      | Some successData =>
          (set_series (trimSeries latencyData adapter)
                      (trimSeries successData adapter) d,
           WebSocketService.Normal)
      end
  end.

(** The body of the [forEach] in [updateAdapters].  The spread of an
    inherited function copies nothing; the assignment at [__proto__]
    replaces the prototype of [adapters] and gives it no key. *)
Definition updateAdapter (d : dashboard) (entry : string * obj jsval)
  : dashboard * WebSocketService.completion :=
  let '(adapter, metrics) := entry in
  let '(t, d) := Date_now clock d in
  let previous := default [] (obj_get (adapters d) adapter) in
  let record :=
    obj_set (obj_spread previous metrics) "lastUpdate" (JTimeString t) in
  let d := if String.eqb adapter "__proto__" then d
           else set_adapters (obj_set (adapters d) adapter record) d in
  updateChartData adapter metrics d.

(** [updateAdapters(summary)]: an exception ends the [forEach]. *)
Fixpoint updateAdapters (s : summary) (d : dashboard)
  : dashboard * WebSocketService.completion :=
  match s with
  | [] => (d, WebSocketService.Normal)
  | entry :: rest =>
      let '(d, c) := updateAdapter d entry in
      match c with
      | WebSocketService.Normal => updateAdapters rest d
      | WebSocketService.Throws => (d, WebSocketService.Throws)
      end
  end.

(** A sequence of snapshot merges, each one left where it ends or
    throws. *)
Definition merges (snapshots : list summary) (d : dashboard) : dashboard :=
  fold_left (fun d s => (updateAdapters s d).1) snapshots d.

End Clock.

(** No series is stored under an inherited name. *)
Definition plain_series (d : dashboard) : Prop :=
  forall a, inherited a = true ->
    obj_get (latencyData d) a = None /\ obj_get (successData d) a = None.

End MarketDashboardAnyId.

(** ** [updateCharts] of dashboard.js at any adapter id *)

Module DashboardAnyId.

Import Dashboard.

(** The body of the [forEach] in [updateCharts]; [None] is the
    [TypeError] raised at [dataHistory[adapter].latency.push] when
    [dataHistory[adapter]] is an inherited function. *)
Definition recordPoint (elapsed : Q) (h : obj history)
  (entry : string * obj jsval) : option (obj history) :=
  let '(adapter, metrics) := entry in
  let latency := js_or (obj_field metrics "avg_latency_ms") (JNum 0) in
  let successRate :=
    js_mul (js_or (obj_field metrics "success_rate") (JNum 0)) (JNum 100) in
  let h := match obj_get h adapter with
           | Some _ => h
           | None =>
               if inherited adapter then h
               else obj_set h adapter {| latency := []; success := [] |}
           end in
  match obj_get h adapter with
  | None => None
  | Some cur =>
      let cur :=
        {| latency := push (Dashboard.latency cur)
                           (MarketDashboard.mkPoint elapsed latency);
           success := push (success cur)
                           (MarketDashboard.mkPoint elapsed successRate) |} in
      let cur :=
        if (100 <? length (Dashboard.latency cur))%nat
        then {| latency := shift (Dashboard.latency cur);
                success := shift (success cur) |}
        else cur in
      Some (obj_set h adapter cur)
  end.

(** The [forEach] of [updateCharts]: an exception ends it. *)
Fixpoint recordPoints (elapsed : Q) (s : summary) (h : obj history)
  : obj history * WebSocketService.completion :=
  match s with
  | [] => (h, WebSocketService.Normal)
  | entry :: rest =>
      match recordPoint elapsed h entry with
      | Some h => recordPoints elapsed rest h
      | None => (h, WebSocketService.Throws)
      end
  end.

Section Clock.

Variable clock : nat -> Z.

(** [updateCharts(summary)], up to the chart objects. *)
Definition updateCharts (s : summary) (d : dashboard)
  : dashboard * WebSocketService.completion :=
  let d := if chartStartTime_unset d
           then let '(t, d) := Date_now clock d in
                set_chart (dataHistory d) (Some (MarketDashboard.seconds t)) d
           else d in
  let '(t, d) := Date_now clock d in
  let now := MarketDashboard.seconds t in
  let elapsed := Qred (now - default 0%Q (chartStartTime d)) in
  let '(h, c) := recordPoints elapsed s (dataHistory d) in
  (set_chart h (chartStartTime d) d, c).


End Clock.


End DashboardAnyId.

(** ** The time axis of the series *)

Module MarketDashboardAxis.

Import MarketDashboard.

Section Clock.

Variable clock : nat -> Z.

(** The order of two points along the time axis. *)
Definition le_x (p q : point) : Prop := Qle (x p) (x q).

(** What the series look like along the time axis: before the first merge
    there is no epoch and no point; afterwards the epoch is a past clock
    reading other than the instant 0, and every series is sorted by [x],
    with every [x] between 0 and the time elapsed since the epoch. *)
Definition x_axis_ok (d : dashboard) : Prop :=
  match chartStartTime d with
  | None => latencyData d = [] /\ successData d = []
  | Some c =>
      Qeq_bool c 0 = false
      /\ (forall m, (clockReads d <= m)%nat -> Qle c (seconds (clock m)))
      /\ forall o, o = latencyData d \/ o = successData d ->
         forall a,
           StronglySorted le_x (series_of o a)
           /\ Forall (fun p =>
                        Qle 0 (x p)
                        /\ forall m, (clockReads d <= m)%nat ->
                                     Qle (x p) (seconds (clock m) - c))
                     (series_of o a)
  end.

End Clock.

End MarketDashboardAxis.

(** ** The parent dashboard component: elapsed time, collapse states *)

Module MarketDashboardView.

Import MarketDashboard.

(** [n.toString()] for an integer or [NaN] (integers below 10^21 in
    absolute value, as every difference of two time values is). *)
Definition Number_toString (n : option Z) : string :=
  match n with
  | Some z => pretty z
  | None => "NaN"
  end.

(** [s.padStart(targetLength, padString)]. *)
Definition padStart (targetLength : nat) (padString s : string) : string :=
  let len := String.length s in
  if (targetLength <=? len)%nat || (String.length padString =? 0)%nat then s
  else
    String.substring 0 (targetLength - len)
      (String.concat "" (repeat padString (targetLength - len)))
    +:+ s.

(** The computed property [elapsedTime]; it reads the clock. *)
Definition elapsedTime (clock : nat -> Z) (d : dashboard)
  : string * dashboard :=
  let '(now, d) := Date_now clock d in
  let seconds :=
    option_map (fun t => Qfloor ((inject_Z now - t) / 1000))
               (ToNumber (startTime d)) in
  let hours := option_map (fun s => (s / 3600)%Z) seconds in
  let minutes := option_map (fun s => (Z.rem s 3600 / 60)%Z) seconds in
  let secs := option_map (fun s => Z.rem s 60) seconds in
  (padStart 2 "0" (Number_toString hours) +:+ ":"
   +:+ padStart 2 "0" (Number_toString minutes) +:+ ":"
   +:+ padStart 2 "0" (Number_toString secs),
   d).

(** [localStorage]: reading fails when access to the storage is denied,
    writing also when the quota is used up. *)
Record localStorage : Type := mkStorage {
  items : gmap string string;
  readable : bool;
  writable : bool
}.

(** [localStorage.getItem(key)]; the outer [None] is an exception, the
    inner one is [null]. *)
Definition getItem (st : localStorage) (key : string)
  : option (option string) :=
  if readable st then Some (items st !! key) else None.

(** [localStorage.setItem(key, value)]; [None] is an exception. *)
Definition setItem (st : localStorage) (key value : string)
  : option localStorage :=
  if writable st
  then Some {| items := <[key := value]> (items st);
               readable := readable st; writable := writable st |}
  else None.

(** The string a boolean is stored as. *)
Definition Boolean_toString (b : bool) : string :=
  if b then "true" else "false".

(** [toggleCollapse(adapterName)], on [collapseStates] and the storage. *)
Definition toggleCollapse (adapterName : string)
  (cs : obj bool * localStorage) : obj bool * localStorage :=
  let '(collapseStates, st) := cs in
  let collapseStates :=
    obj_set collapseStates adapterName
            (negb (default false (obj_get collapseStates adapterName))) in
  match setItem st ("collapse_" +:+ adapterName)
                (Boolean_toString
                   (default false (obj_get collapseStates adapterName))) with
  | Some st' => (collapseStates, st')
  | None => (collapseStates, st)
  end.

(** The body of the [forEach] at the end of [mounted()]. *)
Definition loadCollapseState (st : localStorage) (collapseStates : obj bool)
  (adapter : string) : obj bool :=
  match getItem st ("collapse_" +:+ adapter) with
  | Some (Some storedState) =>
      obj_set collapseStates adapter (String.eqb storedState "true")
  | Some None => collapseStates
  | None => collapseStates
  end.

(** The end of [mounted()]: the stored states of the configured
    adapters. *)
Definition loadCollapseStates {C} (adapterConfig : obj C)
  (st : localStorage) (collapseStates : obj bool) : obj bool :=
  fold_left (loadCollapseState st) (obj_keys adapterConfig) collapseStates.

End MarketDashboardView.

(** ** The parent component: unmounting *)

Module MarketDashboardUnmount.

Import WebSocketService MarketDashboard.

(** [beforeUnmount()], on the service: the message handler is
    unsubscribed and the connection is closed. *)
Definition beforeUnmount (s : service) : service :=
  disconnect (off "message" onMessage s).

End MarketDashboardUnmount.

(** ** component/LatencyChart.js: the chart object *)

Module LatencyChartPanel.

Import MarketDashboard LatencyChart.

(** A value after [JSON.parse(JSON.stringify(...))]: [NaN] comes back as
    [null]; a property that held [undefined] does not come back, which
    reads as [undefined] again. *)
Definition JSON_roundtrip (v : jsval) : jsval :=
  match v with
  | JNaN => JNull
  | _ => v
  end.

(** [a ?? b]. *)
Definition nullish (a b : jsval) : jsval :=
  match a with
  | JUndefined | JNull => b
  | _ => a
  end.

(** What [buildDatasets] puts into a dataset, up to the constant styling
    fields. *)
Record dataset : Type := mkDataset {
  label : string;
  dataset_data : list point;
  borderColor : string
}.

(** [colors[name] || colors.default]. *)
Definition colors (name : string) : string :=
  match name with
  | "binance" => "#f0b90b"
  | "polymarket" => "#8b5cf6"
  | _ => "#3b82f6"
  end.

(** [buildDatasets(raw)] for an object of point arrays with distinct
    keys. *)
Definition buildDatasets (raw : obj (list point)) : list dataset :=
  fold_left
    (fun datasets entry =>
       let '(name, arr) := entry in
       if (length arr =? 0)%nat then datasets
       else
         let points :=
           map (fun p => mkPoint (x p) (nullish (JSON_roundtrip (y p)) (JNum 0)))
               arr in
         push datasets
              {| label := name; dataset_data := points;
                 borderColor := colors name |})
    raw [].

(** The component together with the chart objects of the chart library:
    [chartObject] is [this.chart], [liveCharts] are the objects constructed
    and not destroyed, in construction order, each named by its rank among
    all constructions. *)
Record panel : Type := mkPanel {
  component : chart;
  chartObject : option nat;
  liveCharts : list nat;
  constructed : nat
}.

Definition set_display (placeholder : bool) (st : status) (c : chart)
  : chart :=
  {| mountedReady := mountedReady c; showPlaceholder := placeholder;
     chartStatus := st; lastDataHash := lastDataHash c;
     nextTick := nextTick c |}.

(** [this.chart.destroy(); this.chart = null] when there is a chart. *)
Definition destroyChart (p : panel) : panel :=
  match chartObject p with
  | Some h =>
      {| component := component p; chartObject := None;
         liveCharts := filter (fun h' => h' <> h) (liveCharts p);
         constructed := constructed p |}
  | None => p
  end.

(** [initChart(data)]: [canvas] tells whether [$refs.chartCanvas] is
    there, [Chart_throws] whether the constructor of the chart throws. *)
Definition initChart (canvas Chart_throws : bool) (data : obj (list point))
  (p : panel) : panel :=
  if negb canvas then p
  else
    let p := destroyChart p in
    let datasets := buildDatasets data in
    if (length datasets =? 0)%nat then
      {| component := set_display true NoValidData (component p);
         chartObject := chartObject p; liveCharts := liveCharts p;
         constructed := constructed p |}
    else if Chart_throws then
      {| component := set_display true InitFailed (component p);
         chartObject := chartObject p; liveCharts := liveCharts p;
         constructed := constructed p |}
    else
      {| component := set_display false ChartReady (component p);
         chartObject := Some (constructed p);
         liveCharts := liveCharts p ++ [constructed p];
         constructed := S (constructed p) |}.

(** [beforeUnmount()]. *)
Definition beforeUnmount (p : panel) : panel := destroyChart p.

(** The component once mounted: the watcher has run once before, as it is
    [immediate].  The call that [mounted] defers reads [this.chartData]
    when it runs; it is taken to run before the property changes, so it
    is queued with the bundle of the moment of mounting. *)
Definition setup (chartData : obj (list point)) : panel :=
  {| component := mounted chartData (watch_chartData chartData data);
     chartObject := None; liveCharts := []; constructed := 0 |}.

(** What happens to a mounted component: the property changes (to a new
    bundle; a bundle is not emptied in place), the first deferred call
    runs, the component is unmounted. *)
Inductive event : Type :=
| ChartDataChanges (newData : obj (list point))
| NextTick (canvas Chart_throws : bool)
| BeforeUnmount.

Definition step (p : panel) (e : event) : panel :=
  match e with
  | ChartDataChanges newData =>
      {| component := watch_chartData newData (component p);
         chartObject := chartObject p; liveCharts := liveCharts p;
         constructed := constructed p |}
  | NextTick canvas Chart_throws =>
      match nextTick (component p) with
      | [] => p
      | newData :: rest =>
          initChart canvas Chart_throws newData
            {| component :=
                 {| mountedReady := mountedReady (component p);
                    showPlaceholder := showPlaceholder (component p);
                    chartStatus := chartStatus (component p);
                    lastDataHash := lastDataHash (component p);
                    nextTick := rest |};
               chartObject := chartObject p; liveCharts := liveCharts p;
               constructed := constructed p |}
      end
  | BeforeUnmount => beforeUnmount p
  end.

Definition run (es : list event) (p : panel) : panel :=
  fold_left step es p.

(** The chart objects alive are the one the component holds, if any. *)
Definition one_chart (p : panel) : Prop :=
  liveCharts p = match chartObject p with
                 | Some h => [h]
                 | None => []
                 end.

(** Every deferred rebuild is for a bundle with content. *)
Definition queue_ok (p : panel) : Prop :=
  Forall (fun d => checkDataHasContent d = true) (nextTick (component p))
  /\ chartStatus (component p) <> NoValidData.

End LatencyChartPanel.

(** ** How bad a latency class is *)

Module AdapterCardOrder.

(** The three classes that [latencyClass] returns, from good to bad. *)
Definition severity (class : string) : nat :=
  match class with
  | "text-success" => 0
  | "text-warning" => 1
  | _ => 2
  end.

End AdapterCardOrder.

(** ** dashboard.js: reset and collapse states *)

Module DashboardStorage.

Import Dashboard MarketDashboardView.

(** [resetCharts()], up to the chart objects. *)
Definition resetCharts (d : dashboard) : dashboard := set_chart [] None d.

(** [this.collapseStates] as the constructor leaves it. *)
Definition collapseStates0 : obj bool :=
  [("binance", true); ("polymarket", true)].


(** [_getCollapseState(adapter)]. *)
Definition _getCollapseState (st : localStorage) (adapter : string) : bool :=
  match getItem st ("collapse_" +:+ adapter) with
  | Some (Some storedState) => String.eqb storedState "expanded"
  | Some None => true
  | None => true
  end.


(** [isCollapsed] as [updateOverviewCards] computes it for the
    subscription list on the card of an adapter. *)
Definition isCollapsed (collapseStates : obj bool) (st : localStorage)
  (adapter : string) : bool :=
  let isCollapsed :=
    match obj_get collapseStates adapter with
    | Some false => true
    | _ => false
    end in
  match getItem st ("collapse_" +:+ adapter) with
  | Some (Some storedState) => String.eqb storedState "collapsed"
  | Some None => isCollapsed
  | None => isCollapsed
  end.

End DashboardStorage.

(** * Properties *)

(** ** Objects and arrays *)

Lemma obj_get_set_eq {V} (o : obj V) k v : obj_get (obj_set o k v) k = Some v.
Proof.
  induction o as [|[k' v'] o IH]; simpl.
  - by rewrite String.eqb_refl.
  - destruct (String.eqb k' k) eqn:E; simpl; rewrite E; [done | exact IH].
Qed.

Lemma obj_get_set_ne {V} (o : obj V) k k' v :
  k ≠ k' -> obj_get (obj_set o k v) k' = obj_get o k'.
Proof.
  intros Hne. induction o as [|[k0 v0] o IH]; simpl.
  - destruct (String.eqb k k') eqn:E; [|done].
    apply String.eqb_eq in E. contradiction.
  - destruct (String.eqb k0 k) eqn:E; simpl.
    + apply String.eqb_eq in E. subst k0.
      destruct (String.eqb k k') eqn:E'; [|done].
      apply String.eqb_eq in E'. contradiction.
    + by rewrite IH.
Qed.

Lemma obj_get_set {V} (o : obj V) k k' v :
  obj_get (obj_set o k v) k' =
  if String.eqb k k' then Some v else obj_get o k'.
Proof.
  destruct (String.eqb k k') eqn:E.
  - apply String.eqb_eq in E. subst. apply obj_get_set_eq.
  - apply String.eqb_neq in E. by apply obj_get_set_ne.
Qed.

Lemma obj_keys_set_present {V} (o : obj V) k v w :
  obj_get o k = Some w -> obj_keys (obj_set o k v) = obj_keys o.
Proof.
  unfold obj_keys. induction o as [|[k0 v0] o IH]; simpl; [done|].
  destruct (String.eqb k0 k) eqn:E; simpl; [done|].
  intros H. by rewrite IH.
Qed.

Lemma length_push {A} (l : list A) a : length (push l a) = S (length l).
Proof. unfold push. rewrite length_app. simpl. lia. Qed.

Lemma length_shift {A} (l : list A) : length (shift l) = pred (length l).
Proof. by destruct l. Qed.

(** ** The series buffers of the component *)

Section SeriesBuffers.

Import MarketDashboard.

Variable clock : nat -> Z.

(** The array an adapter has after [appendPoint]. *)
Lemma series_of_appendPoint o a p a' :
  series_of (appendPoint o a p) a' =
  if String.eqb a a' then
    if (maxPoints <? length (push (series_of o a) p))%nat
    then shift (push (series_of o a) p)
    else push (series_of o a) p
  else series_of o a'.
Proof.
  unfold appendPoint, series_of.
  set (o1 := match obj_get o a with Some _ => o | None => obj_set o a [] end).
  assert (H1 : default [] (obj_get o1 a) = default [] (obj_get o a)).
  { subst o1. destruct (obj_get o a) eqn:E; [by rewrite E|].
    by rewrite obj_get_set_eq. }
  assert (H2 : a ≠ a' -> obj_get o1 a' = obj_get o a').
  { intros Hne. subst o1. destruct (obj_get o a); [done|].
    by apply obj_get_set_ne. }
  rewrite !obj_get_set_eq. simpl. rewrite H1.
  destruct (maxPoints <? _)%nat; rewrite !obj_get_set;
    destruct (String.eqb a a') eqn:E; try done;
    apply String.eqb_neq in E; by rewrite H2.
Qed.

Lemma appendPoint_length o a p a' n :
  length (series_of o a') = n -> (n <= maxPoints)%nat ->
  length (series_of (appendPoint o a p) a') =
    (if String.eqb a a' then (if (n <? maxPoints)%nat then S n else n) else n)
  /\ (length (series_of (appendPoint o a p) a') <= maxPoints)%nat.
Proof.
  intros Hn Hle. rewrite series_of_appendPoint.
  destruct (String.eqb a a') eqn:E; [|by rewrite Hn].
  apply String.eqb_eq in E. subst a'.
  rewrite length_push, Hn.
  destruct (maxPoints <? S n)%nat eqn:F.
  - apply Nat.ltb_lt in F.
    rewrite length_shift, length_push, Hn. simpl.
    assert (G : (n <? maxPoints)%nat = false) by (apply Nat.ltb_ge; lia).
    rewrite G. lia.
  - apply Nat.ltb_ge in F. rewrite length_push, Hn.
    assert (G : (n <? maxPoints)%nat = true) by (apply Nat.ltb_lt; lia).
    rewrite G. lia.
Qed.

Lemma updateChartData_series a metrics d :
  exists lp sp,
    latencyData (updateChartData clock a metrics d)
      = appendPoint (latencyData d) a lp
    /\ successData (updateChartData clock a metrics d)
      = appendPoint (successData d) a sp
    /\ y lp = js_or (obj_field metrics "avg_latency_ms") (JNum 0)
    /\ y sp = js_mul (js_or (obj_field metrics "success_rate") (JNum 0))
                     (JNum 100)
    /\ x lp = x sp.
Proof.
  unfold updateChartData.
  destruct (chartStartTime_unset d); simpl; eauto 10.
Qed.

Lemma updateChartData_ok a metrics d :
  buffers_ok d -> buffers_ok (updateChartData clock a metrics d).
Proof.
  intros H a'. destruct (updateChartData_series a metrics d)
    as (lp & sp & -> & -> & _).
  destruct (H a') as [He Hl].
  destruct (appendPoint_length (latencyData d) a lp a' _ eq_refl Hl) as [E1 L1].
  assert (Hl' : (length (series_of (successData d) a') <= maxPoints)%nat)
    by (rewrite <- He; exact Hl).
  destruct (appendPoint_length (successData d) a sp a' _ eq_refl Hl')
    as [E2 L2].
  split; [|exact L1]. rewrite E1, E2, He. done.
Qed.

Lemma updateAdapter_ok d entry :
  buffers_ok d -> buffers_ok (updateAdapter clock d entry).
Proof.
  intros H. destruct entry as [a m]. unfold updateAdapter. simpl.
  apply updateChartData_ok. exact H.
Qed.

Lemma updateAdapters_ok s d :
  buffers_ok d -> buffers_ok (updateAdapters clock s d).
Proof.
  unfold updateAdapters. revert d.
  induction s as [|e s IH]; intros d H; simpl; [done|].
  apply IH. by apply updateAdapter_ok.
Qed.

Lemma handleWebSocketMessage_ok msg d :
  buffers_ok d -> buffers_ok (fst (handleWebSocketMessage clock msg d)).
Proof.
  intros H. unfold handleWebSocketMessage. simpl.
  destruct msg as [|m]; simpl; [exact H|].
  destruct (type m) as [ty|]; [|exact H].
  repeat (match goal with
          | |- context [match ?s with EmptyString => _ | String _ _ => _ end] =>
              destruct s; try exact H
          | |- context [match ?a with Ascii.Ascii _ _ _ _ _ _ _ _ => _ end] =>
              destruct a
          | |- context [if ?b then _ else _] => destruct b; try exact H
          end).
  all: try (destruct (summary_field m));
    try (apply updateAdapters_ok); try exact H.
Qed.

End SeriesBuffers.

Section SeriesBuffersRun.

Import MarketDashboard.

Variable clock : nat -> Z.

Lemma markAdaptersOffline_series d :
  latencyData (markAdaptersOffline d) = latencyData d
  /\ successData (markAdaptersOffline d) = successData d.
Proof. done. Qed.

Lemma impl_ok cb p d :
  buffers_ok d -> buffers_ok (fst (impl clock cb p d)).
Proof.
  intros H. unfold impl.
  destruct cb as [|[|[|cb]]]; simpl; try exact H.
  destruct p; by apply handleWebSocketMessage_ok.
Qed.

Lemma run_ok es d : buffers_ok d -> buffers_ok (run clock es d).
Proof.
  unfold run. revert d.
  induction es as [|e es IH]; intros d H; simpl; [done|].
  apply IH. unfold deliver. by apply impl_ok.
Qed.

Lemma data_ok : buffers_ok (data clock).
Proof. intros a. simpl. split; [done | unfold maxPoints; lia]. Qed.

(** Appending to a full buffer drops the oldest point and nothing else. *)
Lemma appendPoint_full o a p oldest rest :
  series_of o a = oldest :: rest -> length rest = 99%nat ->
  series_of (appendPoint o a p) a = rest ++ [p].
Proof.
  intros Hs Hl. rewrite series_of_appendPoint, String.eqb_refl.
  rewrite length_push, Hs. simpl length. rewrite Hl.
  by change (maxPoints <? 101)%nat with true.
Qed.

(** Below the bound a buffer only grows at its end. *)
Lemma appendPoint_room o a p :
  (length (series_of o a) < 100)%nat ->
  series_of (appendPoint o a p) a = series_of o a ++ [p].
Proof.
  intros Hl. rewrite series_of_appendPoint, String.eqb_refl.
  rewrite length_push.
  assert (G : (maxPoints <? S (length (series_of o a)))%nat = false)
    by (apply Nat.ltb_ge; unfold maxPoints; lia).
  by rewrite G.
Qed.

End SeriesBuffersRun.

(** ** The series buffers of dashboard.js *)

Section HistoryBuffers.

Import Dashboard.

Variable clock : nat -> Z.

(** The entry of an adapter after one iteration of [updateCharts]. *)
Lemma recordPoint_get elapsed h a m a' :
  obj_get (recordPoint elapsed h (a, m)) a' =
  if String.eqb a a' then
    let cur := default {| latency := []; success := [] |} (obj_get h a) in
    let l := push (latency cur)
               (MarketDashboard.mkPoint elapsed
                  (js_or (obj_field m "avg_latency_ms") (JNum 0))) in
    let s := push (success cur)
               (MarketDashboard.mkPoint elapsed
                  (js_mul (js_or (obj_field m "success_rate") (JNum 0))
                          (JNum 100))) in
    Some (if (100 <? length l)%nat
          then {| latency := shift l; success := shift s |}
          else {| latency := l; success := s |})
  else obj_get h a'.
Proof.
  unfold recordPoint.
  set (h1 := match obj_get h a with
             | Some _ => h
             | None => obj_set h a {| latency := []; success := [] |}
             end).
  assert (H1 : default {| latency := []; success := [] |} (obj_get h1 a)
               = default {| latency := []; success := [] |} (obj_get h a)).
  { subst h1. destruct (obj_get h a) eqn:E; [by rewrite E|].
    by rewrite obj_get_set_eq. }
  assert (H2 : a ≠ a' -> obj_get h1 a' = obj_get h a').
  { intros Hne. subst h1. destruct (obj_get h a); [done|].
    by apply obj_get_set_ne. }
  rewrite obj_get_set, H1. simpl.
  destruct (String.eqb a a') eqn:E; [done|].
  apply String.eqb_neq in E. by apply H2.
Qed.

Lemma recordPoint_ok elapsed h entry :
  history_ok h -> history_ok (recordPoint elapsed h entry).
Proof.
  intros H a' e. destruct entry as [a m]. rewrite recordPoint_get.
  destruct (String.eqb a a'); [|apply H].
  cbv zeta. intros [= <-].
  assert (Hc : length (latency (default {| latency := []; success := [] |}
                                        (obj_get h a)))
               = length (success (default {| latency := []; success := [] |}
                                          (obj_get h a)))
             /\ (length (latency (default {| latency := []; success := [] |}
                                          (obj_get h a))) <= 100)%nat).
  { destruct (obj_get h a) as [e|] eqn:E; simpl; [by apply (H a)|lia]. }
  destruct Hc as [He Hl].
  destruct (100 <? _)%nat eqn:F; simpl;
    rewrite ?length_shift, !length_push, He; split; try done.
  - rewrite <- He. lia.
  - apply Nat.ltb_ge in F. rewrite length_push in F. rewrite <- He. lia.
Qed.

Lemma updateCharts_ok s d :
  history_ok (dataHistory d) -> history_ok (dataHistory (updateCharts clock s d)).
Proof.
  intros H. unfold updateCharts.
  assert (G : forall s h e, history_ok h ->
                history_ok (fold_left (recordPoint e) s h)).
  { clear. intros s. induction s as [|x s IH]; intros h e H; simpl; [done|].
    apply IH. by apply recordPoint_ok. }
  destruct (chartStartTime_unset d); simpl; by apply G.
Qed.

Lemma offlineEntries_history adapters acc d :
  dataHistory (snd (fold_left (offlineEntry clock) adapters (acc, d)))
  = dataHistory d.
Proof.
  revert acc d. induction adapters as [|a l IH]; intros acc d; simpl; [done|].
  by rewrite IH.
Qed.

Lemma updateAdaptersToOffline_ok d :
  history_ok (dataHistory d) ->
  history_ok (dataHistory (updateAdaptersToOffline clock d)).
Proof.
  intros H. unfold updateAdaptersToOffline.
  destruct (fold_left _ _ _) as [os d'] eqn:F.
  assert (E : dataHistory d' = dataHistory d).
  { change d' with (snd (os, d')). rewrite <- F.
    apply offlineEntries_history. } unfold updateDashboard. apply updateCharts_ok.
  simpl. by rewrite E.
Qed.

Lemma react_ok d i :
  history_ok (dataHistory d) -> history_ok (dataHistory (react clock d i)).
Proof.
  intros H. destruct i as [s|]; simpl.
  - unfold updateDashboard. by apply updateCharts_ok.
  - unfold onclose. simpl. by apply updateAdaptersToOffline_ok.
Qed.

Lemma dashboard_run_ok inputs d :
  history_ok (dataHistory d) ->
  history_ok (dataHistory (Dashboard.run clock inputs d)).
Proof.
  unfold Dashboard.run. revert d.
  induction inputs as [|i l IH]; intros d H; simpl; [done|].
  apply IH. by apply react_ok.
Qed.

End HistoryBuffers.

(** ** The merges at any adapter id *)

Section AnyId.

Import MarketDashboard.

Variable clock : nat -> Z.

Lemma inherited_proto a : inherited a = false -> String.eqb a "__proto__" = false.
Proof.
  intros H. destruct (String.eqb a "__proto__") eqn:E; [|done].
  apply String.eqb_eq in E. subst a. discriminate H.
Qed.

(** On an id that is not inherited, initialising, pushing and trimming a
    series is [appendPoint]. *)
Lemma pushPoint_plain o a p :
  inherited a = false ->
  exists o', MarketDashboardAnyId.pushPoint
               (MarketDashboardAnyId.initSeries o a) a p = Some o'
             /\ MarketDashboardAnyId.trimSeries o' a = appendPoint o a p.
Proof.
  intros H.
  unfold MarketDashboardAnyId.pushPoint, MarketDashboardAnyId.initSeries,
         MarketDashboardAnyId.trimSeries, appendPoint.
  destruct (obj_get o a) as [l|] eqn:E; cbv iota beta.
  - rewrite E. eexists. split; [reflexivity|].
    cbv zeta. unfold series_of. by rewrite E.
  - rewrite H, obj_get_set_eq. eexists. split; [reflexivity|].
    cbv zeta. unfold series_of. by rewrite !obj_get_set_eq.
Qed.

(** On such an id [updateChartData] completes, and is the function of
    [MarketDashboard]. *)
Lemma updateChartData_plain a metrics d :
  inherited a = false ->
  MarketDashboardAnyId.updateChartData clock a metrics d
  = (updateChartData clock a metrics d, WebSocketService.Normal).
Proof.
  intros H. unfold MarketDashboardAnyId.updateChartData, updateChartData.
  destruct (chartStartTime_unset d); cbn [Date_now]; cbv zeta;
    match goal with
    | |- context [MarketDashboardAnyId.pushPoint
                    (MarketDashboardAnyId.initSeries ?o a) a ?p] =>
        destruct (pushPoint_plain o a p H) as (l' & -> & <-)
    end;
    match goal with
    | |- context [MarketDashboardAnyId.pushPoint
                    (MarketDashboardAnyId.initSeries ?o a) a ?p] =>
        destruct (pushPoint_plain o a p H) as (s' & -> & <-)
    end;
    reflexivity.
Qed.

Lemma updateAdapter_plain d a metrics :
  inherited a = false ->
  MarketDashboardAnyId.updateAdapter clock d (a, metrics)
  = (updateAdapter clock d (a, metrics), WebSocketService.Normal).
Proof.
  intros H. unfold MarketDashboardAnyId.updateAdapter, updateAdapter.
  cbn [Date_now]. cbv zeta. rewrite (inherited_proto a H).
  by rewrite updateChartData_plain.
Qed.

(** A snapshot of such ids is merged to the end. *)
Lemma updateAdapters_plain (s : summary) d :
  plain_ids s ->
  MarketDashboardAnyId.updateAdapters clock s d
  = (updateAdapters clock s d, WebSocketService.Normal).
Proof.
  unfold updateAdapters. revert d.
  induction s as [|[a m] s IH]; intros d H; [done|].
  apply Forall_cons in H as [Ha Hs]. cbn [MarketDashboardAnyId.updateAdapters].
  rewrite (updateAdapter_plain d a m Ha). cbn [fold_left]. by apply IH.
Qed.

Lemma recordPoint_plain elapsed h a m :
  inherited a = false ->
  DashboardAnyId.recordPoint elapsed h (a, m)
  = Some (Dashboard.recordPoint elapsed h (a, m)).
Proof.
  intros H. unfold DashboardAnyId.recordPoint, Dashboard.recordPoint.
  destruct (obj_get h a) as [e|] eqn:E.
  - by rewrite E.
  - by rewrite H, obj_get_set_eq.
Qed.

Lemma recordPoints_plain elapsed (s : summary) h :
  plain_ids s ->
  DashboardAnyId.recordPoints elapsed s h
  = (fold_left (Dashboard.recordPoint elapsed) s h, WebSocketService.Normal).
Proof.
  revert h. induction s as [|[a m] s IH]; intros h H; [done|].
  apply Forall_cons in H as [Ha Hs]. cbn [DashboardAnyId.recordPoints].
  rewrite (recordPoint_plain elapsed h a m Ha). cbn [fold_left]. by apply IH.
Qed.

Lemma updateCharts_plain (s : summary) d :
  plain_ids s ->
  DashboardAnyId.updateCharts clock s d
  = (Dashboard.updateCharts clock s d, WebSocketService.Normal).
Proof.
  intros H. unfold DashboardAnyId.updateCharts, Dashboard.updateCharts.
  destruct (Dashboard.chartStartTime_unset d); cbn [Dashboard.Date_now];
    cbv zeta; by rewrite recordPoints_plain.
Qed.

(** *** What the merges at any id keep *)

Lemma inherited_neq a b : inherited a = false -> inherited b = true -> a <> b.
Proof. intros Ha Hb ->. congruence. Qed.

Lemma obj_get_appendPoint_other o a p b :
  a <> b -> obj_get (appendPoint o a p) b = obj_get o b.
Proof.
  intros Hne. unfold appendPoint. cbv zeta.
  destruct (maxPoints <? _)%nat; rewrite ?obj_get_set_ne by done;
    destruct (obj_get o a); by rewrite ?obj_get_set_ne by done.
Qed.

Lemma updateChartData_plain_series a metrics d :
  inherited a = false ->
  MarketDashboardAnyId.plain_series d ->
  MarketDashboardAnyId.plain_series (updateChartData clock a metrics d).
Proof.
  intros Ha H b Hb.
  destruct (updateChartData_series clock a metrics d)
    as (lp & sp & -> & -> & _).
  pose proof (inherited_neq a b Ha Hb) as Hne.
  rewrite !obj_get_appendPoint_other by done. by apply H.
Qed.

(** At an inherited id [updateChartData] throws and leaves the series. *)
Lemma updateChartData_inherited a metrics d :
  inherited a = true ->
  MarketDashboardAnyId.plain_series d ->
  let r := MarketDashboardAnyId.updateChartData clock a metrics d in
  r.2 = WebSocketService.Throws
  /\ latencyData r.1 = latencyData d
  /\ successData r.1 = successData d
  /\ adapters r.1 = adapters d
  /\ chartDataRef r.1 = chartDataRef d.
Proof.
  intros Ha H. destruct (H a Ha) as [Hl Hs].
  unfold MarketDashboardAnyId.updateChartData,
         MarketDashboardAnyId.pushPoint, MarketDashboardAnyId.initSeries.
  destruct (chartStartTime_unset d); cbn [Date_now]; cbv zeta;
    cbn [latencyData successData set_times]; rewrite Hl, Hs, Ha, Hl; done.
Qed.




Lemma data_plain_series : MarketDashboardAnyId.plain_series (data clock).
Proof. by intros a _. Qed.






(** The chart epoch, once set, is kept by the merges at any id. *)
Lemma updateChartData_any_epoch c a metrics d :
  epoch_is c d ->
  epoch_is c (MarketDashboardAnyId.updateChartData clock a metrics d).1.
Proof.
  intros [Hc Hz]. unfold MarketDashboardAnyId.updateChartData.
  assert (Hu : chartStartTime_unset d = false).
  { unfold chartStartTime_unset. by rewrite Hc. }
  rewrite Hu. cbn [Date_now]. cbv zeta.
  destruct (MarketDashboardAnyId.pushPoint _ _ _); [|by split].
  destruct (MarketDashboardAnyId.pushPoint _ _ _); by split.
Qed.

Lemma updateAdapters_any_epoch c (s : summary) d :
  epoch_is c d ->
  epoch_is c (MarketDashboardAnyId.updateAdapters clock s d).1.
Proof.
  revert d. induction s as [|[a m] s IH]; intros d H; [done|].
  cbn [MarketDashboardAnyId.updateAdapters].
  assert (H1 : epoch_is c (MarketDashboardAnyId.updateAdapter clock d (a, m)).1).
  { unfold MarketDashboardAnyId.updateAdapter. cbn [Date_now]. cbv zeta.
    apply updateChartData_any_epoch.
    by destruct (String.eqb a "__proto__"). }
  destruct (MarketDashboardAnyId.updateAdapter clock d (a, m)) as [d1 [|]];
    cbn [fst] in *; [by apply IH|done].
Qed.

Lemma merges_epoch c snapshots d :
  epoch_is c d -> epoch_is c (MarketDashboardAnyId.merges clock snapshots d).
Proof.
  unfold MarketDashboardAnyId.merges. revert d.
  induction snapshots as [|s l IH]; intros d H; [done|].
  cbn [fold_left]. apply IH. by apply updateAdapters_any_epoch.
Qed.

End AnyId.

(** ** Bounded buffers with first-in first-out eviction *)

Section BoundedFifo.

Import MarketDashboard.

(** C1.  Whatever callbacks are delivered to the component, and whatever
    snapshots and closes reach dashboard.js, every latency buffer and every
    success buffer holds at most 100 points; and appending to a buffer that
    holds 100 points leaves 100 points: the oldest one is gone, the order
    of the others is kept, and the new point is last. *)
Theorem series_buffers_bounded_fifo (clock : nat -> Z) :
  (forall es a,
     (length (series_of (latencyData (run clock es (data clock))) a) <= 100)%nat
     /\ (length (series_of (successData (run clock es (data clock))) a)
         <= 100)%nat)
  /\ (forall d a metrics oldest rest oldest' rest',
        series_of (latencyData d) a = oldest :: rest ->
        length rest = 99%nat ->
        series_of (successData d) a = oldest' :: rest' ->
        length rest' = 99%nat ->
        exists lp sp,
          series_of (latencyData (updateChartData clock a metrics d)) a
            = rest ++ [lp]
          /\ series_of (successData (updateChartData clock a metrics d)) a
            = rest' ++ [sp]
          /\ y lp = js_or (obj_field metrics "avg_latency_ms") (JNum 0)
          /\ y sp = js_mul (js_or (obj_field metrics "success_rate") (JNum 0))
                           (JNum 100))
  /\ (forall inputs a e,
        obj_get (Dashboard.dataHistory
                   (Dashboard.run clock inputs Dashboard.constructor)) a
          = Some e ->
        (length (Dashboard.latency e) <= 100)%nat
        /\ (length (Dashboard.success e) <= 100)%nat)
  /\ (forall elapsed h a m e oldest rest oldest' rest',
        obj_get h a = Some e ->
        Dashboard.latency e = oldest :: rest ->
        length rest = 99%nat ->
        Dashboard.success e = oldest' :: rest' ->
        obj_get (Dashboard.recordPoint elapsed h (a, m)) a =
          Some {| Dashboard.latency :=
                    rest ++ [mkPoint elapsed
                               (js_or (obj_field m "avg_latency_ms") (JNum 0))];
                  Dashboard.success :=
                    rest' ++ [mkPoint elapsed
                                (js_mul (js_or (obj_field m "success_rate")
                                               (JNum 0)) (JNum 100))] |}).
Proof.
  repeat split.
  - apply (run_ok clock es (data clock) (data_ok clock) a).
  - destruct (run_ok clock es (data clock) (data_ok clock) a) as [<- H].
    exact H.
  - intros d a metrics oldest rest oldest' rest' Hl Hn Hs Hn'.
    destruct (updateChartData_series clock a metrics d)
      as (lp & sp & El & Es & Yl & Ys & _).
    exists lp, sp. rewrite El, Es.
    rewrite (appendPoint_full _ _ _ _ _ Hl Hn).
    rewrite (appendPoint_full _ _ _ _ _ Hs Hn'). done.
  - pose proof (dashboard_run_ok clock inputs Dashboard.constructor) as G.
    destruct (G ltac:(intros ? ? [=]) a e H) as [_ L]. exact L.
  - pose proof (dashboard_run_ok clock inputs Dashboard.constructor) as G.
    destruct (G ltac:(intros ? ? [=]) a e H) as [<- L]. exact L.
  - intros elapsed h a m e oldest rest oldest' rest' He Hl Hn Hs.
    rewrite recordPoint_get, String.eqb_refl, He. simpl.
    rewrite Hl, Hs, length_push. simpl length. rewrite Hn. done.
Qed.

(** A buffer filled by a hundred identical snapshots, one per second, and
    the hundred-and-first. *)
Lemma series_buffers_bounded_fifo_witness :
  let clock := fun n => (1000 * Z.of_nat n)%Z in
  let metrics := [("avg_latency_ms", JNum 10); ("success_rate", JNum 1)] in
  let msg := DObject {| type := Some "summary"; data_summary := None;
                        summary_field := Some [("binance", metrics)];
                        test_running := JUndefined; start_time := JUndefined;
                        message_text := None |} in
  let d := run clock (repeat (onMessage, WebSocketService.Data msg) 100)
               (data clock) in
  length (series_of (latencyData d) "binance") = 100%nat
  /\ exists lp,
       series_of (latencyData (updateChartData clock "binance" metrics d))
                 "binance"
       = tail (series_of (latencyData d) "binance") ++ [lp]
       /\ y lp = JNum 10.
Proof.
  intros clock metrics msg d.
  assert (Hlen : length (series_of (latencyData d) "binance") = 100%nat)
    by (vm_compute; reflexivity).
  assert (Hlen' : length (series_of (successData d) "binance") = 100%nat)
    by (vm_compute; reflexivity).
  split; [exact Hlen|].
  destruct (series_of (latencyData d) "binance") as [|o r] eqn:El;
    [discriminate Hlen|].
  destruct (series_of (successData d) "binance") as [|o' r'] eqn:Es;
    [discriminate Hlen'|].
  destruct (series_buffers_bounded_fifo clock) as (_ & F & _).
  destruct (F d "binance" metrics o r o' r' El
              ltac:(simpl in Hlen; lia) Es ltac:(simpl in Hlen'; lia))
    as (lp & sp & H1 & _ & H3 & _).
  exists lp. split; [exact H1 | exact H3].
Defined.




End BoundedFifo.

(** ** The service: what [emit] leaves alone *)

Section Service.

Import WebSocketService.

Context {D W : Type}.
Variable JSON_parse : string -> option D.
Variable impl : callback -> handler D W.

(** [emit] touches the service through [console.error] only, calls every
    registered callback in order, and hands each one the state its
    predecessor left, whether that one threw or not. *)
Lemma forEach_callback_spec event cbs data s w invoked :
  let r := forEach_callback impl event cbs data s w invoked in
  ws r.1.1 = ws s
  /\ reconnectAttempts r.1.1 = reconnectAttempts s
  /\ listeners r.1.1 = listeners s
  /\ timers r.1.1 = timers s
  /\ sent r.1.1 = sent s
  /\ r.1.2 = fold_left (fun w cb => fst (impl cb data w)) cbs w
  /\ r.2 = invoked ++ cbs.
Proof.
  revert s w invoked.
  induction cbs as [|cb cbs IH]; intros s w invoked; simpl.
  - by rewrite app_nil_r.
  - destruct (impl cb data w) as [w' c] eqn:E. simpl.
    specialize (IH (match c with Normal => s | Throws => console_error event s end)
                   w' (invoked ++ [cb])).
    simpl in IH. destruct IH as (H1 & H2 & H3 & H4 & H5 & H6 & H7).
    rewrite H1, H2, H3, H4, H5, H6, H7, <- app_assoc.
    destruct c; done.
Qed.

Lemma emit_spec event data s w :
  let r := emit impl event data s w in
  ws r.1.1 = ws s
  /\ reconnectAttempts r.1.1 = reconnectAttempts s
  /\ listeners r.1.1 = listeners s
  /\ timers r.1.1 = timers s
  /\ sent r.1.1 = sent s
  /\ r.1.2 = fold_left (fun w cb => fst (impl cb data w))
               (default [] (listeners s !! event)) w
  /\ r.2 = default [] (listeners s !! event).
Proof.
  unfold emit. destruct (listeners s !! event) as [cbs|]; simpl; [|done].
  apply (forEach_callback_spec event cbs data s w []).
Qed.

Lemma reconnectDelay_mono j k :
  (j <= k)%Z -> (reconnectDelay j <= reconnectDelay k)%Z.
Proof. unfold reconnectDelay. lia. Qed.

Lemma onclose_spec s w :
  let r := onclose impl s w in
  ws r.1 = ws s /\ listeners r.1 = listeners s /\ sent r.1 = sent s
  /\ r.2 = fold_left (fun w cb => fst (impl cb Undefined w))
             (default [] (listeners s !! "disconnected")) w
  /\ if (reconnectAttempts s <? maxReconnectAttempts)%Z
     then reconnectAttempts r.1 = (reconnectAttempts s + 1)%Z
          /\ timers r.1 = timers s
               ++ [(reconnectDelay (reconnectAttempts s + 1), RunConnect)]
     else reconnectAttempts r.1 = reconnectAttempts s
          /\ timers r.1 = timers s.
Proof.
  unfold onclose.
  pose proof (emit_spec "disconnected" Undefined s w) as H.
  destruct (emit impl "disconnected" Undefined s w) as [[s' w'] inv].
  simpl in H. destruct H as (H1 & H2 & H3 & H4 & H5 & H6 & _).
  rewrite H2.
  destruct (reconnectAttempts s <? maxReconnectAttempts)%Z; simpl;
    rewrite ?H1, ?H2, ?H3, ?H4, ?H5, ?H6; done.
Qed.

Lemma onopen_spec s w :
  let r := onopen impl s w in
  ws r.1 = ws s /\ listeners r.1 = listeners s /\ sent r.1 = sent s
  /\ reconnectAttempts r.1 = 0%Z
  /\ timers r.1 = timers s ++ [(1000%Z, RunRequestInitialData)].
Proof.
  unfold onopen.
  pose proof (emit_spec "connected" Undefined (set_reconnectAttempts 0 s) w)
    as H.
  destruct (emit impl "connected" Undefined _ w) as [[s' w'] inv].
  simpl in H. destruct H as (H1 & H2 & H3 & H4 & H5 & _). simpl.
  by rewrite H1, H2, H3, H4, H5.
Qed.

Lemma pendingReconnects_delete s i :
  (length (filter (fun t => isReconnect t = true) (delete i (timers s)))
   <= pendingReconnects s)%nat.
Proof.
  unfold pendingReconnects. generalize (timers s). clear. intros l.
  revert i. induction l as [|t l IH]; intros [|i]; simpl; try lia.
  - rewrite filter_cons. destruct (decide _); simpl; lia.
  - rewrite !filter_cons. specialize (IH i).
    destruct (decide _); simpl; lia.
Qed.

(** With the budget used up, nothing the transport or the timers deliver
    short of a successful open schedules a reconnection. *)
Lemma exhausted_step e s w :
  e <> SocketOpens ->
  reconnectAttempts s = maxReconnectAttempts ->
  let r := step JSON_parse impl e (s, w) in
  reconnectAttempts r.1 = maxReconnectAttempts
  /\ (pendingReconnects r.1 <= pendingReconnects s)%nat.
Proof.
  intros He Hs. destruct e as [|d| | |i| |]; simpl; [done| | | | | |].
  - unfold onmessage. destruct (JSON_parse d) as [m|]; simpl; [|done].
    pose proof (emit_spec "message" (Data m) s w) as H.
    destruct (emit impl "message" (Data m) s w) as [[s' w'] inv].
    simpl in H. destruct H as (_ & H2 & _ & H4 & _). simpl.
    unfold pendingReconnects. by rewrite H2, H4.
  - pose proof (onclose_spec (socketState CLOSED s) w) as H.
    destruct (onclose impl (socketState CLOSED s) w) as [s' w'].
    simpl in H. destruct H as (_ & _ & _ & _ & H).
    assert (G : reconnectAttempts (socketState CLOSED s) = reconnectAttempts s
                /\ timers (socketState CLOSED s) = timers s)
      by (unfold socketState; destruct (ws s); done).
    destruct G as [G1 G2]. rewrite G1, G2, Hs in H. simpl in H.
    destruct H as [H1 H2]. simpl. unfold pendingReconnects. by rewrite H1, H2.
  - unfold onerror.
    pose proof (emit_spec "error" ErrorEvent s w) as H.
    destruct (emit impl "error" ErrorEvent s w) as [[s' w'] inv].
    simpl in H. destruct H as (_ & H2 & _ & H4 & _). simpl.
    unfold pendingReconnects. by rewrite H2, H4.
  - destruct (timers s !! i) as [[delay a]|] eqn:E; simpl; [|done].
    pose proof (pendingReconnects_delete s i) as P.
    destruct a; simpl.
    + unfold requestInitialData, send. simpl.
      destruct (ws s) as [[]|]; simpl; done.
    + unfold connect. simpl. destruct (ws s) as [[]|]; simpl; done.
  - unfold connect. destruct (ws s) as [[]|]; simpl; done.
  - unfold disconnect. destruct (ws s) as [[]|]; simpl; done.
Qed.

Lemma pendingReconnects_lookup s i delay :
  timers s !! i = Some (delay, RunConnect) -> pendingReconnects s <> 0%nat.
Proof.
  unfold pendingReconnects. generalize (timers s). clear. intros l.
  revert i. induction l as [|t l IH]; intros [|i]; simpl; try done.
  - intros [= ->]. rewrite filter_cons. simpl. done.
  - intros H. rewrite filter_cons. specialize (IH i H).
    destruct (decide _); simpl; [done|exact IH].
Qed.

Lemma gaveUp_step e s w :
  e <> CallConnect -> gaveUp s -> gaveUp (step JSON_parse impl e (s, w)).1.
Proof.
  intros He (Ha & Hp & Hw).
  destruct e as [|d| | |i| |]; [| | | | |done|].
  - simpl. destruct (ws s) as [[]|] eqn:E; try congruence;
      repeat split; simpl; congruence.
  - destruct (exhausted_step (SocketMessage d) s w ltac:(done) Ha) as [E1 E2].
    split; [exact E1|]. split; [lia|].
    simpl. unfold onmessage. destruct (JSON_parse d) as [m|]; simpl; [|done].
    pose proof (emit_spec "message" (Data m) s w) as H.
    destruct (emit impl "message" (Data m) s w) as [[s' w'] inv].
    simpl in H. destruct H as (H1 & _). simpl. by rewrite H1.
  - destruct (exhausted_step SocketCloses s w ltac:(done) Ha) as [E1 E2].
    split; [exact E1|]. split; [lia|].
    simpl. pose proof (onclose_spec (socketState CLOSED s) w) as H.
    simpl in H. destruct H as (H1 & _). rewrite H1.
    unfold socketState. destruct (ws s) eqn:E; simpl; congruence.
  - destruct (exhausted_step SocketError s w ltac:(done) Ha) as [E1 E2].
    split; [exact E1|]. split; [lia|].
    simpl. unfold onerror.
    pose proof (emit_spec "error" ErrorEvent s w) as H.
    destruct (emit impl "error" ErrorEvent s w) as [[s' w'] inv].
    simpl in H. destruct H as (H1 & _). simpl. by rewrite H1.
  - destruct (exhausted_step (TimerFires i) s w ltac:(done) Ha) as [E1 E2].
    split; [exact E1|]. split; [lia|].
    simpl. destruct (timers s !! i) as [[delay a]|] eqn:E; simpl; [|done].
    destruct a; simpl.
    + unfold requestInitialData, send. simpl.
      destruct (ws s) as [[]|]; simpl; done.
    + by apply pendingReconnects_lookup in E.
  - destruct (exhausted_step CallDisconnect s w ltac:(done) Ha) as [E1 E2].
    split; [exact E1|]. split; [lia|].
    simpl. unfold disconnect. destruct (ws s) eqn:E; simpl; congruence.
Qed.

Lemma gaveUp_run es s w :
  Forall (fun e => e <> CallConnect) es ->
  gaveUp s -> gaveUp (run JSON_parse impl es (s, w)).1.
Proof.
  unfold run. revert s w.
  induction es as [|e es IH]; intros s w Hes Hs; [done|].
  cbn [fold_left]. inversion Hes as [|? ? He Hes']; subst.
  pose proof (gaveUp_step e s w He Hs) as H.
  destruct (step JSON_parse impl e (s, w)) as [s1 w1].
  by apply IH.
Qed.

Lemma exhausted_run es s w :
  Forall (fun e => e <> SocketOpens) es ->
  reconnectAttempts s = maxReconnectAttempts ->
  let r := run JSON_parse impl es (s, w) in
  reconnectAttempts r.1 = maxReconnectAttempts
  /\ (pendingReconnects r.1 <= pendingReconnects s)%nat.
Proof.
  unfold run. revert s w.
  induction es as [|e es IH]; intros s w Hes Hs; [done|].
  cbn [fold_left]. inversion Hes as [|? ? He Hes']; subst.
  pose proof (exhausted_step e s w He Hs) as H.
  destruct (step JSON_parse impl e (s, w)) as [s1 w1].
  simpl in H. destruct H as [H1 H2].
  destruct (IH s1 w1 Hes' H1) as [G1 G2]. split; [exact G1 | ].
  etrans; [exact G2 | exact H2].
Qed.

End Service.

(** ** Reconnection, decoding failures, subscriptions *)

Section ServiceClaims.

Import WebSocketService.

Lemma indexOf_absent arr x : x ∉ arr -> indexOf arr x = (-1)%Z.
Proof.
  induction arr as [|y arr IH]; intros H; simpl; [done|].
  apply not_elem_of_cons in H as [Hne Hni].
  destruct (Nat.eqb y x) eqn:E; [apply Nat.eqb_eq in E; congruence|].
  by rewrite (IH Hni).
Qed.

(** [indexOf] finds the first occurrence. *)
Lemma indexOf_present arr x :
  x ∈ arr ->
  exists l1 l2, arr = l1 ++ x :: l2 /\ (x ∉ l1)
                /\ indexOf arr x = Z.of_nat (length l1).
Proof.
  induction arr as [|y arr IH]; intros H; [by apply elem_of_nil in H|].
  simpl. destruct (Nat.eqb y x) eqn:E.
  - apply Nat.eqb_eq in E. subst y. exists [], arr. repeat split.
    apply not_elem_of_nil.
  - apply Nat.eqb_neq in E. apply elem_of_cons in H as [H|H]; [congruence|].
    destruct (IH H) as (l1 & l2 & -> & Hni & Hi).
    exists (y :: l1), l2. rewrite Hi. repeat split.
    + apply not_elem_of_cons. split; [congruence | exact Hni].
    + assert (G : (Z.of_nat (length l1) <? 0)%Z = false)
        by (apply Z.ltb_ge; lia).
      rewrite G. simpl length. lia.
Qed.

Lemma splice1_middle {A} (l1 l2 : list A) x :
  splice1 (l1 ++ x :: l2) (Z.of_nat (length l1)) = l1 ++ l2.
Proof.
  unfold splice1. rewrite Nat2Z.id.
  rewrite take_app_length.
  rewrite (cons_middle x l1 l2), app_assoc.
  rewrite drop_app_length'; [done|].
  rewrite length_app. simpl. lia.
Qed.

Lemma count_occ_absent (l : list nat) x :
  x ∉ l -> count_occ Nat.eq_dec l x = 0%nat.
Proof.
  intros H. apply count_occ_not_In. by rewrite <- list_elem_of_In.
Qed.

Context {D W : Type}.
Variable JSON_parse : string -> option D.
Variable impl : callback -> handler D W.

(** C3.  The k-th close in a row (k from 1 to 5) schedules one
    reconnection, after [min(3000 k, 30000)] ms: the delay does not
    decrease with k and never exceeds 30000.  An open resets the counter,
    so that the next close waits the base 3000 ms again.  Once five
    attempts are used up, nothing short of an open schedules another
    reconnection; and when the last attempt has failed, the service stays
    as it is, with no reconnection pending and no socket connecting, for
    as long as nobody calls [connect()]. *)
Theorem reconnect_backoff (s : service) (w : W) (k : Z) :
  (1 <= k <= maxReconnectAttempts)%Z ->
  reconnectAttempts s = (k - 1)%Z ->
  let closed := onclose impl s w in
  reconnectAttempts closed.1 = k
  /\ timers closed.1 = timers s ++ [(reconnectDelay k, RunConnect)]
  /\ (forall j, (1 <= j <= k)%Z -> (reconnectDelay j <= reconnectDelay k)%Z)
  /\ (reconnectDelay k <= 30000)%Z
  /\ (forall s1 w1 w2,
        let opened := onopen impl s1 w1 in
        reconnectAttempts opened.1 = 0%Z
        /\ timers (onclose impl opened.1 w2).1
           = timers opened.1 ++ [(3000%Z, RunConnect)])
  /\ (forall s5 w5 es,
        reconnectAttempts s5 = maxReconnectAttempts ->
        Forall (fun e => e <> SocketOpens) es ->
        let r := run JSON_parse impl es (s5, w5) in
        reconnectAttempts r.1 = maxReconnectAttempts
        /\ (pendingReconnects r.1 <= pendingReconnects s5)%nat
        /\ timers (onclose impl r.1 r.2).1 = timers r.1)
  /\ (forall s5 w5 es,
        gaveUp s5 ->
        Forall (fun e => e <> CallConnect) es ->
        gaveUp (run JSON_parse impl es (s5, w5)).1).
Proof.
  intros Hk Hs closed.
  pose proof (onclose_spec impl s w) as H. fold closed in H.
  simpl in H. destruct H as (_ & _ & _ & _ & H).
  assert (G : (reconnectAttempts s <? maxReconnectAttempts)%Z = true)
    by (apply Z.ltb_lt; lia).
  rewrite G in H. destruct H as [H1 H2].
  replace (reconnectAttempts s + 1)%Z with k in H1, H2 by lia.
  repeat split; try done.
  - intros j Hj. apply reconnectDelay_mono. lia.
  - unfold reconnectDelay. lia.
  - apply (onopen_spec impl s1 w1).
  - pose proof (onopen_spec impl s1 w1) as O. simpl in O.
    destruct O as (_ & _ & _ & O & _).
    pose proof (onclose_spec impl (onopen impl s1 w1).1 w2) as C.
    simpl in C. destruct C as (_ & _ & _ & _ & C).
    rewrite O in C. simpl in C. apply C.
  - by apply exhausted_run.
  - by apply exhausted_run.
  - pose proof (exhausted_run JSON_parse impl es s5 w5 H0 H) as [E _].
    pose proof (onclose_spec impl (run JSON_parse impl es (s5, w5)).1
                  (run JSON_parse impl es (s5, w5)).2) as C.
    simpl in C. destruct C as (_ & _ & _ & _ & C).
    rewrite E in C. simpl in C. apply C.
  - by apply gaveUp_run.
  - by apply gaveUp_run.
  - by apply gaveUp_run.
Qed.

(** C6.  A payload that [JSON.parse] rejects is logged and dropped: the
    subscribers' state is untouched, and so are the socket, the retry
    counter, the timers, the listeners and the outbound queue. *)
Theorem malformed_payload_dropped (event_data : string) (s : service) (w : W) :
  JSON_parse event_data = None ->
  let r := step JSON_parse impl (SocketMessage event_data) (s, w) in
  r.2 = w
  /\ ws r.1 = ws s
  /\ reconnectAttempts r.1 = reconnectAttempts s
  /\ listeners r.1 = listeners s
  /\ timers r.1 = timers s
  /\ sent r.1 = sent s
  /\ errorLog r.1 = errorLog s ++ ["parse"].
Proof.
  intros H. simpl. unfold onmessage. rewrite H. simpl. done.
Qed.

(** C8.  [emit] calls every callback registered for the event, in
    registration order and with the same payload, and each one starts from
    the state its predecessor left: a callback that throws is logged and
    the next ones are called all the same. *)
Theorem emit_isolates_handlers (event : string) (data : payload D)
  (s : service) (w : W) (before after : list callback) (failing : callback) :
  listeners s !! event = Some (before ++ failing :: after) ->
  (impl failing data
     (fold_left (fun w cb => fst (impl cb data w)) before w)).2 = Throws ->
  let r := emit impl event data s w in
  r.2 = before ++ failing :: after
  /\ r.1.2 = fold_left (fun w cb => fst (impl cb data w)) after
               (impl failing data
                  (fold_left (fun w cb => fst (impl cb data w)) before w)).1
  /\ listeners r.1.1 = listeners s
  /\ ws r.1.1 = ws s.
Proof.
  intros Hl _ r.
  pose proof (emit_spec impl event data s w) as H. fold r in H.
  simpl in H. destruct H as (H1 & _ & H3 & _ & _ & H6 & H7).
  rewrite Hl in H6, H7. simpl in H6, H7.
  repeat split; try done.
  rewrite H6, fold_left_app. done.
Qed.

(** C10.  [off] removes the first registration of the callback and no
    other: a callback registered n >= 2 times is still called, n - 1
    times, by the next [emit]; everything else is called as before; and
    [off] for a callback that is not registered, or for an event nobody
    listens to, changes nothing. *)
Theorem off_removes_one_registration (event : string) (cb : callback)
  (s : service) (data : payload D) (w : W) (cbs : list callback) (n : nat) :
  listeners s !! event = Some cbs ->
  count_occ Nat.eq_dec cbs cb = n ->
  (2 <= n)%nat ->
  let invoked := (emit impl event data (off event cb s) w).2 in
  count_occ Nat.eq_dec invoked cb = (n - 1)%nat
  /\ cb ∈ invoked
  /\ (forall cb', cb' <> cb ->
        count_occ Nat.eq_dec invoked cb' = count_occ Nat.eq_dec cbs cb')
  /\ (forall event', event' <> event ->
        listeners (off event cb s) !! event' = listeners s !! event')
  /\ (forall s0 cb0 cbs0,
        listeners s0 !! event = Some cbs0 -> cb0 ∉ cbs0 ->
        off event cb0 s0 = s0)
  /\ (forall s0 cb0, listeners s0 !! event = None -> off event cb0 s0 = s0).
Proof.
  intros Hl Hn Hge invoked.
  assert (Hin : cb ∈ cbs).
  { apply list_elem_of_In. apply (count_occ_In Nat.eq_dec). lia. }
  destruct (indexOf_present cbs cb Hin) as (l1 & l2 & -> & Hni & Hi).
  assert (Hoff : listeners (off event cb s) = <[event := l1 ++ l2]> (listeners s)).
  { unfold off. rewrite Hl, Hi.
    assert (G : (Z.of_nat (length l1) >? -1)%Z = true)
      by (apply Z.gtb_lt; lia).
    rewrite G. simpl. by rewrite splice1_middle. }
  assert (Hinv : invoked = l1 ++ l2).
  { subst invoked.
    pose proof (emit_spec impl event data (off event cb s) w) as H.
    simpl in H. destruct H as (_ & _ & _ & _ & _ & _ & H).
    rewrite H, Hoff, lookup_insert_eq. done. }
  rewrite count_occ_app in Hn. simpl in Hn.
  destruct (Nat.eq_dec cb cb) as [_|]; [|done].
  rewrite (count_occ_absent l1 cb Hni) in Hn. simpl in Hn.
  repeat split.
  - rewrite Hinv, count_occ_app, (count_occ_absent l1 cb Hni). simpl. lia.
  - rewrite Hinv. apply elem_of_app. right.
    apply list_elem_of_In. apply (count_occ_In Nat.eq_dec). lia.
  - intros cb' Hne. rewrite Hinv, !count_occ_app. simpl.
    destruct (Nat.eq_dec cb cb'); [congruence|done].
  - intros event' Hne. rewrite Hoff. by apply lookup_insert_ne.
  - intros s0 cb0 cbs0 H0 Hni0. unfold off.
    by rewrite H0, (indexOf_absent _ _ Hni0).
  - intros s0 cb0 H0. unfold off. by rewrite H0.
Qed.

End ServiceClaims.

(** *** The claims about the service on the mounted dashboard *)

Section ServiceWitnesses.

Import WebSocketService.

(** A decoder that accepts one payload. *)
Let decode (payload : string) : option MarketDashboard.decoded :=
  if String.eqb payload "null" then Some MarketDashboard.DNull else None.

Let clock (n : nat) : Z := (1000 * Z.of_nat n)%Z.

(** The second close in a row is retried after six seconds. *)
Lemma reconnect_backoff_witness :
  let s := set_reconnectAttempts 1
             (MarketDashboard.mounted createWebSocketService) in
  let closed := onclose (MarketDashboard.impl clock) s
                  (MarketDashboard.data clock) in
  reconnectAttempts closed.1 = 2%Z
  /\ timers closed.1 = [(6000%Z, RunConnect)].
Proof.
  intros s closed.
  destruct (reconnect_backoff decode (MarketDashboard.impl clock) s
              (MarketDashboard.data clock) 2
              ltac:(unfold maxReconnectAttempts; lia) eq_refl)
    as (H1 & H2 & _).
  split; [exact H1 | exact H2].
Defined.

(** Six closes in a row, each reconnection starting when its timer fires:
    the timer queue after each close. *)
Example reconnect_schedule :
  let retry := [SocketCloses; TimerFires 0%nat] in
  let after n :=
    timers (run decode (MarketDashboard.impl clock)
              (concat (repeat retry n) ++ [SocketCloses])
              (MarketDashboard.mounted createWebSocketService,
               MarketDashboard.data clock)).1 in
  map after [0; 1; 2; 3; 4; 5]%nat
  = [[(3000%Z, RunConnect)]; [(6000%Z, RunConnect)]; [(9000%Z, RunConnect)];
     [(12000%Z, RunConnect)]; [(15000%Z, RunConnect)]; []].
Proof. vm_compute. reflexivity. Qed.

Lemma malformed_payload_dropped_witness :
  let s := set_ws (Some OPEN)
             (MarketDashboard.mounted createWebSocketService) in
  let r := step decode (MarketDashboard.impl clock) (SocketMessage "{oops")
             (s, MarketDashboard.data clock) in
  r.2 = MarketDashboard.data clock /\ ws r.1 = Some OPEN.
Proof.
  intros s r.
  destruct (malformed_payload_dropped decode (MarketDashboard.impl clock)
              "{oops" s (MarketDashboard.data clock) eq_refl)
    as (H1 & H2 & _).
  split; [exact H1 | exact H2].
Defined.

(** Two panels listen to ["message"]; the dashboard's handler throws on a
    [null] message and the second panel is called nevertheless. *)
Lemma emit_isolates_handlers_witness :
  let s := on "message" 7%nat
             (MarketDashboard.mounted createWebSocketService) in
  (emit (MarketDashboard.impl clock) "message"
        (Data MarketDashboard.DNull) s (MarketDashboard.data clock)).2
  = [MarketDashboard.onMessage; 7%nat].
Proof.
  intros s.
  destruct (emit_isolates_handlers (MarketDashboard.impl clock) "message"
              (Data MarketDashboard.DNull) s (MarketDashboard.data clock)
              [] [7%nat] MarketDashboard.onMessage eq_refl eq_refl)
    as (H & _).
  exact H.
Defined.

(** A handler registered twice and removed once is still called once. *)
Lemma off_removes_one_registration_witness :
  let s := on "message" 7%nat
             (on "message" MarketDashboard.onMessage
                (MarketDashboard.mounted createWebSocketService)) in
  count_occ Nat.eq_dec
    (emit (MarketDashboard.impl clock) "message" (Data MarketDashboard.DNull)
          (off "message" MarketDashboard.onMessage s)
          (MarketDashboard.data clock)).2
    MarketDashboard.onMessage
  = 1%nat.
Proof.
  intros s.
  destruct (off_removes_one_registration (MarketDashboard.impl clock)
              "message" MarketDashboard.onMessage s
              (Data MarketDashboard.DNull) (MarketDashboard.data clock)
              [2; 2; 7]%nat 2%nat eq_refl eq_refl ltac:(lia))
    as (H & _).
  exact H.
Defined.

End ServiceWitnesses.

(** ** Going offline *)

Section Offline.

Import MarketDashboard.

Variable clock : nat -> Z.

Lemma obj_set_idem {V} (o : obj V) k v :
  obj_set (obj_set o k v) k v = obj_set o k v.
Proof.
  induction o as [|[k' v'] o IH]; simpl.
  - by rewrite String.eqb_refl.
  - destruct (String.eqb k' k) eqn:E; simpl; rewrite E; [done|by rewrite IH].
Qed.

Lemma obj_get_keys {V} (o : obj V) k v :
  obj_get o k = Some v -> k ∈ obj_keys o.
Proof.
  unfold obj_keys. induction o as [|[k' v'] o IH]; simpl; [done|].
  destruct (String.eqb k' k) eqn:E.
  - apply String.eqb_eq in E. subst. intros _. apply elem_of_cons. by left.
  - intros H. apply elem_of_cons. right. by apply IH.
Qed.

Lemma offline_fold keys (a : obj (obj jsval)) k :
  obj_get
    (fold_left
       (fun a adapter =>
          match obj_get a adapter with
          | Some record => obj_set a adapter (offline record)
          | None => a
          end) keys a) k
  = if bool_decide (k ∈ keys) then offline <$> obj_get a k else obj_get a k.
Proof.
  revert a. induction keys as [|k0 keys IH]; intros a; simpl; [done|].
  rewrite IH. clear IH.
  assert (G : obj_get (match obj_get a k0 with
                       | Some record => obj_set a k0 (offline record)
                       | None => a
                       end) k
              = if String.eqb k0 k then offline <$> obj_get a k
                else obj_get a k).
  { destruct (String.eqb k0 k) eqn:E.
    - apply String.eqb_eq in E. subst k0.
      destruct (obj_get a k) eqn:F; simpl; [apply obj_get_set_eq|done].
    - apply String.eqb_neq in E.
      destruct (obj_get a k0); [by apply obj_get_set_ne|done]. }
  rewrite G. clear G.
  destruct (String.eqb k0 k) eqn:E.
  - apply String.eqb_eq in E. subst k0.
    rewrite (bool_decide_eq_true_2 (k ∈ k :: keys)) by (apply elem_of_cons; by left).
    case_bool_decide; [|done].
    destruct (obj_get a k); simpl; [|done].
    unfold offline. by rewrite obj_set_idem.
  - apply String.eqb_neq in E.
    case_bool_decide as H1; case_bool_decide as H2; try done.
    + exfalso. apply H2. apply elem_of_cons. by right.
    + exfalso. apply elem_of_cons in H2 as [H2|H2]; [congruence|done].
Qed.

(** [markAdaptersOffline] rewrites the flag of every adapter and nothing
    else. *)
Lemma markAdaptersOffline_adapters d a :
  obj_get (adapters (markAdaptersOffline d)) a
  = offline <$> obj_get (adapters d) a.
Proof.
  unfold markAdaptersOffline. simpl.
  change (fun a0 adapter =>
            match obj_get a0 adapter with
            | Some record =>
                obj_set a0 adapter (obj_set record "is_connected" (JBool false))
            | None => a0
            end)
    with (fun (a0 : obj (obj jsval)) adapter =>
            match obj_get a0 adapter with
            | Some record => obj_set a0 adapter (offline record)
            | None => a0
            end).
  rewrite offline_fold. case_bool_decide as H; [done|].
  destruct (obj_get (adapters d) a) eqn:E; [|done].
  exfalso. apply H. by eapply obj_get_keys.
Qed.

Lemma markAdaptersOffline_all_offline d : all_offline (markAdaptersOffline d).
Proof.
  intros a record. rewrite markAdaptersOffline_adapters.
  destruct (obj_get (adapters d) a); simpl; [|done].
  intros [= <-]. unfold obj_field, offline. by rewrite obj_get_set_eq.
Qed.

(** The callbacks that may run on ["disconnected"] keep the adapters
    offline once they are. *)
Lemma impl_keeps_offline cb d :
  all_offline d ->
  all_offline (fst (impl clock cb WebSocketService.Undefined d)).
Proof.
  intros H. unfold impl. destruct cb as [|[|[|cb]]]; simpl; try exact H.
  apply markAdaptersOffline_all_offline.
Qed.

Lemma disconnected_callbacks cbs d :
  onDisconnected ∈ cbs \/ all_offline d ->
  all_offline
    (fold_left (fun w cb => fst (impl clock cb WebSocketService.Undefined w))
               cbs d).
Proof.
  revert d. induction cbs as [|cb cbs IH]; intros d H; simpl.
  - destruct H as [H|H]; [by apply elem_of_nil in H|exact H].
  - apply IH. destruct H as [H|H].
    + apply elem_of_cons in H as [<-|H]; [|by left].
      right. simpl. apply markAdaptersOffline_all_offline.
    + right. by apply impl_keeps_offline.
Qed.

End Offline.

Section OfflineDashboard.

Import Dashboard.

Variable clock : nat -> Z.

Lemma obj_set_Forall {V} (Q : V -> Prop) (o : obj V) k v :
  Forall (fun kv => Q kv.2) o -> Q v -> Forall (fun kv => Q kv.2) (obj_set o k v).
Proof.
  intros H Hv. induction o as [|[k' v'] o IH]; simpl.
  - by constructor.
  - inversion H as [|? ? H1 H2]; subst.
    destruct (String.eqb k' k); constructor; auto.
Qed.

Lemma offlineEntries_offline adapters acc d :
  Forall (fun kv => obj_field kv.2 "is_connected" = JBool false) acc ->
  Forall (fun kv => obj_field kv.2 "is_connected" = JBool false)
         (fold_left (offlineEntry clock) adapters (acc, d)).1.
Proof.
  revert acc d. induction adapters as [|a l IH]; intros acc d H; simpl; [done|].
  apply IH.
  by apply (obj_set_Forall (fun m => obj_field m "is_connected" = JBool false)).
Qed.

Lemma updateCharts_cards s d :
  overviewCards (updateCharts clock s d) = overviewCards d
  /\ connected (updateCharts clock s d) = connected d.
Proof. unfold updateCharts. destruct (chartStartTime_unset d); done. Qed.

Lemma offlineEntries_connected adapters acc d :
  connected (fold_left (offlineEntry clock) adapters (acc, d)).2 = connected d.
Proof.
  revert acc d. induction adapters as [|a l IH]; intros acc d; simpl; [done|].
  by rewrite IH.
Qed.

(** After a close every overview card shows its adapter as offline. *)
Lemma onclose_cards d :
  connected (onclose clock d) = false
  /\ Forall (fun c => card_isConnected c.2 = false)
            (overviewCards (onclose clock d)).
Proof.
  unfold onclose. simpl. unfold updateAdaptersToOffline.
  destruct (fold_left _ _ _) as [os d'] eqn:F.
  assert (H : Forall (fun kv => obj_field kv.2 "is_connected" = JBool false) os).
  { change os with (os, d').1. rewrite <- F.
    apply offlineEntries_offline. constructor. }
  assert (C : connected d' = false).
  { change d' with (os, d').2. rewrite <- F.
    by rewrite offlineEntries_connected. }
  unfold updateDashboard.
  destruct (updateCharts_cards os (updateOverviewCards os d')) as [-> ->].
  simpl. split; [exact C|].
  apply Forall_map. eapply Forall_impl; [exact H|].
  intros [k m] E. simpl in *. by rewrite E.
Qed.

End OfflineDashboard.

Section OfflineClaim.

Import WebSocketService MarketDashboard.

(** C2.  When the socket closes, the service emits ["disconnected"]; with
    the dashboard's callback registered, every adapter record has
    [is_connected: false] when [onclose] returns, whatever it held before.
    In dashboard.js the close handler rewrites the overview so that every
    card shows its adapter offline. *)
Theorem close_marks_adapters_offline (clock : nat -> Z) (s : service)
  (d : dashboard) (cbs : list callback) :
  listeners s !! "disconnected" = Some cbs ->
  onDisconnected ∈ cbs ->
  let d' := (step (fun _ => None) (impl clock) SocketCloses (s, d)).2 in
  (forall a record, obj_get (adapters d') a = Some record ->
     obj_field record "is_connected" = JBool false)
  /\ (forall a, a ∈ obj_keys (adapters d) -> a ∈ obj_keys (adapters d'))
  /\ (forall d0,
        Dashboard.connected (Dashboard.onclose clock d0) = false
        /\ Forall (fun c => Dashboard.card_isConnected c.2 = false)
                  (Dashboard.overviewCards (Dashboard.onclose clock d0))).
Proof.
  intros Hl Hin d'.
  assert (E : d' = fold_left (fun w cb => fst (impl clock cb Undefined w)) cbs d).
  { subst d'. simpl.
    pose proof (onclose_spec (impl clock) (socketState CLOSED s) d) as H.
    simpl in H. destruct H as (_ & _ & _ & H & _). rewrite H.
    assert (G : listeners (socketState CLOSED s) = listeners s)
      by (unfold socketState; destruct (ws s); done).
    by rewrite G, Hl. }
  repeat split.
  - rewrite E. apply disconnected_callbacks. by left.
  - intros a. rewrite E. clear. revert d.
    induction cbs as [|cb cbs IH]; intros d Ha; simpl; [done|].
    apply IH. unfold impl. destruct cb as [|[|[|cb]]]; try done.
    change (a ∈ obj_keys (adapters (markAdaptersOffline
                                      (set_testRunning false
                                         (set_connected false d))))).
    destruct (obj_get (adapters d) a) as [r|] eqn:F.
    + apply (obj_get_keys _ a (offline r)).
      rewrite markAdaptersOffline_adapters. simpl. by rewrite F.
    + exfalso. clear -Ha F. unfold obj_keys in Ha.
      induction (adapters d) as [|[k v] o IH]; simpl in *;
        [by apply elem_of_nil in Ha|].
      destruct (String.eqb k a) eqn:G; [done|].
      apply String.eqb_neq in G.
      apply elem_of_cons in Ha as [Ha|Ha]; [congruence|auto].
  - apply onclose_cards.
  - apply onclose_cards.
Qed.

(** An adapter that reported [is_connected: true] before the close. *)
Lemma close_marks_adapters_offline_witness :
  let clock := fun n => (1000 * Z.of_nat n)%Z in
  let s := mounted createWebSocketService in
  let d := updateAdapters clock
             [("binance", [("avg_latency_ms", JNum 10);
                           ("is_connected", JBool true)])]
             (data clock) in
  let d' := (step (fun _ => None) (impl clock) SocketCloses (s, d)).2 in
  obj_field (default [] (obj_get (adapters d) "binance")) "is_connected"
    = JBool true
  /\ obj_field (default [] (obj_get (adapters d') "binance")) "is_connected"
    = JBool false
  /\ obj_field (default [] (obj_get (adapters d') "binance")) "avg_latency_ms"
    = JNum 10.
Proof.
  intros clock s d d'.
  destruct (close_marks_adapters_offline clock s d [onDisconnected] eq_refl
              ltac:(apply elem_of_cons; left; reflexivity))
    as (H & _).
  split; [reflexivity|]. split; [|reflexivity].
  exact (H "binance" _ eq_refl).
Defined.

End OfflineClaim.

(** ** Colour classes *)

Section MetricClass.

Import AdapterCard.

(** In a ladder sorted by descending minimum, the first rule met is the
    one with the greatest minimum among the rules met. *)
Lemma firstThreshold_descending value ts c :
  StronglySorted (fun a b => Qle (th_min b) (th_min a)) ts ->
  firstThreshold value ts = Some c ->
  exists t, t ∈ ts /\ th_class t = c /\ js_ge value (th_min t) = true
            /\ forall t', t' ∈ ts -> js_ge value (th_min t') = true ->
                          Qle (th_min t') (th_min t).
Proof.
  induction ts as [|t ts IH]; intros Hs H; simpl in H; [done|].
  inversion Hs as [|? ? Hs' Hall]; subst.
  destruct (js_ge value (th_min t)) eqn:E.
  - injection H as <-. exists t. repeat split; [by left|exact E|].
    intros t' Hin _. apply elem_of_cons in Hin as [->|Hin].
    + apply Qle_refl.
    + rewrite Forall_forall in Hall. by apply Hall.
  - destruct (IH Hs' H) as (t0 & Hin & Hc & Hge & Hmax).
    exists t0. repeat split; [by right|exact Hc|exact Hge|].
    intros t' Hin' Hge'. apply elem_of_cons in Hin' as [->|Hin'].
    + congruence.
    + by apply Hmax.
Qed.

(** [getMetricClass] computes the rule set as the specification words it.
    The three rule categories are selected by the one field [color.type],
    so a configuration has rules in at most one of them, and the order in
    which they are read cannot be observed. *)
Lemma getMetricClass_classifyByPriority (adapterData : obj jsval)
  (cfg : adapterConfig) (metricKey : string) (mc : metricConfig)
  (cc : colorConfig) :
  obj_get (metrics cfg) metricKey = Some mc ->
  color mc = Some cc ->
  getMetricClass adapterData (Some cfg) metricKey
  = classifyByPriority (js_or (obj_field adapterData metricKey) (JNum 0))
                       mc cc.
Proof.
  intros Hmc Hcc. unfold getMetricClass, classifyByPriority.
  rewrite Hmc, Hcc.
  unfold staticRule, conditionalLadder, thresholdLadder, defaultFallback.
  destruct (String.eqb (color_type cc) "conditional") eqn:E1.
  - apply String.eqb_eq in E1. rewrite E1. simpl.
    destruct (color_conditions cc) as [cs|]; simpl; [|done].
    destruct (firstCondition _ cs); done.
  - destruct (String.eqb (color_type cc) "static") eqn:E2; simpl; [done|].
    destruct (String.eqb (color_type cc) "threshold") eqn:E3; simpl; [|done].
    destruct (color_thresholds cc) as [ts|]; simpl; [|done].
    destruct (firstThreshold _ ts); done.
Qed.








End MetricClass.

(** ** The time base of the charts *)

Section TimeBase.

Import MarketDashboard.

Variable clock : nat -> Z.

Lemma seconds_nonzero t : t <> 0%Z -> Qeq_bool (seconds t) 0 = false.
Proof.
  intros Ht. destruct (Qeq_bool (seconds t) 0) eqn:E; [|done].
  apply Qeq_bool_iff in E. unfold seconds in E. rewrite Qred_correct in E.
  unfold Qeq, Qdiv, Qmult, Qinv in E. simpl in E. lia.
Qed.

Lemma seconds_same t : Qred (seconds t - seconds t) = 0%Q.
Proof.
  change 0%Q with (Qred 0). apply Qred_complete. ring.
Qed.

(** Once the chart epoch is set (and is not the instant 0), a merge leaves
    it alone and stamps its points with the time elapsed since. *)
Lemma updateChartData_epoch a metrics d c :
  chartStartTime d = Some c -> Qeq_bool c 0 = false ->
  let d' := updateChartData clock a metrics d in
  chartStartTime d' = Some c
  /\ latencyData d' =
       appendPoint (latencyData d) a
         {| x := Qred (seconds (clock (clockReads d)) - c);
            y := js_or (obj_field metrics "avg_latency_ms") (JNum 0) |}
  /\ successData d' =
       appendPoint (successData d) a
         {| x := Qred (seconds (clock (clockReads d)) - c);
            y := js_mul (js_or (obj_field metrics "success_rate") (JNum 0))
                        (JNum 100) |}.
Proof.
  intros Hc Hz. unfold updateChartData, chartStartTime_unset.
  rewrite Hc, Hz. simpl. rewrite Hc. done.
Qed.

Lemma updateAdapters_epoch c s d :
  epoch_is c d -> epoch_is c (updateAdapters clock s d).
Proof.
  unfold updateAdapters. revert d.
  induction s as [|[a m] s IH]; intros d H; simpl; [done|].
  apply IH. destruct H as [Hc Hz]. split; [|exact Hz].
  unfold updateAdapter, Date_now. cbn beta iota zeta.
  refine (proj1 (updateChartData_epoch a m _ c _ Hz)). exact Hc.
Qed.

Lemma handleWebSocketMessage_epoch c msg d :
  epoch_is c d -> epoch_is c (fst (handleWebSocketMessage clock msg d)).
Proof.
  intros H. unfold handleWebSocketMessage. simpl.
  destruct msg as [|m]; simpl; [exact H|].
  destruct (type m) as [ty|]; [|exact H].
  repeat (match goal with
          | |- context [match ?s with EmptyString => _ | String _ _ => _ end] =>
              destruct s; try exact H
          | |- context [match ?a with Ascii.Ascii _ _ _ _ _ _ _ _ => _ end] =>
              destruct a
          | |- context [if ?b then _ else _] => destruct b; try exact H
          end).
  all: try (destruct (summary_field m));
    try (apply updateAdapters_epoch); try exact H.
Qed.

Lemma run_epoch c es d : epoch_is c d -> epoch_is c (run clock es d).
Proof.
  unfold run. revert d.
  induction es as [|[cb p] es IH]; intros d H; simpl; [done|].
  apply IH. unfold deliver, impl. simpl.
  destruct cb as [|[|[|cb]]]; simpl; try exact H.
  destruct p; by apply handleWebSocketMessage_epoch.
Qed.

Lemma last_appendPoint o a p : last (series_of (appendPoint o a p) a) = Some p.
Proof.
  rewrite series_of_appendPoint, String.eqb_refl.
  destruct (maxPoints <? _)%nat eqn:E; unfold push; [|apply last_snoc].
  apply Nat.ltb_lt in E. rewrite length_push in E.
  destruct (series_of o a) as [|q l]; [simpl in E; unfold maxPoints in E; lia|].
  simpl. apply last_snoc.
Qed.

End TimeBase.

Section InitialData.

Import MarketDashboard.

(** C5, as the code has it.  Merging the [initial_data] message into the
    fresh state stores [avg_latency_ms = 10] for binance and sets
    [startTime] to T0 (a non-zero instant in whole milliseconds).  The
    epoch of the charts is not T0: it is the clock reading taken when this
    first merge reaches the charts.  The binance latency series becomes
    one point with [y = 10] whose [x] is the time between that reading and
    the next one, 0 when the two coincide.  When that reading is not the
    instant 0, the chart epoch stays over every run and every sequence of
    merges, and every later point of an adapter whose id is not a name
    that objects inherit is stamped with the seconds elapsed since the
    chart epoch; when it is the instant 0, the code takes the epoch for
    unset and the next merge replaces it. *)
Theorem initial_data_merge (clock : nat -> Z) (T0 : Z) :
  T0 <> 0%Z ->
  (Z.abs T0 <= 8640000000000000)%Z ->
  let binance := [("avg_latency_ms", JNum 10); ("success_rate", JNum 1);
                  ("is_connected", JBool true)] in
  let msg := DObject {| type := Some "initial_data"; data_summary := None;
                        summary_field := Some [("binance", binance)];
                        test_running := JUndefined;
                        start_time := JNum (inject_Z T0);
                        message_text := None |} in
  let d1 := (handleWebSocketMessage clock msg (data clock)).1 in
  let epoch := seconds (clock 3%nat) in
  obj_field (default [] (obj_get (adapters d1) "binance")) "avg_latency_ms"
    = JNum 10
  /\ startTime d1 = JNum (inject_Z T0)
  /\ chartStartTime d1 = Some epoch
  /\ series_of (latencyData d1) "binance"
     = [{| x := Qred (seconds (clock 4%nat) - epoch); y := JNum 10 |}]
  /\ (clock 4%nat = clock 3%nat ->
      series_of (latencyData d1) "binance" = [{| x := 0; y := JNum 10 |}])
  /\ (clock 3%nat <> 0%Z ->
      (forall es, chartStartTime (run clock es d1) = Some epoch)
      /\ (forall snapshots,
            chartStartTime (MarketDashboardAnyId.merges clock snapshots d1)
            = Some epoch)
      /\ forall d a metrics,
           chartStartTime d = Some epoch ->
           inherited a = false ->
           let d' := updateChartData clock a metrics d in
           MarketDashboardAnyId.updateChartData clock a metrics d
           = (d', WebSocketService.Normal)
           /\ chartStartTime d' = Some epoch
           /\ last (series_of (latencyData d') a)
              = Some {| x := Qred (seconds (clock (clockReads d)) - epoch);
                        y := js_or (obj_field metrics "avg_latency_ms")
                                   (JNum 0) |})
  /\ (clock 3%nat = 0%Z ->
      chartStartTime_unset d1 = true
      /\ forall a metrics,
           chartStartTime
             (MarketDashboardAnyId.updateChartData clock a metrics d1).1
           = Some (seconds (clock (clockReads d1)))).
Proof.
  intros Hnz Hrange binance msg d1 epoch.
  assert (Ht : truthy (JNum (inject_Z T0)) = true).
  { simpl. destruct (Qeq_bool (inject_Z T0) 0) eqn:E; [|done].
    apply Qeq_bool_iff in E. unfold Qeq in E. simpl in E. lia. }
  assert (Hg : Date_getTime (JNum (inject_Z T0)) = JNum (inject_Z T0)).
  { unfold Date_getTime.
    assert (G : Qle_bool (Qabs (inject_Z T0)) (inject_Z 8640000000000000)
                = true).
    { apply Qle_bool_iff. unfold Qle. simpl. lia. }
    rewrite G. simpl. by rewrite Z.quot_1_r. }
  assert (E1 : d1 =
    updateAdapters clock [("binance", binance)]
      (set_times (JNum (inject_Z T0)) None
         (set_counters 1 (JTimeString (clock 1%nat))
            (Date_now clock (data clock)).2))).
  { subst d1. unfold handleWebSocketMessage.
    cbn [Date_now fst snd]. cbn [msg type summary_field start_time].
    rewrite Ht, Hg. reflexivity. }
  assert (Hseries : series_of (latencyData d1) "binance"
                    = [{| x := Qred (seconds (clock 4%nat) - epoch);
                          y := JNum 10 |}])
    by (rewrite E1; reflexivity).
  assert (Hepoch : chartStartTime d1 = Some epoch)
    by (rewrite E1; reflexivity).
  split; [rewrite E1; reflexivity|].
  split; [rewrite E1; reflexivity|].
  split; [exact Hepoch|].
  split; [exact Hseries|].
  split; [|split].
  - intros Hsame. rewrite Hseries. subst epoch. rewrite Hsame.
    by rewrite seconds_same.
  - intros Hclock.
    assert (Hz : Qeq_bool epoch 0 = false) by (by apply seconds_nonzero).
    split; [|split].
    + intros es. by apply (run_epoch clock epoch es d1).
    + intros snapshots. by apply (merges_epoch clock epoch snapshots d1).
    + intros d a metrics Hc Ha d'.
      split; [by apply updateChartData_plain|].
      destruct (updateChartData_epoch clock a metrics d epoch Hc Hz)
        as (Hc' & Hl & _).
      split; [exact Hc'|].
      fold d' in Hl. rewrite Hl. apply last_appendPoint.
  - intros Hclock.
    assert (Hu : chartStartTime_unset d1 = true).
    { unfold chartStartTime_unset. rewrite Hepoch. subst epoch.
      by rewrite Hclock. }
    split; [exact Hu|].
    intros a metrics. unfold MarketDashboardAnyId.updateChartData.
    rewrite Hu. cbn [Date_now]. cbv zeta.
    destruct (MarketDashboardAnyId.pushPoint _ _ _); [|reflexivity].
    destruct (MarketDashboardAnyId.pushPoint _ _ _); reflexivity.
Qed.

(** T0 is the first second of 1970; the message arrives a minute later and
    an identical snapshot two seconds after that. *)
Lemma initial_data_merge_witness :
  let clock := fun n => if (n <? 5)%nat then 60000%Z else 62000%Z in
  let binance := [("avg_latency_ms", JNum 10); ("success_rate", JNum 1);
                  ("is_connected", JBool true)] in
  let msg := DObject {| type := Some "initial_data"; data_summary := None;
                        summary_field := Some [("binance", binance)];
                        test_running := JUndefined;
                        start_time := JNum (inject_Z 1000);
                        message_text := None |} in
  let d1 := (handleWebSocketMessage clock msg (data clock)).1 in
  startTime d1 = JNum (inject_Z 1000)
  /\ chartStartTime d1 = Some (60 # 1)
  /\ series_of (latencyData d1) "binance" = [{| x := 0; y := JNum 10 |}]
  /\ series_of (latencyData (updateChartData clock "binance" binance d1))
               "binance"
     = [{| x := 0; y := JNum 10 |}; {| x := 2 # 1; y := JNum 10 |}].
Proof.
  intros clock binance msg d1.
  destruct (initial_data_merge clock 1000 ltac:(lia) ltac:(lia))
    as (_ & H2 & H3 & _ & H5 & _).
  split; [exact H2|]. split; [exact H3|]. split; [exact (H5 eq_refl)|].
  reflexivity.
Defined.

(** The claim as worded takes T0 for the epoch of the charts.  With T0 at
    second 1 and the two merges at seconds 60 and 62, the points are
    stamped 0 and 2, not 59 and 61. *)
Lemma chart_epoch_is_not_start_time :
  let clock := fun n => if (n <? 5)%nat then 60000%Z else 62000%Z in
  let binance := [("avg_latency_ms", JNum 10); ("success_rate", JNum 1);
                  ("is_connected", JBool true)] in
  let msg := DObject {| type := Some "initial_data"; data_summary := None;
                        summary_field := Some [("binance", binance)];
                        test_running := JUndefined;
                        start_time := JNum (inject_Z 1000);
                        message_text := None |} in
  let d1 := (handleWebSocketMessage clock msg (data clock)).1 in
  let d2 := updateChartData clock "binance" binance d1 in
  let T0 := seconds 1000 in
  startTime d1 = JNum (inject_Z 1000)
  /\ ~ (chartStartTime d1 = Some T0)
  /\ ~ (map x (series_of (latencyData d2) "binance")
        = [Qred (seconds 60000 - T0); Qred (seconds 62000 - T0)])
  /\ ~ (exists p, last (series_of (latencyData d2) "binance") = Some p
                  /\ x p = Qred (seconds 62000 - T0)).
Proof.
  intros clock binance msg d1 d2 T0.
  split; [reflexivity|]. split; [|split].
  - vm_compute. discriminate.
  - vm_compute. discriminate.
  - intros (p & Hp & Hx). vm_compute in Hp. injection Hp as <-.
    vm_compute in Hx. discriminate.
Qed.

End InitialData.

(** ** The render fingerprint *)

Section Fingerprint.

Import MarketDashboard LatencyChart.

Lemma token_eqb_eq a b : token_eqb a b = true <-> a = b.
Proof.
  split.
  - destruct a, b; simpl; try done.
    + intros H. apply String.eqb_eq in H. by subst.
    + intros H. apply andb_true_iff in H as [H1 H2].
      apply Z.eqb_eq in H1, H2. by subst.
    + intros H. apply Bool.eqb_prop in H. by subst.
    + intros H. apply Z.eqb_eq in H. by subst.
  - intros <-. destruct a; simpl; try done.
    + apply String.eqb_refl.
    + by rewrite !Z.eqb_refl.
    + by destruct b.
    + apply Z.eqb_refl.
Qed.

(** Comparing two texts with [===] decides their equality. *)
Lemma text_eqb_eq a b : text_eqb a b = true <-> a = b.
Proof.
  revert b. induction a as [|t a IH]; intros [|u b]; simpl; try done.
  rewrite andb_true_iff, token_eqb_eq, IH. split.
  - by intros [-> ->].
  - by intros [= -> ->].
Qed.

Lemma obj_set_fresh {V} (o : obj V) k v :
  k ∉ obj_keys o -> obj_set o k v = o ++ [(k, v)].
Proof.
  unfold obj_keys. induction o as [|[k' v'] o IH]; simpl; [done|].
  intros H. apply not_elem_of_cons in H as [Hne Hni].
  destruct (String.eqb k' k) eqn:E.
  - apply String.eqb_eq in E. congruence.
  - by rewrite IH.
Qed.

Lemma hashData_fold (d h : obj (list point)) :
  NoDup (obj_keys h ++ obj_keys d) ->
  fold_left
    (fun h kv =>
       if (0 <? length (snd kv))%nat
       then obj_set h (fst kv) (slice_last 5 (snd kv))
       else h) d h
  = h ++ map tailEntry (List.filter hasPoints d).
Proof.
  revert h. induction d as [|[k v] d IH]; intros h Hnd; simpl.
  - by rewrite app_nil_r.
  - simpl in Hnd. apply NoDup_app in Hnd as (Hh & Hdisj & Hd).
    apply NoDup_cons in Hd as [Hk Hd].
    assert (Hfresh : k ∉ obj_keys h).
    { intros Hin. apply (Hdisj k Hin). by left. }
    unfold hasPoints at 1. simpl.
    destruct (0 <? length v)%nat.
    + rewrite IH.
      * rewrite (obj_set_fresh h k _ Hfresh), <- app_assoc. done.
      * rewrite (obj_set_fresh h k _ Hfresh).
        unfold obj_keys. rewrite map_app. simpl.
        apply NoDup_app. repeat split.
        -- apply NoDup_app. repeat split; [done| |apply NoDup_singleton].
           intros y Hy Hy'. apply list_elem_of_singleton in Hy'. by subst.
        -- intros y Hy Hy'. apply elem_of_app in Hy as [Hy|Hy].
           ++ apply (Hdisj y Hy). by right.
           ++ apply list_elem_of_singleton in Hy. by subst.
        -- done.
    + apply IH. apply NoDup_app. repeat split; [done| |done].
      intros y Hy Hy'. apply (Hdisj y Hy). by right.
Qed.

Lemma length_slice_last {A} n (l : list A) :
  length (slice_last n l) = Nat.min n (length l).
Proof. unfold slice_last. rewrite length_drop. lia. Qed.

(** The watcher schedules a rebuild exactly when the fingerprint of a
    non-empty bundle differs from the stored one. *)
Lemma watch_chartData_nextTick newData c :
  nextTick (watch_chartData newData c) =
  if mountedReady c && checkDataHasContent newData
     && negb (text_eqb (calculateDataHash newData) (lastDataHash c))
  then nextTick c ++ [newData] else nextTick c.
Proof.
  unfold watch_chartData.
  destruct (mountedReady c); [|reflexivity].
  destruct (checkDataHasContent newData); [|reflexivity].
  cbv zeta.
  destruct (text_eqb (calculateDataHash newData) (lastDataHash c));
    reflexivity.
Qed.

Lemma watch_chartData_hash newData c :
  lastDataHash (watch_chartData newData c) =
  if mountedReady c && checkDataHasContent newData
  then calculateDataHash newData else lastDataHash c.
Proof.
  unfold watch_chartData.
  destruct (mountedReady c); [|reflexivity].
  destruct (checkDataHasContent newData); [|reflexivity].
  cbv zeta.
  destruct (text_eqb (calculateDataHash newData) (lastDataHash c)) eqn:E;
    [|reflexivity].
  apply text_eqb_eq in E. exact (eq_sym E).
Qed.

End Fingerprint.

Section RenderDedup.

Import MarketDashboard LatencyChart.

(** C4, as the code has it.  The fingerprint of a bundle is the text of the
    last min(5, length) points of each of its non-empty series, and the
    watcher compares it with the stored one as a string: after a cycle
    whose bundle has the stored fingerprint no rebuild is scheduled, and a
    mounted chart given a non-empty bundle with another fingerprint
    schedules one.  (A merge appends a point stamped with the elapsed
    time, so merging an identical snapshot again does not by itself leave
    the fingerprint unchanged.) *)
Theorem unchanged_fingerprint_skips_render (clock : nat -> Z) (msg : decoded)
  (d : dashboard) (c : chart) :
  let r := cycle clock msg (d, c) in
  NoDup (obj_keys (latencyData r.1)) ->
  calculateDataHash (latencyData r.1) = lastDataHash c ->
  nextTick r.2 = nextTick c
  /\ lastDataHash r.2 = lastDataHash c
  /\ calculateDataHash (latencyData r.1)
     = JSON_stringify (map tailEntry (List.filter hasPoints (latencyData r.1)))
  /\ (forall kv, length (tailEntry kv).2 = Nat.min 5 (length kv.2))
  /\ (forall newData,
        mountedReady c = true -> checkDataHasContent newData = true ->
        calculateDataHash newData <> lastDataHash c ->
        nextTick (watch_chartData newData c) = nextTick c ++ [newData]
        /\ lastDataHash (watch_chartData newData c)
           = calculateDataHash newData).
Proof.
  intros r Hnd Hh. repeat split.
  - subst r. unfold cycle. simpl.
    destruct (Nat.eqb _ _); [done|].
    rewrite watch_chartData_nextTick.
    simpl in Hh. rewrite Hh.
    rewrite (proj2 (text_eqb_eq _ _) eq_refl).
    by rewrite andb_false_r.
  - subst r. unfold cycle. simpl.
    destruct (Nat.eqb _ _); [done|].
    rewrite watch_chartData_hash. simpl in Hh. rewrite Hh.
    by destruct (_ && _).
  - unfold calculateDataHash, hashData. f_equal.
    rewrite hashData_fold; [done|]. exact Hnd.
  - intros kv. apply length_slice_last.
  - rewrite watch_chartData_nextTick, H, H0. cbn [andb].
    destruct (text_eqb (calculateDataHash newData) (lastDataHash c)) eqn:E;
      [|done].
    apply text_eqb_eq in E. contradiction.
  - rewrite watch_chartData_hash, H, H0. done.
Qed.

(** With the clock standing still, five identical points are in the
    buffer; a sixth merge of the same snapshot gives the same fingerprint
    and no rebuild. *)
Lemma unchanged_fingerprint_skips_render_witness :
  let clock := fun _ : nat => 5000%Z in
  let msg := DObject {| type := Some "summary"; data_summary := None;
                        summary_field :=
                          Some [("binance", [("avg_latency_ms", JNum 10);
                                             ("success_rate", JNum 1)])];
                        test_running := JUndefined; start_time := JUndefined;
                        message_text := None |} in
  let five := fold_left (fun st _ => cycle clock msg st) (seq 0 5)
                (MarketDashboard.data clock,
                 mounted [] LatencyChart.data) in
  let r := cycle clock msg (five.1, five.2) in
  length (series_of (latencyData r.1) "binance") = 6%nat
  /\ nextTick r.2 = nextTick five.2.
Proof.
  intros clock msg five r.
  destruct (unchanged_fingerprint_skips_render clock msg five.1 five.2
              ltac:(vm_compute; apply NoDup_singleton)
              ltac:(vm_compute; reflexivity))
    as (H & _).
  split; [vm_compute; reflexivity | exact H].
Defined.

(** The claim as worded fails on the second merge already: the same
    snapshot merged twice gives a series of one point and then of two, two
    different fingerprints and two rebuilds, even if the clock stands
    still; with a running clock every merge is rendered. *)
Lemma identical_snapshot_renders_again :
  let msg := DObject {| type := Some "summary"; data_summary := None;
                        summary_field :=
                          Some [("binance", [("avg_latency_ms", JNum 10);
                                             ("success_rate", JNum 1)])];
                        test_running := JUndefined; start_time := JUndefined;
                        message_text := None |} in
  let still := fun _ : nat => 5000%Z in
  let first := cycle still msg (MarketDashboard.data still,
                                mounted [] LatencyChart.data) in
  let second := cycle still msg first in
  let running := fun n : nat => (1000 * Z.of_nat n)%Z in
  let seven := fold_left (fun st _ => cycle running msg st) (seq 0 7)
                 (MarketDashboard.data running,
                  mounted [] LatencyChart.data) in
  length (nextTick first.2) = 1%nat
  /\ length (nextTick second.2) = 2%nat
  /\ lastDataHash second.2 <> lastDataHash first.2
  /\ length (nextTick seven.2) = 7%nat.
Proof.
  intros msg still first second running seven.
  split; [vm_compute; reflexivity|]. split; [vm_compute; reflexivity|].
  split; [|vm_compute; reflexivity].
  vm_compute. discriminate.
Qed.

End RenderDedup.

(** * Further properties of the service *)

Section ServiceMore.

Import WebSocketService.

Context {D W : Type}.
Variable JSON_parse : string -> option D.
Variable impl : callback -> handler D W.

Lemma on_listeners event cb s event' :
  default [] (listeners (on event cb s) !! event') =
  if String.eqb event event'
  then default [] (listeners s !! event) ++ [cb]
  else default [] (listeners s !! event').
Proof.
  unfold on. simpl.
  destruct (String.eqb event event') eqn:E.
  - apply String.eqb_eq in E. subst event'. rewrite lookup_insert_eq. simpl.
    destruct (listeners s !! event) eqn:F; [by rewrite F|].
    by rewrite lookup_insert_eq.
  - apply String.eqb_neq in E. rewrite lookup_insert_ne by done.
    destruct (listeners s !! event); [done|].
    by rewrite lookup_insert_ne.
Qed.

(** X1.  [on] registers at the end and never deduplicates: the next
    [emit] of the event calls what was registered before, in the same
    order, and then the new callback; the other events are delivered as
    before. *)
Theorem on_registers_last (event : string) (cb : callback) (s : service)
  (data : payload D) (w : W) :
  (emit impl event data (on event cb s) w).2
    = (emit impl event data s w).2 ++ [cb]
  /\ (emit impl event data (on event cb s) w).1.2
     = (impl cb data (emit impl event data s w).1.2).1
  /\ (forall event',
        event' <> event ->
        (emit impl event' data (on event cb s) w).2
          = (emit impl event' data s w).2
        /\ (emit impl event' data (on event cb s) w).1.2
           = (emit impl event' data s w).1.2).
Proof.
  pose proof (emit_spec impl event data (on event cb s) w) as H.
  pose proof (emit_spec impl event data s w) as G.
  cbv zeta in H, G.
  destruct H as (_ & _ & _ & _ & _ & H6 & H7).
  destruct G as (_ & _ & _ & _ & _ & G6 & G7).
  rewrite on_listeners, String.eqb_refl in H6, H7.
  repeat split.
  - by rewrite H7, G7.
  - by rewrite H6, G6, fold_left_app.
  - pose proof (emit_spec impl event' data (on event cb s) w) as H'.
    pose proof (emit_spec impl event' data s w) as G'.
    cbv zeta in H', G'.
    destruct H' as (_ & _ & _ & _ & _ & _ & H').
    destruct G' as (_ & _ & _ & _ & _ & _ & G').
    rewrite on_listeners in H'.
    assert (E : String.eqb event event' = false)
      by (apply String.eqb_neq; congruence).
    rewrite E in H'. by rewrite H', G'.
  - pose proof (emit_spec impl event' data (on event cb s) w) as H'.
    pose proof (emit_spec impl event' data s w) as G'.
    cbv zeta in H', G'.
    destruct H' as (_ & _ & _ & _ & _ & H' & _).
    destruct G' as (_ & _ & _ & _ & _ & G' & _).
    rewrite on_listeners in H'.
    assert (E : String.eqb event event' = false)
      by (apply String.eqb_neq; congruence).
    rewrite E in H'. by rewrite H', G'.
Qed.

Lemma off_listeners event cb s event' :
  default [] (listeners (off event cb s) !! event') =
  if String.eqb event event'
  then (let l := default [] (listeners s !! event) in
        if bool_decide (cb ∈ l) then splice1 l (indexOf l cb) else l)
  else default [] (listeners s !! event').
Proof.
  unfold off.
  destruct (listeners s !! event) as [l|] eqn:F; cbn [default id].
  - cbv zeta. case_bool_decide as Hin.
    + destruct (indexOf_present l cb Hin) as (l1 & l2 & -> & Hni & Hi).
      rewrite Hi.
      assert (G : (Z.of_nat (length l1) >? -1)%Z = true)
        by (apply Z.gtb_lt; lia).
      rewrite G. simpl.
      destruct (String.eqb event event') eqn:E.
      * apply String.eqb_eq in E. subst. by rewrite lookup_insert_eq.
      * apply String.eqb_neq in E. by rewrite lookup_insert_ne.
    + rewrite (indexOf_absent l cb Hin). simpl.
      destruct (String.eqb event event') eqn:E; [|done].
      apply String.eqb_eq in E. subst. by rewrite F.
  - destruct (String.eqb event event') eqn:E; [|done].
    apply String.eqb_eq in E. subst. rewrite F. cbv zeta.
    by case_bool_decide.
Qed.

(** X2.  Subscribing and then unsubscribing a callback that was not
    registered for the event gives back a service that delivers every
    event as before.  When the callback was registered already, the same
    callbacks remain but it is the older registration that [off] removes,
    so the callback now runs last. *)
Theorem on_off_round_trip (event : string) (cb : callback) (s : service) :
  cb ∉ default [] (listeners s !! event) ->
  (forall event' data w,
     (emit impl event' data (off event cb (on event cb s)) w).2
       = (emit impl event' data s w).2
     /\ (emit impl event' data (off event cb (on event cb s)) w).1.2
        = (emit impl event' data s w).1.2)
  /\ (forall s0 l1 l2 data w,
        listeners s0 !! event = Some (l1 ++ cb :: l2) -> cb ∉ l1 ->
        (emit impl event data (off event cb (on event cb s0)) w).2
          = l1 ++ l2 ++ [cb]).
Proof.
  intros Hni.
  assert (R : forall event',
             default [] (listeners (off event cb (on event cb s)) !! event')
             = default [] (listeners s !! event')).
  { intros event'. rewrite off_listeners, !on_listeners, String.eqb_refl.
    destruct (String.eqb event event') eqn:E; [|done].
    apply String.eqb_eq in E. subst event'.
    set (l := default [] (listeners s !! event)) in *. cbv zeta.
    rewrite bool_decide_eq_true_2
      by (apply elem_of_app; right; apply elem_of_cons; by left).
    destruct (indexOf_present (l ++ [cb]) cb) as (l1 & l2 & E & Hn1 & Hi).
    { apply elem_of_app. right. apply elem_of_cons. by left. }
    rewrite Hi, E, splice1_middle.
    assert (l1 = l /\ l2 = []) as [-> ->].
    { clear -E Hni Hn1. revert l1 E Hn1.
      induction l as [|y l IH]; intros l1 E Hn1.
      - destruct l1 as [|z l1]; simpl in E.
        + by injection E as <-.
        + injection E as <- E. by destruct l1.
      - apply not_elem_of_cons in Hni as [Hne Hni].
        destruct l1 as [|z l1]; simpl in E.
        + injection E as E _. congruence.
        + injection E as <- E.
          apply not_elem_of_cons in Hn1 as [_ Hn1].
          destruct (IH Hni l1 E Hn1) as [-> ->]. done. }
    by rewrite app_nil_r. }
  split.
  - intros event' data w.
    pose proof (emit_spec impl event' data (off event cb (on event cb s)) w)
      as H.
    pose proof (emit_spec impl event' data s w) as G.
    cbv zeta in H, G.
    destruct H as (_ & _ & _ & _ & _ & H6 & H7).
    destruct G as (_ & _ & _ & _ & _ & G6 & G7).
    rewrite R in H6, H7. by rewrite H6, H7, G6, G7.
  - intros s0 l1 l2 data w Hl Hn1.
    pose proof (emit_spec impl event data (off event cb (on event cb s0)) w)
      as H.
    cbv zeta in H. destruct H as (_ & _ & _ & _ & _ & _ & H).
    rewrite H, off_listeners, on_listeners, String.eqb_refl, Hl.
    cbn [default id]. cbv zeta.
    rewrite bool_decide_eq_true_2
      by (rewrite <- app_assoc; apply elem_of_app; right;
          apply elem_of_cons; by left).
    destruct (indexOf_present ((l1 ++ cb :: l2) ++ [cb]) cb)
      as (k1 & k2 & E & Hk & Hi).
    { apply elem_of_app. right. apply elem_of_cons. by left. }
    rewrite Hi, E, splice1_middle.
    rewrite <- app_assoc in E. simpl in E.
    assert (k1 = l1 /\ k2 = l2 ++ [cb]) as [-> ->]; [|done].
    clear -E Hn1 Hk. revert k1 E Hk.
    induction l1 as [|y l1 IH]; intros k1 E Hk.
    + destruct k1 as [|z k1]; simpl in E.
      * by injection E as <-.
      * injection E as -> E. exfalso. apply Hk. by left.
    + apply not_elem_of_cons in Hn1 as [Hne Hn1].
      destruct k1 as [|z k1]; simpl in E.
      * injection E as E _. congruence.
      * injection E as <- E.
        apply not_elem_of_cons in Hk as [_ Hk].
        destruct (IH Hn1 k1 E Hk) as [-> ->]. done.
Qed.

End ServiceMore.

Section ServiceEvents.

Import WebSocketService.

Context {D W : Type}.
Variable JSON_parse : string -> option D.
Variable impl : callback -> handler D W.

Lemma forEach_callback_quiet event cbs data s w invoked :
  (forall cb w', (impl cb data w').2 = Normal) ->
  (forEach_callback impl event cbs data s w invoked).1.1 = s.
Proof.
  intros Hq. revert s w invoked.
  induction cbs as [|cb cbs IH]; intros s w invoked; simpl; [done|].
  specialize (Hq cb w). destruct (impl cb data w) as [w' c].
  simpl in Hq. subst c. apply IH.
Qed.

Lemma forEach_callback_log event cbs data s w invoked :
  exists n, (n <= length cbs)%nat
    /\ errorLog (forEach_callback impl event cbs data s w invoked).1.1
       = errorLog s ++ repeat event n.
Proof.
  revert s w invoked.
  induction cbs as [|cb cbs IH]; intros s w invoked; simpl.
  - exists 0%nat. by rewrite app_nil_r.
  - destruct (impl cb data w) as [w' c].
    destruct c.
    + destruct (IH s w' (invoked ++ [cb])) as (n & Hn & E).
      exists n. split; [lia | exact E].
    + destruct (IH (console_error event s) w' (invoked ++ [cb]))
        as (n & Hn & E).
      exists (S n). split; [lia|].
      rewrite E. simpl. by rewrite <- app_assoc.
Qed.

(** X3.  [emit] leaves the service exactly as it was when no callback
    throws; in general it adds at most one entry per callback to the error
    log and changes nothing else of the service. *)
Theorem emit_service_untouched (event : string) (data : payload D)
  (s : service) (w : W) :
  (forall cb w', (impl cb data w').2 = Normal) ->
  (emit impl event data s w).1.1 = s
  /\ (forall impl' : callback -> handler D W,
        exists n,
          (n <= length (default [] (listeners s !! event)))%nat
          /\ errorLog (emit impl' event data s w).1.1
             = errorLog s ++ repeat event n).
Proof.
  intros Hq. split.
  - unfold emit. destruct (listeners s !! event); [|done].
    by apply forEach_callback_quiet.
  - intros impl'. unfold emit.
    destruct (listeners s !! event) as [cbs|]; simpl.
    + clear. revert s w. generalize (@nil callback).
      induction cbs as [|cb cbs IH]; intros invoked s w; simpl.
      * exists 0%nat. by rewrite app_nil_r.
      * destruct (impl' cb data w) as [w' c]. destruct c.
        -- destruct (IH (invoked ++ [cb]) s w') as (n & Hn & E).
           exists n. split; [lia | exact E].
        -- destruct (IH (invoked ++ [cb]) (console_error event s) w')
             as (n & Hn & E).
           exists (S n). split; [lia|].
           rewrite E. simpl. by rewrite <- app_assoc.
    + exists 0%nat. by rewrite app_nil_r.
Qed.

(** X4.  An error event is passed on to the listeners and nothing more:
    the socket, the retry counter, the timers, the outbound queue and the
    subscriptions are as before, so no reconnection comes from it. *)
Theorem error_event_only_emits (s : service) (w : W) :
  let r := step JSON_parse impl SocketError (s, w) in
  ws r.1 = ws s
  /\ reconnectAttempts r.1 = reconnectAttempts s
  /\ timers r.1 = timers s
  /\ sent r.1 = sent s
  /\ listeners r.1 = listeners s
  /\ r.2 = fold_left (fun w cb => fst (impl cb ErrorEvent w))
             (default [] (listeners s !! "error")) w.
Proof.
  simpl. unfold onerror.
  pose proof (emit_spec impl "error" ErrorEvent s w) as H.
  destruct (emit impl "error" ErrorEvent s w) as [[s' w'] inv].
  simpl in H. destruct H as (H1 & H2 & H3 & H4 & H5 & H6 & _). simpl.
  by rewrite H1, H2, H3, H4, H5, H6.
Qed.

(** X5.  [disconnect()] forgets the socket but cancels nothing: the timers
    stay queued, and the close event of the socket it closed is handled
    like any other close, so that with budget left a reconnection is
    scheduled and, when its timer fires, a new socket is connecting. *)
Theorem disconnect_does_not_stop_reconnection (s : service) (w : W) :
  (reconnectAttempts s < maxReconnectAttempts)%Z ->
  let closed := run JSON_parse impl [CallDisconnect; SocketCloses] (s, w) in
  timers (disconnect s) = timers s
  /\ ws (disconnect s) = None
  /\ ws closed.1 = None
  /\ timers closed.1
     = timers s ++ [(reconnectDelay (reconnectAttempts s + 1), RunConnect)]
  /\ ws (step JSON_parse impl (TimerFires (length (timers s))) closed).1
     = Some CONNECTING.
Proof.
  intros Hb closed.
  assert (Hd : timers (disconnect s) = timers s
               /\ ws (disconnect s) = None
               /\ reconnectAttempts (disconnect s) = reconnectAttempts s).
  { unfold disconnect. destruct (ws s) eqn:E; simpl; auto. }
  destruct Hd as (Hd1 & Hd2 & Hd3).
  assert (Hs : socketState CLOSED (disconnect s) = disconnect s).
  { unfold socketState. by rewrite Hd2. }
  assert (Hc : closed = onclose impl (disconnect s) w).
  { subst closed. unfold run. cbn [fold_left step]. by rewrite Hs. }
  pose proof (onclose_spec impl (disconnect s) w) as H.
  cbv zeta in H. rewrite <- Hc in H.
  destruct H as (H1 & _ & _ & _ & H5).
  rewrite Hd3 in H5.
  rewrite (proj2 (Z.ltb_lt _ _) Hb) in H5. destruct H5 as [H5 H6].
  rewrite Hd1 in H6. rewrite Hd2 in H1.
  repeat split; try done.
  destruct closed as [sc wc]. simpl in *.
  rewrite H6, lookup_app_r, Nat.sub_diag by lia. simpl.
  unfold connect. simpl. by rewrite H1.
Qed.

(** X6.  When a connecting socket opens, the retry counter is reset and
    the request for the initial data is queued for one second later; when
    that timer fires the request goes out if the socket is still open, and
    is dropped without a trace if the socket has closed in between. *)
Theorem initial_data_request (s : service) (w : W) :
  ws s = Some CONNECTING ->
  let opened := step JSON_parse impl SocketOpens (s, w) in
  let i := length (timers s) in
  ws opened.1 = Some OPEN
  /\ reconnectAttempts opened.1 = 0%Z
  /\ timers opened.1 = timers s ++ [(1000%Z, RunRequestInitialData)]
  /\ sent (step JSON_parse impl (TimerFires i) opened).1
     = sent s ++ [GetInitialData]
  /\ sent (run JSON_parse impl [SocketCloses; TimerFires i] opened).1
     = sent s
  /\ errorLog (run JSON_parse impl [SocketCloses; TimerFires i] opened).1
     = errorLog (step JSON_parse impl SocketCloses opened).1.
Proof.
  intros Hws opened i.
  assert (Ho : opened = onopen impl (set_ws (Some OPEN) s) w).
  { subst opened. simpl. rewrite Hws. unfold socketState. by rewrite Hws. }
  pose proof (onopen_spec impl (set_ws (Some OPEN) s) w) as H.
  cbv zeta in H. rewrite <- Ho in H. simpl in H.
  destruct H as (H1 & _ & H3 & H4 & H5).
  split; [exact H1|]. split; [exact H4|]. split; [exact H5|].
  destruct opened as [so wo]. simpl in H1, H3, H4, H5.
  split.
  - simpl. subst i. rewrite H5, lookup_app_r, Nat.sub_diag by lia. simpl.
    unfold requestInitialData, send. simpl. by rewrite H1, H3.
  - unfold run. cbn [fold_left].
    pose proof (onclose_spec impl (socketState CLOSED so) wo) as C.
    cbv zeta in C.
    assert (G : ws (socketState CLOSED so) = Some CLOSED
                /\ timers (socketState CLOSED so) = timers so
                /\ sent (socketState CLOSED so) = sent so
                /\ reconnectAttempts (socketState CLOSED so) = 0%Z).
    { unfold socketState. rewrite H1. simpl. auto. }
    destruct G as (G1 & G2 & G3 & G4).
    destruct C as (C1 & _ & C3 & _ & C5).
    rewrite G4 in C5. simpl in C5. destruct C5 as [_ C5].
    rewrite G1 in C1. rewrite G3 in C3. rewrite G2 in C5.
    change (step JSON_parse impl SocketCloses (so, wo))
      with (onclose impl (socketState CLOSED so) wo).
    destruct (onclose impl (socketState CLOSED so) wo) as [sc wc].
    simpl in C1, C3, C5. simpl.
    subst i. rewrite C5, H5, <- app_assoc, lookup_app_r, Nat.sub_diag by lia.
    simpl. unfold requestInitialData, send. simpl. rewrite C1.
    simpl. by rewrite C3, H3.
Qed.

End ServiceEvents.

(** *** The service on the mounted dashboard: instances *)

Section ServiceEventsInstances.

Import WebSocketService.

Let decode (payload : string) : option MarketDashboard.decoded :=
  if String.eqb payload "null" then Some MarketDashboard.DNull else None.

Let clock (n : nat) : Z := (1000 * Z.of_nat n)%Z.

(** Callbacks that count their calls and never throw. *)
Let counting : callback -> handler unit nat := fun _ _ n => (S n, Normal).

Lemma on_off_round_trip_witness :
  let s := MarketDashboard.mounted createWebSocketService in
  (emit (MarketDashboard.impl clock) "message" (Data MarketDashboard.DNull)
        (off "message" 7%nat (on "message" 7%nat s))
        (MarketDashboard.data clock)).2
  = (emit (MarketDashboard.impl clock) "message" (Data MarketDashboard.DNull)
          s (MarketDashboard.data clock)).2.
Proof.
  intros s.
  assert (H : 7%nat ∉ default [] (listeners s !! "message")).
  { apply (bool_decide_unpack _). vm_compute. exact I. }
  destruct (on_off_round_trip (MarketDashboard.impl clock) "message" 7%nat s H)
    as [H1 _].
  exact (proj1 (H1 "message" (Data MarketDashboard.DNull)
                   (MarketDashboard.data clock))).
Defined.

Lemma emit_service_untouched_witness :
  let s := on "tick" 3%nat (on "tick" 4%nat createWebSocketService) in
  (emit counting "tick" Undefined s 0%nat).1.1 = s.
Proof.
  intros s.
  exact (proj1 (emit_service_untouched counting "tick" Undefined s 0%nat
                  (fun _ _ => eq_refl))).
Defined.

Lemma disconnect_does_not_stop_reconnection_witness :
  let s := set_ws (Some OPEN)
             (MarketDashboard.mounted createWebSocketService) in
  let closed := run decode (MarketDashboard.impl clock)
                  [CallDisconnect; SocketCloses]
                  (s, MarketDashboard.data clock) in
  timers closed.1 = [(3000%Z, RunConnect)]
  /\ ws (step decode (MarketDashboard.impl clock) (TimerFires 0%nat)
              closed).1
     = Some CONNECTING.
Proof.
  intros s closed.
  destruct (disconnect_does_not_stop_reconnection decode
              (MarketDashboard.impl clock) s (MarketDashboard.data clock)
              ltac:(vm_compute; reflexivity))
    as (_ & _ & _ & H4 & H5).
  split; [exact H4 | exact H5].
Defined.

Lemma initial_data_request_witness :
  let s := MarketDashboard.mounted createWebSocketService in
  let opened := step decode (MarketDashboard.impl clock) SocketOpens
                  (s, MarketDashboard.data clock) in
  sent (step decode (MarketDashboard.impl clock) (TimerFires 0%nat)
             opened).1
  = [GetInitialData]
  /\ sent (run decode (MarketDashboard.impl clock)
               [SocketCloses; TimerFires 0%nat] opened).1
     = [].
Proof.
  intros s opened.
  destruct (initial_data_request decode (MarketDashboard.impl clock) s
              (MarketDashboard.data clock) eq_refl)
    as (_ & _ & _ & H4 & H5 & _).
  split; [exact H4 | exact H5].
Defined.

End ServiceEventsInstances.

(** * The message handler of the parent component *)

Section MessageDispatch.

Import MarketDashboard.

Variable clock : nat -> Z.

(** The [switch] of the message handler, read as a chain of string
    comparisons. *)
Lemma handleWebSocketMessage_dispatch m d :
  (handleWebSocketMessage clock (DObject m) d).1
  = let d1 := set_counters (totalDataPoints d + 1)
                (JTimeString (clock (clockReads d))) (Date_now clock d).2 in
    let merge d2 := match summary_field m with
                    | Some s => updateAdapters clock s d2
                    | None => d2
                    end in
    match type m with
    | None => d1
    | Some ty =>
        if String.eqb ty "metrics_update"
        then updateAdapters clock (default [] (data_summary m)) d1
        else if String.eqb ty "status"
        then merge (set_testRunning (js_not_false (test_running m)) d1)
        else if String.eqb ty "initial_data"
        then merge (if truthy (start_time m)
                    then set_times (Date_getTime (start_time m))
                                   (chartStartTime d1) d1
                    else d1)
        else if String.eqb ty "test_complete"
        then notify (message_text m) (set_testRunning false d1)
        else if String.eqb ty "summary"
        then merge d1
        else d1
    end.
Proof.
  unfold handleWebSocketMessage. cbn [Date_now fst snd]. cbv zeta.
  destruct (type m) as [ty|]; [|reflexivity].
  match goal with
  | |- ?L = ?R =>
      let f := eval pattern ty in R in
      match f with
      | ?g _ => pose (spec := g); change (L = spec ty)
      end
  end.
  repeat (match goal with
          | |- context [match ?s with EmptyString => _ | String _ _ => _ end] =>
              destruct s; try reflexivity
          | |- context [match ?a with Ascii.Ascii _ _ _ _ _ _ _ _ => _ end] =>
              destruct a
          | |- context [if ?b then _ else _] => destruct b; try reflexivity
          end).
Qed.

(** Whatever the message, the handler first does its bookkeeping (one
    clock reading, the counters, the scalar fields) and then either stops
    or merges one snapshot. *)
Lemma handleWebSocketMessage_cases msg d :
  exists d0,
    (adapters d0 = adapters d
     /\ latencyData d0 = latencyData d
     /\ successData d0 = successData d
     /\ chartStartTime d0 = chartStartTime d
     /\ chartDataRef d0 = chartDataRef d
     /\ totalDataPoints d0 = (totalDataPoints d + 1)%Z
     /\ clockReads d0 = S (clockReads d))
    /\ ((handleWebSocketMessage clock msg d).1 = d0
        \/ exists s, (handleWebSocketMessage clock msg d).1
                     = updateAdapters clock s d0).
Proof.
  destruct msg as [|m].
  { eexists. split; [|left; reflexivity]. by repeat split. }
  rewrite handleWebSocketMessage_dispatch. cbv zeta.
  destruct (type m) as [ty|];
    [|eexists; split; [|left; reflexivity]; by repeat split].
  repeat (match goal with
          | |- context [if String.eqb ty ?l then _ else _] =>
              destruct (String.eqb ty l)
          end);
    try (destruct (summary_field m));
    try (destruct (truthy (start_time m)));
    first [ by (eexists; split; [|left; reflexivity]; repeat split)
          | by (eexists; split; [|right; eexists; reflexivity]; repeat split) ].
Qed.

Lemma updateChartData_frame a metrics d :
  adapters (updateChartData clock a metrics d) = adapters d
  /\ totalDataPoints (updateChartData clock a metrics d) = totalDataPoints d
  /\ startTime (updateChartData clock a metrics d) = startTime d
  /\ testRunning (updateChartData clock a metrics d) = testRunning d
  /\ connected (updateChartData clock a metrics d) = connected d
  /\ notifications (updateChartData clock a metrics d) = notifications d.
Proof. unfold updateChartData. destruct (chartStartTime_unset d); done. Qed.

Lemma updateAdapters_totalDataPoints s d :
  totalDataPoints (updateAdapters clock s d) = totalDataPoints d.
Proof.
  unfold updateAdapters. revert d.
  induction s as [|[a m] s IH]; intros d; simpl; [done|].
  rewrite IH. unfold updateAdapter, Date_now. cbn beta iota zeta.
  by rewrite (proj1 (proj2 (updateChartData_frame a m _))).
Qed.

(** What the message callback does with its payload. *)
Lemma impl_onMessage p d :
  impl clock onMessage p d
  = handleWebSocketMessage clock
      (match p with WebSocketService.Data m => m | _ => DNull end) d.
Proof. by destruct p. Qed.

(** X7.  [totalDataPoints] counts the messages handed to the message
    callback, whatever they carry: a [null] message on which the handler
    throws and a message of unknown type are counted like a snapshot of
    many adapters, once each. *)
Theorem totalDataPoints_counts_messages
  (es : list (WebSocketService.callback
              * WebSocketService.payload decoded)) :
  totalDataPoints (run clock es (data clock))
  = Z.of_nat (length (List.filter (fun e => Nat.eqb e.1 onMessage) es)).
Proof.
  assert (G : forall d,
             totalDataPoints (run clock es d)
             = (totalDataPoints d
                + Z.of_nat (length (List.filter
                                      (fun e => Nat.eqb e.1 onMessage) es)))%Z).
  { unfold run. induction es as [|[cb p] es IH]; intros d; [simpl; lia|].
    cbn [fold_left List.filter]. rewrite IH. unfold deliver.
    cbn [fst snd].
    destruct cb as [|[|[|cb]]]; cbn [Nat.eqb onMessage length]; try done.
    change (impl clock 2%nat p d) with (impl clock onMessage p d).
    rewrite impl_onMessage.
    destruct (handleWebSocketMessage_cases
                (match p with WebSocketService.Data m => m | _ => DNull end) d)
      as (d0 & (_ & _ & _ & _ & _ & T & _) & [->| [s ->]]).
    - rewrite T. simpl length. lia.
    - rewrite updateAdapters_totalDataPoints, T. simpl length. lia. }
  rewrite G. simpl. lia.
Qed.

(** X8.  A message whose type is none of the five the handler knows is
    counted and otherwise ignored: adapters, series, chart epoch, start
    time, run state and notifications are as before, and the handler
    completes normally. *)
Theorem unknown_message_type_ignored (m : message) (d : dashboard) :
  type m <> Some "metrics_update" -> type m <> Some "status" ->
  type m <> Some "initial_data" -> type m <> Some "test_complete" ->
  type m <> Some "summary" ->
  let r := handleWebSocketMessage clock (DObject m) d in
  r.2 = WebSocketService.Normal
  /\ adapters r.1 = adapters d
  /\ latencyData r.1 = latencyData d
  /\ successData r.1 = successData d
  /\ chartDataRef r.1 = chartDataRef d
  /\ chartStartTime r.1 = chartStartTime d
  /\ startTime r.1 = startTime d
  /\ testRunning r.1 = testRunning d
  /\ connected r.1 = connected d
  /\ notifications r.1 = notifications d
  /\ totalDataPoints r.1 = (totalDataPoints d + 1)%Z.
Proof.
  intros H1 H2 H3 H4 H5 r. split; [reflexivity|].
  subst r. rewrite handleWebSocketMessage_dispatch. cbv zeta.
  destruct (type m) as [ty|]; [|done].
  assert (E : forall l, Some ty <> Some l -> String.eqb ty l = false).
  { intros l Hl. apply String.eqb_neq. congruence. }
  rewrite (E _ H1), (E _ H2), (E _ H3), (E _ H4), (E _ H5). done.
Qed.

End MessageDispatch.

Section MessageDispatchInstances.

Import MarketDashboard.

Let clock (n : nat) : Z := (1000 * Z.of_nat n)%Z.

Lemma unknown_message_type_ignored_witness :
  let m := {| type := Some "heartbeat"; data_summary := None;
              summary_field := Some [("binance", [("avg_latency_ms", JNum 10)])];
              test_running := JBool false; start_time := JNum 5;
              message_text := None |} in
  let r := handleWebSocketMessage clock (DObject m) (data clock) in
  r.2 = WebSocketService.Normal /\ adapters r.1 = [].
Proof.
  intros m r.
  destruct (unknown_message_type_ignored clock m (data clock)
              ltac:(discriminate) ltac:(discriminate) ltac:(discriminate)
              ltac:(discriminate) ltac:(discriminate))
    as (H1 & H2 & _).
  split; [exact H1 | exact H2].
Defined.

End MessageDispatchInstances.

(** * Merging a snapshot, going offline *)

Section MergeAndFreeze.

Import MarketDashboard.

Variable clock : nat -> Z.

Lemma obj_get_absent {V} (o : obj V) k : k ∉ obj_keys o -> obj_get o k = None.
Proof.
  unfold obj_keys. induction o as [|[k' v] o IH]; simpl; [done|].
  intros H. apply not_elem_of_cons in H as [Hne Hni].
  destruct (String.eqb k' k) eqn:E; [|by apply IH].
  apply String.eqb_eq in E. congruence.
Qed.

(** [{...a, ...b}] read key by key. *)
Lemma obj_get_spread {V} (a b : obj V) k :
  NoDup (obj_keys b) ->
  obj_get (obj_spread a b) k
  = match obj_get b k with Some v => Some v | None => obj_get a k end.
Proof.
  unfold obj_spread. revert a.
  induction b as [|[k0 v0] b IH]; intros a Hnd; simpl; [done|].
  apply NoDup_cons in Hnd as [Hk0 Hnd].
  rewrite (IH _ Hnd), obj_get_set.
  destruct (String.eqb k0 k) eqn:E.
  - apply String.eqb_eq in E. subst k0.
    by rewrite (obj_get_absent b k Hk0).
  - done.
Qed.

Lemma updateAdapter_adapters d a m :
  adapters (updateAdapter clock d (a, m))
  = obj_set (adapters d) a
      (obj_set (obj_spread (default [] (obj_get (adapters d) a)) m)
               "lastUpdate" (JTimeString (clock (clockReads d)))).
Proof.
  unfold updateAdapter, Date_now. cbn beta iota zeta.
  by rewrite (proj1 (updateChartData_frame clock a m _)).
Qed.

Lemma updateAdapters_other s d a :
  a ∉ obj_keys s ->
  obj_get (adapters (updateAdapters clock s d)) a = obj_get (adapters d) a.
Proof.
  unfold updateAdapters. revert d.
  induction s as [|[a0 m] s IH]; intros d Hni; [done|].
  cbn [fold_left]. simpl in Hni. apply not_elem_of_cons in Hni as [Hne Hni].
  rewrite (IH _ Hni), updateAdapter_adapters.
  by apply obj_get_set_ne.
Qed.

(** X9.  A snapshot none of whose ids is a name that objects inherit is
    merged to the end, key by key, and never replaces a record: for an
    adapter it names, each metric it carries is overwritten, each metric
    it leaves out keeps the value it had, and [lastUpdate] is stamped; an
    adapter it does not name keeps its whole record. *)
Theorem snapshot_merges_key_by_key (s : summary) (d : dashboard)
  (a : string) (metrics : obj jsval) (k : string) :
  plain_ids s ->
  NoDup (obj_keys s) ->
  NoDup (obj_keys metrics) ->
  obj_get s a = Some metrics ->
  let d' := updateAdapters clock s d in
  let before := default [] (obj_get (adapters d) a) in
  let after := default [] (obj_get (adapters d') a) in
  MarketDashboardAnyId.updateAdapters clock s d
  = (d', WebSocketService.Normal)
  /\ (k <> "lastUpdate" ->
      obj_field after k
      = match obj_get metrics k with
        | Some v => v
        | None => obj_field before k
        end)
  /\ (exists t, obj_field after "lastUpdate" = JTimeString t)
  /\ (forall a', a' ∉ obj_keys s ->
        obj_get (adapters d') a' = obj_get (adapters d) a').
Proof.
  intros Hplain Hs Hm Ha d' before after.
  split; [by apply updateAdapters_plain|]. clear Hplain.
  assert (R : exists t,
             obj_get (adapters d') a
             = Some (obj_set (obj_spread before metrics) "lastUpdate"
                             (JTimeString t))).
  { subst d' before. clear after. unfold updateAdapters. revert d Hs Ha.
    induction s as [|[a0 m0] s IH]; intros d Hs Ha; [done|].
    simpl in Hs. apply NoDup_cons in Hs as [Hn0 Hs].
    simpl in Ha. cbn [fold_left].
    destruct (String.eqb a0 a) eqn:E.
    - apply String.eqb_eq in E. subst a0. injection Ha as ->.
      exists (clock (clockReads d)).
      change (fold_left (updateAdapter clock) s ?x)
        with (updateAdapters clock s x).
      rewrite (updateAdapters_other _ _ _ Hn0), updateAdapter_adapters.
      by rewrite obj_get_set_eq.
    - apply String.eqb_neq in E.
      destruct (IH (updateAdapter clock d (a0, m0)) Hs Ha) as (t & Ht).
      exists t. rewrite Ht, updateAdapter_adapters.
      by rewrite obj_get_set_ne. }
  destruct R as (t & R). subst after. rewrite R. simpl.
  repeat split.
  - intros Hk. unfold obj_field.
    rewrite obj_get_set_ne by congruence.
    rewrite (obj_get_spread _ _ _ Hm).
    by destruct (obj_get metrics k).
  - exists t. unfold obj_field. by rewrite obj_get_set_eq.
  - intros a' Ha'. by apply updateAdapters_other.
Qed.

Lemma offline_keys keys (a : obj (obj jsval)) :
  obj_keys
    (fold_left
       (fun a adapter =>
          match obj_get a adapter with
          | Some record => obj_set a adapter (offline record)
          | None => a
          end) keys a)
  = obj_keys a.
Proof.
  revert a. induction keys as [|k keys IH]; intros a; simpl; [done|].
  rewrite IH. destruct (obj_get a k) eqn:E; [|done].
  by eapply obj_keys_set_present.
Qed.

(** X10.  Going offline freezes the dashboard: the callback for
    ["disconnected"] clears the connection and run flags and the
    [is_connected] field of every adapter, and leaves every other metric of
    every adapter, the list of adapters, both series of every adapter, the
    chart epoch and the start time as they were. *)
Theorem disconnect_freezes_metrics
  (p : WebSocketService.payload decoded) (d : dashboard) :
  let r := (impl clock onDisconnected p d).1 in
  connected r = false
  /\ testRunning r = false
  /\ obj_keys (adapters r) = obj_keys (adapters d)
  /\ (forall a k, k <> "is_connected" ->
        obj_field (default [] (obj_get (adapters r) a)) k
        = obj_field (default [] (obj_get (adapters d) a)) k)
  /\ latencyData r = latencyData d
  /\ successData r = successData d
  /\ chartDataRef r = chartDataRef d
  /\ chartStartTime r = chartStartTime d
  /\ startTime r = startTime d
  /\ totalDataPoints r = totalDataPoints d.
Proof.
  intros r.
  assert (E : r = markAdaptersOffline
                    (set_testRunning false (set_connected false d)))
    by reflexivity.
  rewrite E. repeat split.
  - unfold markAdaptersOffline. cbn [adapters set_adapters set_connection].
    apply offline_keys.
  - intros a k Hk. rewrite markAdaptersOffline_adapters.
    cbn [adapters set_testRunning set_connected set_connection].
    destruct (obj_get (adapters d) a) as [record|]; [|done].
    simpl. unfold obj_field, offline. by rewrite obj_get_set_ne.
Qed.

End MergeAndFreeze.

Section MergeInstances.

Import MarketDashboard.

Let clock (n : nat) : Z := (1000 * Z.of_nat n)%Z.

(** A snapshot that carries the latency of binance and not its success
    rate. *)
Lemma snapshot_merges_key_by_key_witness :
  let d := updateAdapters clock
             [("binance", [("avg_latency_ms", JNum 10);
                           ("success_rate", JNum 1)])]
             (data clock) in
  let s := [("binance", [("avg_latency_ms", JNum 20)])] in
  let after :=
    default [] (obj_get (adapters (updateAdapters clock s d)) "binance") in
  obj_field after "avg_latency_ms" = JNum 20
  /\ obj_field after "success_rate" = JNum 1.
Proof.
  intros d s after.
  assert (P : plain_ids s) by (repeat constructor).
  assert (N1 : NoDup (obj_keys s)).
  { apply (bool_decide_unpack _). vm_compute. exact I. }
  assert (N2 : NoDup (obj_keys [("avg_latency_ms", JNum 20)])).
  { apply (bool_decide_unpack _). vm_compute. exact I. }
  split.
  - exact (proj1 (proj2 (snapshot_merges_key_by_key clock s d "binance"
                           [("avg_latency_ms", JNum 20)] "avg_latency_ms"
                           P N1 N2 eq_refl))
                 ltac:(discriminate)).
  - exact (proj1 (proj2 (snapshot_merges_key_by_key clock s d "binance"
                           [("avg_latency_ms", JNum 20)] "success_rate"
                           P N1 N2 eq_refl))
                 ltac:(discriminate)).
Defined.

End MergeInstances.

(** * The time axis *)

Section TimeAxis.

Import MarketDashboard MarketDashboardAxis.

Variable clock : nat -> Z.
Hypothesis clock_monotone :
  forall m n, (m <= n)%nat -> (clock m <= clock n)%Z.
Hypothesis clock_positive : forall n, (0 < clock n)%Z.

Lemma seconds_le t t' : (t <= t')%Z -> Qle (seconds t) (seconds t').
Proof.
  intros H. unfold seconds. rewrite !Qred_correct.
  unfold Qle, Qdiv, Qmult, Qinv. simpl. lia.
Qed.

Lemma sorted_snoc (l : list point) p :
  StronglySorted le_x l -> Forall (fun q => le_x q p) l ->
  StronglySorted le_x (l ++ [p]).
Proof.
  induction l as [|q l IH]; intros Hs Hf; simpl.
  - repeat constructor.
  - inversion Hs as [|? ? Hs' Hq]; subst.
    inversion Hf as [|? ? Hqp Hf']; subst.
    constructor; [by apply IH|].
    apply Forall_app. split; [exact Hq|]. by constructor.
Qed.

Lemma sorted_tail (l : list point) :
  StronglySorted le_x l -> StronglySorted le_x (tail l).
Proof. intros H. destruct l; [done|]. by inversion H. Qed.

Lemma Forall_tail {A} (P : A -> Prop) (l : list A) :
  Forall P l -> Forall P (tail l).
Proof. intros H. destruct l; [done|]. by inversion H. Qed.

(** One series after a point stamped [now - c] is appended at reading
    [n]. *)
Lemma appendPoint_axis o a a' c n yv :
  Qle c (seconds (clock n)) ->
  (StronglySorted le_x (series_of o a')
   /\ Forall (fun p =>
                Qle 0 (x p)
                /\ forall m, (n <= m)%nat ->
                             Qle (x p) (seconds (clock m) - c))
             (series_of o a')) ->
  StronglySorted le_x
    (series_of (appendPoint o a {| x := Qred (seconds (clock n) - c);
                                  y := yv |}) a')
  /\ Forall (fun p =>
               Qle 0 (x p)
               /\ forall m, (S n <= m)%nat ->
                            Qle (x p) (seconds (clock m) - c))
            (series_of (appendPoint o a {| x := Qred (seconds (clock n) - c);
                                          y := yv |}) a').
Proof.
  intros Hc [Hs Hf]. rewrite series_of_appendPoint.
  assert (Hweak : forall l,
             Forall (fun p =>
                       Qle 0 (x p)
                       /\ forall m, (n <= m)%nat ->
                                    Qle (x p) (seconds (clock m) - c)) l ->
             Forall (fun p =>
                       Qle 0 (x p)
                       /\ forall m, (S n <= m)%nat ->
                                    Qle (x p) (seconds (clock m) - c)) l).
  { intros l Hl. eapply Forall_impl; [exact Hl|].
    intros p [H0 Hm]. split; [exact H0|].
    intros m Hle. apply Hm. lia. }
  destruct (String.eqb a a') eqn:E; [|split; [exact Hs|by apply Hweak]].
  apply String.eqb_eq in E. subst a'.
  set (p := {| x := Qred (seconds (clock n) - c); y := yv |}).
  assert (Hp : Qle 0 (x p)
               /\ forall m, (S n <= m)%nat ->
                            Qle (x p) (seconds (clock m) - c)).
  { simpl. split.
    - rewrite Qred_correct, <- (Qplus_opp_r c). unfold Qminus.
      apply Qplus_le_compat; [exact Hc|]. apply Qle_refl.
    - intros m Hm. rewrite Qred_correct. unfold Qminus.
      apply Qplus_le_compat; [|apply Qle_refl].
      apply seconds_le. apply clock_monotone. lia. }
  assert (Hs' : StronglySorted le_x (push (series_of o a) p)).
  { apply sorted_snoc; [exact Hs|].
    eapply Forall_impl; [exact Hf|]. intros q [_ Hq].
    unfold le_x. simpl. rewrite Qred_correct. apply Hq. lia. }
  assert (Hf' : Forall (fun p =>
                          Qle 0 (x p)
                          /\ forall m, (S n <= m)%nat ->
                                       Qle (x p) (seconds (clock m) - c))
                       (push (series_of o a) p)).
  { apply Forall_app. split; [by apply Hweak|]. by constructor. }
  destruct (maxPoints <? _)%nat.
  - split; [by apply sorted_tail | by apply Forall_tail].
  - by split.
Qed.

Lemma series_of_nil a : series_of [] a = [].
Proof. done. Qed.

Lemma updateChartData_axis a metrics d :
  x_axis_ok clock d -> x_axis_ok clock (updateChartData clock a metrics d).
Proof.
  unfold x_axis_ok, updateChartData, chartStartTime_unset.
  destruct (chartStartTime d) as [c|] eqn:Ec.
  - intros (Hz & Hc & Hser). rewrite Hz.
    cbn -[appendPoint series_of seconds Qred Qminus]. rewrite Ec.
    cbn -[appendPoint series_of seconds Qred Qminus].
    split; [exact Hz|]. split; [intros m Hm; apply Hc; lia|].
    intros o [->| ->] a'.
    + apply appendPoint_axis; [apply Hc; lia|]. apply Hser. by left.
    + apply appendPoint_axis; [apply Hc; lia|]. apply Hser. by right.
  - intros [Hl Hs].
    cbn -[appendPoint series_of seconds Qred Qminus]. rewrite Hl, Hs.
    assert (Hc : forall m, (S (clockReads d) <= m)%nat ->
                 Qle (seconds (clock (clockReads d))) (seconds (clock m))).
    { intros m Hm. apply seconds_le. apply clock_monotone. lia. }
    split.
    { apply seconds_nonzero. pose proof (clock_positive (clockReads d)). lia. }
    split; [intros m Hm; apply Hc; lia|].
    intros o [->| ->] a'.
    + apply appendPoint_axis; [apply Hc; lia|].
      rewrite series_of_nil. split; constructor.
    + apply appendPoint_axis; [apply Hc; lia|].
      rewrite series_of_nil. split; constructor.
Qed.

(** Bookkeeping that leaves the series and the epoch alone and does not
    take readings back keeps the time axis. *)
Lemma x_axis_frame d d' :
  latencyData d' = latencyData d -> successData d' = successData d ->
  chartStartTime d' = chartStartTime d ->
  (clockReads d <= clockReads d')%nat ->
  x_axis_ok clock d -> x_axis_ok clock d'.
Proof.
  intros El Es Ec Hn. unfold x_axis_ok. rewrite El, Es, Ec.
  destruct (chartStartTime d) as [c|]; [|done].
  intros (Hz & Hc & Hser). split; [exact Hz|].
  split; [intros m Hm; apply Hc; lia|].
  intros o Ho a. destruct (Hser o Ho a) as [Hs Hf]. split; [exact Hs|].
  eapply Forall_impl; [exact Hf|]. intros p [H0 Hm]. split; [exact H0|].
  intros m Hle. apply Hm. lia.
Qed.

Lemma updateAdapters_axis s d :
  x_axis_ok clock d -> x_axis_ok clock (updateAdapters clock s d).
Proof.
  unfold updateAdapters. revert d.
  induction s as [|[a m] s IH]; intros d H; [done|].
  cbn [fold_left]. apply IH.
  unfold updateAdapter, Date_now. cbn beta iota zeta.
  apply updateChartData_axis.
  eapply x_axis_frame; [| | | |exact H]; simpl; try done. lia.
Qed.

Lemma run_axis es d : x_axis_ok clock d -> x_axis_ok clock (run clock es d).
Proof.
  unfold run. revert d.
  induction es as [|[cb p] es IH]; intros d H; [done|].
  cbn [fold_left]. apply IH. unfold deliver. cbn [fst snd].
  destruct cb as [|[|[|cb]]].
  - eapply x_axis_frame; [| | | |exact H]; done.
  - eapply x_axis_frame; [| | | |exact H]; done.
  - change (impl clock 2%nat p d) with (impl clock onMessage p d).
    rewrite impl_onMessage.
    destruct (handleWebSocketMessage_cases clock
                (match p with WebSocketService.Data m => m | _ => DNull end) d)
      as (d0 & (_ & El & Es & Ec & _ & _ & En) & [->| [s ->]]).
    + eapply x_axis_frame; [exact El|exact Es|exact Ec| |exact H]. lia.
    + apply updateAdapters_axis.
      eapply x_axis_frame; [exact El|exact Es|exact Ec| |exact H]. lia.
  - exact H.
Qed.

(** X11.  With a clock that never runs backwards (and never reads the
    instant 0), the points of every series are in non-decreasing order of
    [x], and no [x] is negative, after any run of the component. *)
Theorem x_axis_monotone
  (es : list (WebSocketService.callback
              * WebSocketService.payload decoded)) (a : string) :
  let d := run clock es (data clock) in
  StronglySorted le_x (series_of (latencyData d) a)
  /\ StronglySorted le_x (series_of (successData d) a)
  /\ Forall (fun p => Qle 0 (x p)) (series_of (latencyData d) a)
  /\ Forall (fun p => Qle 0 (x p)) (series_of (successData d) a).
Proof.
  intros d.
  assert (H : x_axis_ok clock d).
  { apply run_axis. unfold x_axis_ok. by simpl. }
  unfold x_axis_ok in H.
  destruct (chartStartTime d) as [c|].
  - destruct H as (_ & _ & H).
    destruct (H _ (or_introl eq_refl) a) as [S1 F1].
    destruct (H _ (or_intror eq_refl) a) as [S2 F2].
    repeat split; try done.
    + eapply Forall_impl; [exact F1|]. by intros p [? _].
    + eapply Forall_impl; [exact F2|]. by intros p [? _].
  - destruct H as [-> ->]. rewrite series_of_nil.
    repeat split; constructor.
Qed.

End TimeAxis.

Section TimeAxisInstances.

Import MarketDashboard MarketDashboardAxis.

(** A clock that ticks once a second, from one second after the instant
    0. *)
Let clock (n : nat) : Z := (1000 * (Z.of_nat n + 1))%Z.

Lemma x_axis_monotone_witness :
  let msg := DObject {| type := Some "summary"; data_summary := None;
                        summary_field :=
                          Some [("binance", [("avg_latency_ms", JNum 10)])];
                        test_running := JUndefined; start_time := JUndefined;
                        message_text := None |} in
  let d := run clock (repeat (onMessage, WebSocketService.Data msg) 3)
               (data clock) in
  StronglySorted le_x (series_of (latencyData d) "binance")
  /\ Forall (fun p => Qle 0 (x p)) (series_of (latencyData d) "binance").
Proof.
  intros msg d.
  destruct (x_axis_monotone clock
              ltac:(intros m n H; unfold clock; lia)
              ltac:(intros n; unfold clock; lia)
              (repeat (onMessage, WebSocketService.Data msg) 3) "binance")
    as (H1 & _ & H3 & _).
  split; [exact H1 | exact H3].
Defined.

End TimeAxisInstances.

(** * The elapsed-time display and the collapse states *)

Section ElapsedTime.

Import MarketDashboard MarketDashboardView.

Variable clock : nat -> Z.

Lemma two_digits n :
  (0 <= n < 60)%Z -> String.length (padStart 2 "0" (pretty n)) = 2%nat.
Proof.
  intros H.
  assert (G : Forall (fun n : Z =>
                        String.length (padStart 2 "0" (pretty n)) = 2%nat)
                     (seqZ 0 60)).
  { apply (bool_decide_unpack _). by vm_compute. }
  rewrite Forall_forall in G. apply G. apply elem_of_seqZ. lia.
Qed.

Lemma padStart_length s :
  (2 <= String.length (padStart 2 "0" s))%nat.
Proof.
  unfold padStart.
  destruct (2 <=? String.length s)%nat eqn:E; simpl.
  - by apply Nat.leb_le in E.
  - apply Nat.leb_gt in E.
    destruct s as [|c [|c' s]]; simpl in *; lia.
Qed.

(** X12.  With a start time that is not in the future, the elapsed-time
    display is [hours:minutes:seconds] for the whole seconds elapsed:
    minutes and seconds are below 60 and take two characters each, the
    hours at least two, and the three fields add up to the seconds
    elapsed. *)
Theorem elapsedTime_format (d : dashboard) (t : Q) :
  startTime d = JNum t ->
  Qle t (inject_Z (clock (clockReads d))) ->
  exists e h m s : Z,
    (elapsedTime clock d).1
    = padStart 2 "0" (pretty h) +:+ ":" +:+ padStart 2 "0" (pretty m)
      +:+ ":" +:+ padStart 2 "0" (pretty s)
    /\ Qle (inject_Z e * 1000) (inject_Z (clock (clockReads d)) - t)
    /\ Qlt (inject_Z (clock (clockReads d)) - t) (inject_Z (e + 1) * 1000)
    /\ (0 <= h /\ 0 <= m < 60 /\ 0 <= s < 60)%Z
    /\ (3600 * h + 60 * m + s = e)%Z
    /\ String.length (padStart 2 "0" (pretty m)) = 2%nat
    /\ String.length (padStart 2 "0" (pretty s)) = 2%nat
    /\ (2 <= String.length (padStart 2 "0" (pretty h)))%nat.
Proof.
  intros Hs Hle.
  set (now := clock (clockReads d)).
  set (q := ((inject_Z now - t) / 1000)%Q).
  set (e := Qfloor q).
  assert (Hq : Qle 0 q).
  { subst q. apply Qle_shift_div_l; [reflexivity|].
    rewrite Qmult_0_l. unfold Qminus. rewrite <- (Qplus_opp_r t).
    apply Qplus_le_compat; [exact Hle | apply Qle_refl]. }
  assert (He : (0 <= e)%Z).
  { subst e. change 0%Z with (Qfloor 0). by apply Qfloor_resp_le. }
  assert (Hm : (0 <= Z.rem e 3600 / 60 < 60)%Z).
  { rewrite Z.rem_mod_nonneg by lia.
    pose proof (Z.mod_pos_bound e 3600 ltac:(lia)).
    split; [apply Z.div_pos; lia | apply Z.div_lt_upper_bound; lia]. }
  assert (Hsec : (0 <= Z.rem e 60 < 60)%Z).
  { rewrite Z.rem_mod_nonneg by lia. apply Z.mod_pos_bound. lia. }
  exists e, (e / 3600)%Z, (Z.rem e 3600 / 60)%Z, (Z.rem e 60).
  split.
  { unfold elapsedTime. cbn [Date_now startTime]. rewrite Hs. reflexivity. }
  assert (Hq1000 : Qeq (q * 1000) (inject_Z now - t)).
  { subst q. field. }
  split.
  { pose proof (Qfloor_le q) as F. fold e in F.
    apply (Qmult_le_compat_r _ _ 1000) in F; [|done].
    by rewrite Hq1000 in F. }
  split.
  { pose proof (Qlt_floor q) as F. fold e in F.
    apply (Qmult_lt_compat_r _ _ 1000) in F; [|done].
    by rewrite Hq1000 in F. }
  split.
  { split; [apply Z.div_pos; lia | by split]. }
  split.
  { rewrite !Z.rem_mod_nonneg by lia.
    pose proof (Z.div_mod e 3600 ltac:(lia)).
    pose proof (Z.div_mod (e mod 3600) 60 ltac:(lia)).
    assert ((e mod 3600) mod 60 = e mod 60)%Z.
    { apply Z.mod_mod_divide. exists 60%Z. lia. }
    lia. }
  split; [by apply two_digits|]. split; [by apply two_digits|].
  apply padStart_length.
Qed.

Lemma updateAdapters_startTime s d :
  startTime (updateAdapters clock s d) = startTime d.
Proof.
  unfold updateAdapters. revert d.
  induction s as [|[a m] s IH]; intros d; [done|].
  cbn [fold_left]. rewrite IH. unfold updateAdapter, Date_now.
  cbn beta iota zeta.
  by rewrite (proj1 (proj2 (proj2 (updateChartData_frame clock a m _)))).
Qed.

(** X13.  An [initial_data] message whose [start_time] lies outside the
    range of time values makes the start time an invalid date, and the
    elapsed-time display reads [NaN:NaN:NaN]. *)
Theorem invalid_start_time_shows_NaN (m : message) (d : dashboard) (t : Q) :
  type m = Some "initial_data" ->
  start_time m = JNum t ->
  Qlt (inject_Z 8640000000000000) (Qabs t) ->
  let d' := (handleWebSocketMessage clock (DObject m) d).1 in
  startTime d' = JNaN
  /\ (elapsedTime clock d').1 = "NaN:NaN:NaN".
Proof.
  intros Hty Hst Ht d'.
  assert (E : startTime d' = JNaN).
  { subst d'. rewrite handleWebSocketMessage_dispatch. cbv zeta.
    rewrite Hty. cbn [String.eqb Ascii.eqb Bool.eqb]. rewrite Hst.
    assert (Htr : truthy (JNum t) = true).
    { simpl. destruct (Qeq_bool t 0) eqn:E; [|done].
      apply Qeq_bool_iff in E. rewrite E in Ht. by vm_compute in Ht. }
    assert (Hg : Date_getTime (JNum t) = JNaN).
    { unfold Date_getTime.
      destruct (Qle_bool (Qabs t) (inject_Z 8640000000000000)) eqn:G;
        [|done].
      apply Qle_bool_iff in G. exfalso. by apply (Qlt_not_le _ _ Ht). }
    rewrite Htr, Hg.
    destruct (summary_field m); [rewrite updateAdapters_startTime|]; done. }
  split; [exact E|].
  unfold elapsedTime. cbn [Date_now startTime]. by rewrite E.
Qed.

End ElapsedTime.

Section CollapseStates.

Import MarketDashboardView.

Lemma collapse_key_inj a b : "collapse_" +:+ a = "collapse_" +:+ b -> a = b.
Proof. intros H. cbv in H. by injection H. Qed.

Lemma Boolean_toString_true b : String.eqb (Boolean_toString b) "true" = b.
Proof. by destruct b. Qed.

(** What the storage holds for an adapter agrees with its state. *)
Lemma toggleCollapse_stored a names cs st :
  writable st = true ->
  a ∈ names
  \/ (exists b, obj_get cs a = Some b
                /\ items st !! ("collapse_" +:+ a)
                   = Some (Boolean_toString b)) ->
  let after := fold_left (fun cs n => toggleCollapse n cs) names (cs, st) in
  readable after.2 = readable st
  /\ writable after.2 = true
  /\ exists b, obj_get after.1 a = Some b
               /\ items after.2 !! ("collapse_" +:+ a)
                  = Some (Boolean_toString b).
Proof.
  revert cs st. induction names as [|n names IH]; intros cs st Hw H.
  - destruct H as [H|H]; [by apply elem_of_nil in H|]. by simpl.
  - cbn [fold_left].
    assert (E : toggleCollapse n (cs, st)
                = (obj_set cs n (negb (default false (obj_get cs n))),
                   {| items := <["collapse_" +:+ n
                                 := Boolean_toString
                                      (negb (default false (obj_get cs n)))]>
                                 (items st);
                      readable := readable st; writable := writable st |})).
    { unfold toggleCollapse, setItem. rewrite Hw, obj_get_set_eq. done. }
    rewrite E.
    edestruct (IH (obj_set cs n (negb (default false (obj_get cs n)))))
      as (R & W & S); [| |split; [exact R|split; [exact W|exact S]]].
    + exact Hw.
    + destruct (decide (n = a)) as [->|Hne].
      * right. eexists. split; [apply obj_get_set_eq|].
        simpl. by rewrite lookup_insert_eq.
      * destruct H as [H|(b & Hb & Hi)].
        -- apply elem_of_cons in H as [H|H]; [congruence|by left].
        -- right. exists b. split; [by rewrite obj_get_set_ne|].
           simpl. rewrite lookup_insert_ne; [done|].
           intros Heq. by apply collapse_key_inj in Heq.
Qed.

Lemma loadCollapseStates_get st keys cs a s :
  readable st = true ->
  items st !! ("collapse_" +:+ a) = Some s ->
  a ∈ keys \/ obj_get cs a = Some (String.eqb s "true") ->
  obj_get (fold_left (loadCollapseState st) keys cs) a
  = Some (String.eqb s "true").
Proof.
  intros Hr Hs. revert cs.
  induction keys as [|k keys IH]; intros cs H.
  - destruct H as [H|H]; [by apply elem_of_nil in H|done].
  - cbn [fold_left]. apply IH.
    destruct (decide (k = a)) as [->|Hne].
    + right. unfold loadCollapseState, getItem. rewrite Hr, Hs.
      apply obj_get_set_eq.
    + destruct H as [H|H].
      * apply elem_of_cons in H as [H|H]; [congruence|by left].
      * right. unfold loadCollapseState, getItem. rewrite Hr.
        destruct (items st !! ("collapse_" +:+ k)); cbv iota beta; [|done].
        by rewrite obj_get_set_ne.
Qed.

Lemma loadCollapseStates_other st keys cs a :
  a ∉ keys ->
  obj_get (fold_left (loadCollapseState st) keys cs) a = obj_get cs a.
Proof.
  revert cs. induction keys as [|k keys IH]; intros cs H; [done|].
  apply not_elem_of_cons in H as [Hne Hni].
  cbn [fold_left]. rewrite (IH _ Hni).
  unfold loadCollapseState. destruct (getItem st _) as [[s|]|]; try done.
  by rewrite obj_get_set_ne.
Qed.

(** X14.  With a working [localStorage], the collapse state of a
    configured adapter survives a reload: after any sequence of toggles,
    what a freshly mounted component reads back for an adapter that was
    toggled is the state it had last.  An adapter without an entry in the
    configuration is saved as well but never read back. *)
Theorem collapse_state_round_trip {C} (adapterConfig : obj C)
  (names : list string) (st : localStorage) (a : string) :
  readable st = true ->
  writable st = true ->
  a ∈ names ->
  let after := fold_left (fun cs n => toggleCollapse n cs) names ([], st) in
  (a ∈ obj_keys adapterConfig ->
   obj_get (loadCollapseStates adapterConfig after.2 []) a
   = obj_get after.1 a)
  /\ (a ∉ obj_keys adapterConfig ->
      obj_get (loadCollapseStates adapterConfig after.2 []) a = None
      /\ exists b, obj_get after.1 a = Some b
                   /\ items after.2 !! ("collapse_" +:+ a)
                      = Some (Boolean_toString b)).
Proof.
  intros Hr Hw Ha after.
  destruct (toggleCollapse_stored a names [] st Hw (or_introl Ha))
    as (R & W & b & Hb & Hi).
  change (fold_left _ names ([], st)) with after in R, W, Hb, Hi.
  split.
  - intros Hk. unfold loadCollapseStates.
    rewrite (loadCollapseStates_get after.2 _ [] a (Boolean_toString b));
      [|by rewrite R|exact Hi|by left].
    by rewrite Boolean_toString_true, Hb.
  - intros Hk. split; [|by exists b].
    unfold loadCollapseStates. by rewrite loadCollapseStates_other.
Qed.


End CollapseStates.

Section ViewInstances.

Import MarketDashboard MarketDashboardView.

Let clock (n : nat) : Z := (1000 * Z.of_nat n)%Z.

(** A component that started at the instant 0 and is asked for the
    elapsed time at its second reading of the clock. *)
Lemma elapsedTime_format_witness :
  exists h m s : Z,
    (elapsedTime clock (data clock)).1
    = padStart 2 "0" (pretty h) +:+ ":" +:+ padStart 2 "0" (pretty m)
      +:+ ":" +:+ padStart 2 "0" (pretty s)
    /\ (0 <= m < 60)%Z /\ (0 <= s < 60)%Z.
Proof.
  destruct (elapsedTime_format clock (data clock) (inject_Z (clock 0))
              eq_refl ltac:(vm_compute; discriminate))
    as (e & h & m & s & E & _ & _ & (_ & Hm & Hs) & _).
  exists h, m, s. split; [exact E|]. split; [exact Hm | exact Hs].
Defined.

Lemma invalid_start_time_shows_NaN_witness :
  let m := {| type := Some "initial_data"; data_summary := None;
              summary_field := None; test_running := JUndefined;
              start_time := JNum (inject_Z 9000000000000000);
              message_text := None |} in
  let d' := (handleWebSocketMessage clock (DObject m) (data clock)).1 in
  (elapsedTime clock d').1 = "NaN:NaN:NaN".
Proof.
  intros m d'.
  exact (proj2 (invalid_start_time_shows_NaN clock m (data clock)
                  (inject_Z 9000000000000000) eq_refl eq_refl
                  ltac:(vm_compute; reflexivity))).
Defined.

Lemma collapse_state_round_trip_witness :
  let st := {| items := ∅; readable := true; writable := true |} in
  let config : obj unit := [("binance", tt); ("polymarket", tt)] in
  let after :=
    fold_left (fun cs n => toggleCollapse n cs)
              ["binance"; "polymarket"; "binance"] ([], st) in
  obj_get (loadCollapseStates config after.2 []) "binance"
  = obj_get after.1 "binance".
Proof.
  intros st config after.
  assert (H : "binance" ∈ ["binance"; "polymarket"; "binance"]).
  { apply (bool_decide_unpack _). vm_compute. exact I. }
  assert (K : "binance" ∈ obj_keys config).
  { apply (bool_decide_unpack _). vm_compute. exact I. }
  exact (proj1 (collapse_state_round_trip config
                  ["binance"; "polymarket"; "binance"] st "binance"
                  eq_refl eq_refl H) K).
Defined.


End ViewInstances.

(** * The chart object of LatencyChart *)

Section ChartObject.

Import MarketDashboard LatencyChart LatencyChartPanel.

(** One dataset per series that has points, in the order of the keys. *)
Lemma buildDatasets_labels raw :
  map label (buildDatasets raw) = map fst (List.filter hasPoints raw).
Proof.
  unfold buildDatasets.
  cut (forall acc,
         map label
           (fold_left
              (fun datasets entry =>
                 let '(name, arr) := entry in
                 if (length arr =? 0)%nat then datasets
                 else
                   push datasets
                     {| label := name;
                        dataset_data :=
                          map (fun p => mkPoint (x p)
                                 (nullish (JSON_roundtrip (y p)) (JNum 0)))
                              arr;
                        borderColor := colors name |})
              raw acc)
         = map label acc ++ map fst (List.filter hasPoints raw)).
  { intros H. by rewrite H. }
  induction raw as [|[name arr] raw IH]; intros acc.
  - simpl. by rewrite app_nil_r.
  - cbn [fold_left List.filter]. rewrite IH. unfold hasPoints at 2.
    cbn [snd]. destruct arr as [|p arr]; [done|].
    cbn. unfold push. rewrite map_app, <- app_assoc. done.
Qed.

Lemma checkDataHasContent_filter d :
  checkDataHasContent d = true -> List.filter hasPoints d <> [].
Proof.
  unfold checkDataHasContent.
  induction d as [|kv d IH]; [done|]. cbn [existsb List.filter].
  unfold hasPoints at 1. cbn [snd].
  destruct (0 <? length kv.2)%nat; [done|]. simpl. exact IH.
Qed.

Lemma buildDatasets_content d :
  checkDataHasContent d = true -> (length (buildDatasets d) =? 0)%nat = false.
Proof.
  intros H. apply checkDataHasContent_filter in H.
  apply Nat.eqb_neq. intros E. apply H.
  rewrite <- (length_map label), buildDatasets_labels, length_map in E.
  by destruct (List.filter hasPoints d).
Qed.

Lemma destroyChart_none p :
  one_chart p -> liveCharts (destroyChart p) = []
                 /\ chartObject (destroyChart p) = None.
Proof.
  unfold one_chart, destroyChart. destruct (chartObject p) as [h|] eqn:E.
  - intros ->. simpl. split; [|done].
    rewrite filter_cons_False; [done|]. by intros H.
  - intros ->. by rewrite E.
Qed.

Lemma initChart_one_chart canvas throws d p :
  one_chart p -> one_chart (initChart canvas throws d p).
Proof.
  intros H. unfold initChart. destruct canvas; [|exact H]. cbv zeta.
  destruct (destroyChart_none p H) as [L C]. cbn [negb].
  destruct (length (buildDatasets d) =? 0)%nat;
    [|destruct throws]; unfold one_chart; cbn; rewrite L, ?C; done.
Qed.

Lemma step_one_chart p e : one_chart p -> one_chart (step p e).
Proof.
  intros H. destruct e as [newData|canvas throws|]; simpl.
  - exact H.
  - destruct (nextTick (component p)); [exact H|].
    by apply initChart_one_chart.
  - unfold beforeUnmount, one_chart.
    destruct (destroyChart_none p H) as [-> ->]. done.
Qed.

Lemma run_one_chart es p : one_chart p -> one_chart (run es p).
Proof.
  unfold run. revert p. induction es as [|e es IH]; intros p H; [done|].
  simpl. apply IH. by apply step_one_chart.
Qed.

(** X16.  From a state in which the chart library holds no chart but the
    one the component refers to, however the property changes, the
    deferred rebuilds run (with or without a canvas, the chart constructor
    throwing or not) and the component is unmounted, it never holds more
    than that one chart, also after a further [initChart] on any data; and
    unmounting leaves none. *)
Theorem at_most_one_live_chart (p : panel) (es : list event) :
  liveCharts p = match chartObject p with Some h => [h] | None => [] end ->
  let p' := run es p in
  liveCharts p' = match chartObject p' with Some h => [h] | None => [] end
  /\ (length (liveCharts p') <= 1)%nat
  /\ (forall canvas Chart_throws data,
        (length (liveCharts (initChart canvas Chart_throws data p')) <= 1)%nat)
  /\ liveCharts (beforeUnmount p') = []
  /\ chartObject (beforeUnmount p') = None.
Proof.
  intros H0 p'.
  assert (H : one_chart p') by (by apply run_one_chart).
  assert (L : forall q, one_chart q -> (length (liveCharts q) <= 1)%nat).
  { intros q Hq. rewrite Hq. destruct (chartObject q); simpl; lia. }
  split; [exact H|]. split; [by apply L|]. split.
  - intros canvas throws data. apply L. by apply initChart_one_chart.
  - apply (destroyChart_none p' H).
Qed.

Lemma destroyChart_component p : component (destroyChart p) = component p.
Proof. unfold destroyChart. by destruct (chartObject p). Qed.

Lemma step_queue_ok p e : queue_ok p -> queue_ok (step p e).
Proof.
  intros H. destruct e as [newData|canvas throws|]; simpl.
  - destruct H as [Q S].
    unfold queue_ok. cbn [component]. unfold watch_chartData.
    destruct (mountedReady (component p)); [|done]. cbn [negb].
    destruct (checkDataHasContent newData) eqn:C; [|done]. cbn [negb].
    cbv zeta. destruct (text_eqb _ _); [done|]. cbn. split; [|done].
    apply Forall_app. split; [exact Q|]. by constructor.
  - destruct (nextTick (component p)) as [|d rest] eqn:N; [exact H|].
    destruct H as [Q S]. rewrite N in Q.
    apply Forall_cons in Q as [Qd Qr].
    unfold initChart. destruct canvas; cbn [negb]; [|by split]. cbv zeta.
    rewrite (buildDatasets_content d Qd).
    destruct throws; unfold queue_ok; cbn; rewrite destroyChart_component;
      done.
  - unfold beforeUnmount, queue_ok. rewrite destroyChart_component.
    exact H.
Qed.

(** X17.  The status "no valid data" is never shown for a rebuild that
    the watcher deferred: from a state whose deferred rebuilds are all for
    bundles in which some series has a point (such as the state right
    after mounting), every rebuild deferred later is for such a bundle
    too, and from such a bundle [buildDatasets] always builds a
    dataset. *)
Theorem no_valid_data_never_shown (p : panel) (es : list event) :
  Forall (fun d => checkDataHasContent d = true) (nextTick (component p)) ->
  chartStatus (component p) <> NoValidData ->
  let p' := run es p in
  chartStatus (component p') <> NoValidData
  /\ Forall (fun d => buildDatasets d <> []) (nextTick (component p')).
Proof.
  intros Q0 S0 p'.
  assert (H : queue_ok p').
  { subst p'. unfold run.
    assert (H0 : queue_ok p) by (by split).
    clear Q0 S0. revert p H0.
    induction es as [|e es IH]; intros q Hq; [done|].
    simpl. apply IH. by apply step_queue_ok. }
  destruct H as [Q S]. split; [exact S|].
  eapply Forall_impl; [exact Q|]. intros d C E.
  apply buildDatasets_content in C. by rewrite E in C.
Qed.

(** The three ways of the watcher once the component is mounted. *)
Lemma watch_chartData_skip D c :
  mountedReady c = true ->
  checkDataHasContent D = true ->
  text_eqb (calculateDataHash D) (lastDataHash c) = true ->
  watch_chartData D c = c.
Proof.
  intros M C H. unfold watch_chartData. rewrite M, C. cbn [negb]. cbv zeta.
  by rewrite H.
Qed.

Lemma watch_chartData_new D c :
  mountedReady c = true ->
  checkDataHasContent D = true ->
  text_eqb (calculateDataHash D) (lastDataHash c) = false ->
  watch_chartData D c
  = {| mountedReady := true; showPlaceholder := false;
       chartStatus := UpdatingChart; lastDataHash := calculateDataHash D;
       nextTick := nextTick c ++ [D] |}.
Proof.
  intros M C H. unfold watch_chartData. rewrite M, C. cbn [negb]. cbv zeta.
  by rewrite H.
Qed.

Lemma watch_chartData_empty E c :
  mountedReady c = true ->
  checkDataHasContent E = false ->
  watch_chartData E c = set_display true WaitingForData c.
Proof.
  intros M C. unfold watch_chartData, set_display. by rewrite M, C.
Qed.

(** X18.  A rebuild that fails is not tried again for data with the same
    fingerprint: when the deferred rebuild finds no canvas, or the chart
    constructor throws, the fingerprint has already been stored, so the
    next bundle with the same last points is skipped and no chart is
    built. *)
Theorem failed_rebuild_not_retried (p : panel) (D D' : obj (list point))
  (canvas Chart_throws : bool) :
  mountedReady (component p) = true ->
  nextTick (component p) = [] ->
  checkDataHasContent D = true ->
  checkDataHasContent D' = true ->
  text_eqb (calculateDataHash D) (lastDataHash (component p)) = false ->
  text_eqb (calculateDataHash D') (calculateDataHash D) = true ->
  canvas && negb Chart_throws = false ->
  let p' := run [ChartDataChanges D; NextTick canvas Chart_throws;
                 ChartDataChanges D'] p in
  nextTick (component p') = []
  /\ constructed p' = constructed p
  /\ chartObject p' = (if canvas then None else chartObject p)
  /\ chartStatus (component p') = (if canvas then InitFailed
                                   else UpdatingChart)
  /\ showPlaceholder (component p') = canvas.
Proof.
  intros M N C C' H H' F. unfold run. cbn [fold_left].
  cbn [step component]. rewrite (watch_chartData_new D _ M C H), N.
  cbn [nextTick app mountedReady showPlaceholder chartStatus lastDataHash].
  unfold initChart. destruct canvas; cbn [negb].
  - cbv zeta. rewrite (buildDatasets_content D C).
    destruct Chart_throws; [|done].
    cbn [component chartObject liveCharts constructed].
    rewrite destroyChart_component. cbn [component].
    rewrite watch_chartData_skip; [|done|exact C'|exact H'].
    unfold destroyChart. cbn [chartObject component constructed liveCharts].
    by destruct (chartObject p).
  - cbn [component chartObject liveCharts constructed].
    rewrite watch_chartData_skip; [done|done|exact C'|exact H'].
Qed.

(** X19.  After a bundle without points the placeholder stays: the chart
    object is kept and so is the fingerprint, so when the data shown before
    come back the watcher skips them, and the panel goes on showing
    "waiting for data" over a live chart. *)
Theorem placeholder_stays_after_empty_bundle (p : panel)
  (D E : obj (list point)) :
  mountedReady (component p) = true ->
  nextTick (component p) = [] ->
  checkDataHasContent D = true ->
  checkDataHasContent E = false ->
  text_eqb (calculateDataHash D) (lastDataHash (component p)) = false ->
  let shown := run [ChartDataChanges D; NextTick true false] p in
  let p' := run [ChartDataChanges E; ChartDataChanges D] shown in
  (showPlaceholder (component shown) = false
   /\ chartStatus (component shown) = ChartReady)
  /\ showPlaceholder (component p') = true
  /\ chartStatus (component p') = WaitingForData
  /\ chartObject p' = Some (constructed p)
  /\ liveCharts p' = liveCharts (destroyChart p) ++ [constructed p]
  /\ nextTick (component p') = [].
Proof.
  intros M N C CE H. unfold run. cbn [fold_left].
  cbn [step component]. rewrite (watch_chartData_new D _ M C H), N.
  cbn [nextTick app mountedReady showPlaceholder chartStatus lastDataHash].
  unfold initChart. cbn [negb]. cbv zeta.
  rewrite (buildDatasets_content D C).
  cbn [component chartObject liveCharts constructed].
  rewrite destroyChart_component. cbn [component].
  split; [done|].
  rewrite (watch_chartData_empty E); [|done|exact CE].
  rewrite watch_chartData_skip; [|done|exact C|by apply text_eqb_eq].
  unfold destroyChart. cbn. by destruct (chartObject p).
Qed.

End ChartObject.

Section ChartObjectInstances.

Import MarketDashboard LatencyChart LatencyChartPanel.

(** Two rebuilds in a row: the second chart has replaced the first. *)
Lemma at_most_one_live_chart_witness :
  let D := [("binance", [mkPoint 0 (JNum 10)])] in
  let D' := [("binance", [mkPoint 0 (JNum 10); mkPoint 1 (JNum 12)])] in
  let p' := run [ChartDataChanges D; NextTick true false;
                 ChartDataChanges D'; NextTick true false] (setup []) in
  liveCharts p' = [1%nat] /\ liveCharts (beforeUnmount p') = [].
Proof.
  intros D D' p'.
  destruct (at_most_one_live_chart (setup [])
              [ChartDataChanges D; NextTick true false;
               ChartDataChanges D'; NextTick true false] eq_refl)
    as (H1 & _ & _ & H4 & _).
  split; [exact H1 | exact H4].
Defined.

(** A panel mounted with a bundle of one point. *)
Lemma no_valid_data_never_shown_witness :
  let D := [("binance", [mkPoint 0 (JNum 10)])] in
  let p' := run [NextTick true false; ChartDataChanges [("binance", [])]]
                (setup D) in
  chartStatus (component p') <> NoValidData.
Proof.
  intros D p'.
  exact (proj1 (no_valid_data_never_shown (setup D)
                  [NextTick true false; ChartDataChanges [("binance", [])]]
                  ltac:(repeat constructor)
                  ltac:(discriminate))).
Defined.

(** A panel mounted without data, and a bundle of one point. *)
Lemma failed_rebuild_not_retried_witness :
  let D := [("binance", [mkPoint 0 (JNum 10)])] in
  let p' := run [ChartDataChanges D; NextTick true true; ChartDataChanges D]
                (setup []) in
  nextTick (component p') = []
  /\ chartObject p' = None
  /\ chartStatus (component p') = InitFailed.
Proof.
  intros D p'.
  destruct (failed_rebuild_not_retried (setup []) D D true true
              eq_refl eq_refl eq_refl eq_refl eq_refl eq_refl eq_refl)
    as (H1 & _ & H3 & H4 & _).
  split; [exact H1|]. split; [exact H3 | exact H4].
Defined.

Lemma placeholder_stays_after_empty_bundle_witness :
  let D := [("binance", [mkPoint 0 (JNum 10)])] in
  let p' := run [ChartDataChanges D; NextTick true false;
                 ChartDataChanges [("binance", [])]; ChartDataChanges D]
                (setup []) in
  showPlaceholder (component p') = true
  /\ chartObject p' = Some 0%nat.
Proof.
  intros D p'.
  destruct (placeholder_stays_after_empty_bundle (setup []) D
              [("binance", [])] eq_refl eq_refl eq_refl eq_refl eq_refl)
    as (_ & H2 & _ & H4 & _).
  split; [exact H2 | exact H4].
Defined.

End ChartObjectInstances.

(** * The latency class of a card *)

Section LatencyClass.

Import AdapterCard AdapterCardOrder.

(** [latency || 0] on a number is that number. *)
Lemma js_or_num q :
  exists q', js_or (JNum q) (JNum 0) = JNum q' /\ Qeq q' q.
Proof.
  unfold js_or. simpl. destruct (Qeq_bool q 0) eqn:E; simpl.
  - exists 0%Q. split; [done|]. apply Qeq_bool_iff in E. by symmetry.
  - by exists q.
Qed.

Lemma Qle_bool_proper p p' q : Qeq p p' -> Qle_bool p q = Qle_bool p' q.
Proof.
  intros E. destruct (Qle_bool p q) eqn:A, (Qle_bool p' q) eqn:B; try done.
  - apply Qle_bool_iff in A. rewrite E in A. apply Qle_bool_iff in A.
    congruence.
  - apply Qle_bool_iff in B. rewrite <- E in B. apply Qle_bool_iff in B.
    congruence.
Qed.

Lemma Qle_bool_proper_r p q q' : Qeq q q' -> Qle_bool p q = Qle_bool p q'.
Proof.
  intros E. destruct (Qle_bool p q) eqn:A, (Qle_bool p q') eqn:B; try done.
  - apply Qle_bool_iff in A. rewrite E in A. apply Qle_bool_iff in A.
    congruence.
  - apply Qle_bool_iff in B. rewrite <- E in B. apply Qle_bool_iff in B.
    congruence.
Qed.

(** [latencyClass] on a numeric latency, by its comparisons. *)
Lemma latencyClass_num data config q :
  obj_field data "avg_latency_ms" = JNum q ->
  latencyClass data config
  = match match config with
          | Some cfg =>
              match obj_get (metrics cfg) "avg_latency_ms" with
              | Some mc => thresholds mc
              | None => None
              end
          | None => None
          end with
    | Some t =>
        if Qle_bool q (good t) then "text-success"
        else if Qle_bool q (warning t) then "text-warning"
        else "text-danger"
    | None =>
        if negb (Qle_bool 50 q) then "text-success"
        else if negb (Qle_bool 100 q) then "text-warning"
        else "text-danger"
    end.
Proof.
  intros H. unfold latencyClass. rewrite H.
  destruct (js_or_num q) as (q' & -> & E).
  destruct (match config with Some _ => _ | None => _ end) as [t|].
  - unfold byThresholdPair, js_le. cbn [ToNumber].
    by rewrite !(Qle_bool_proper q' q _ E).
  - unfold js_lt, Qlt_bool. cbn [ToNumber].
    by rewrite !(Qle_bool_proper_r _ q' q E).
Qed.

(** X20.  The latency class never improves when the latency grows: with
    the same configuration, declared thresholds or not, a larger latency
    gets a class at least as bad. *)
Theorem latency_class_monotone (data1 data2 : obj jsval)
  (config : option adapterConfig) (q1 q2 : Q) :
  obj_field data1 "avg_latency_ms" = JNum q1 ->
  obj_field data2 "avg_latency_ms" = JNum q2 ->
  Qle q1 q2 ->
  (severity (latencyClass data1 config)
   <= severity (latencyClass data2 config))%nat.
Proof.
  intros H1 H2 L.
  rewrite (latencyClass_num _ _ _ H1), (latencyClass_num _ _ _ H2).
  assert (M : forall t, Qle_bool q2 t = true -> Qle_bool q1 t = true).
  { intros t A. apply Qle_bool_iff. apply Qle_bool_iff in A.
    by apply Qle_trans with q2. }
  assert (M' : forall t, Qle_bool t q1 = true -> Qle_bool t q2 = true).
  { intros t A. apply Qle_bool_iff. apply Qle_bool_iff in A.
    by apply Qle_trans with q1. }
  destruct (match config with Some _ => _ | None => _ end) as [t|].
  - destruct (Qle_bool q2 (good t)) eqn:A2.
    { rewrite (M _ A2). simpl. lia. }
    destruct (Qle_bool q2 (warning t)) eqn:B2.
    { rewrite (M _ B2). destruct (Qle_bool q1 (good t)); simpl; lia. }
    destruct (Qle_bool q1 (good t)), (Qle_bool q1 (warning t)); simpl; lia.
  - destruct (Qle_bool 50 q1) eqn:A1.
    { rewrite (M' _ A1). cbn [negb].
      destruct (Qle_bool 100 q1) eqn:B1.
      - rewrite (M' _ B1). simpl. lia.
      - destruct (Qle_bool 100 q2); simpl; lia. }
    cbn [negb]. destruct (Qle_bool 50 q2), (Qle_bool 100 q2); simpl; lia.
Qed.

(** X21.  The thresholds declared for the latency of an adapter,
    [{ good: 50, warning: 100 }], are the numbers of the default ladder,
    but they are compared with [<=] where the default ladder uses [<]: the
    two classifications of a latency differ exactly at 50 and at 100. *)
Theorem declared_thresholds_differ_at_the_bounds (data : obj jsval)
  (cfg : adapterConfig) (mc : metricConfig) (q : Q) :
  obj_field data "avg_latency_ms" = JNum q ->
  obj_get (metrics cfg) "avg_latency_ms" = Some mc ->
  thresholds mc = Some {| good := 50; warning := 100 |} ->
  latencyClass data (Some cfg) = latencyClass data None
  <-> ~ Qeq q 50 /\ ~ Qeq q 100.
Proof.
  intros H Hm Ht.
  rewrite (latencyClass_num _ _ _ H), (latencyClass_num _ _ _ H), Hm, Ht.
  cbn [good warning].
  destruct (Qle_bool q 50) eqn:A, (Qle_bool 50 q) eqn:B,
           (Qle_bool q 100) eqn:C, (Qle_bool 100 q) eqn:D; cbn [negb];
    repeat match goal with
           | X : Qle_bool _ _ = true |- _ => apply Qle_bool_iff in X
           | X : Qle_bool _ _ = false |- _ =>
               apply not_true_iff_false in X;
               rewrite Qle_bool_iff in X; apply Qnot_le_lt in X
           end;
    split; try done; try (intros _; split; intros E; rewrite E in *; done);
    try (intros [E1 E2]; exfalso; lra);
    try (exfalso; lra).
Qed.

End LatencyClass.

Section LatencyClassInstances.

Import AdapterCard AdapterCardOrder.

Lemma latency_class_monotone_witness :
  (severity (latencyClass [("avg_latency_ms", JNum 10)] None)
   <= severity (latencyClass [("avg_latency_ms", JNum 120)] None))%nat.
Proof.
  exact (latency_class_monotone [("avg_latency_ms", JNum 10)]
           [("avg_latency_ms", JNum 120)] None 10 120 eq_refl eq_refl
           ltac:(vm_compute; discriminate)).
Defined.

(** A latency of exactly 50 with the thresholds declared for binance. *)
Lemma declared_thresholds_differ_at_the_bounds_witness :
  let mc := {| color := None;
               thresholds := Some {| good := 50; warning := 100 |} |} in
  let cfg := {| metrics := [("avg_latency_ms", mc)] |} in
  let data := [("avg_latency_ms", JNum 50)] in
  latencyClass data (Some cfg) = latencyClass data None
  <-> ~ Qeq 50 50 /\ ~ Qeq 50 100.
Proof.
  intros mc cfg data.
  exact (declared_thresholds_differ_at_the_bounds data cfg mc 50
           eq_refl eq_refl eq_refl).
Defined.

End LatencyClassInstances.

(** * dashboard.js: closes, resets and collapse states *)

Section DashboardClose.

Import Dashboard DashboardStorage.

Variable clock : nat -> Z.

Lemma updateCharts_lastSummary s d :
  lastSummary (updateCharts clock s d) = lastSummary d.
Proof. unfold updateCharts. by destruct (chartStartTime_unset d). Qed.

Lemma offlineEntries_lastSummary adapters acc d :
  lastSummary (fold_left (offlineEntry clock) adapters (acc, d)).2
  = lastSummary d.
Proof.
  revert acc d. induction adapters as [|a l IH]; intros acc d; simpl; [done|].
  by rewrite IH.
Qed.

Lemma react_lastSummary d i :
  lastSummary (react clock d i) = lastSummary d.
Proof.
  destruct i as [s|]; cbn [react].
  - unfold updateDashboard. by rewrite updateCharts_lastSummary.
  - unfold onclose. cbn [lastSummary]. unfold updateAdaptersToOffline.
    destruct (fold_left _ _ _) as [os d'] eqn:F.
    unfold updateDashboard. rewrite updateCharts_lastSummary.
    cbn [updateOverviewCards lastSummary].
    change d' with (os, d').2. rewrite <- F.
    by rewrite offlineEntries_lastSummary.
Qed.

(** [lastSummary] is assigned nowhere. *)
Lemma run_lastSummary inputs d :
  lastSummary (Dashboard.run clock inputs d) = lastSummary d.
Proof.
  unfold Dashboard.run. revert d.
  induction inputs as [|i l IH]; intros d; simpl; [done|].
  by rewrite IH, react_lastSummary.
Qed.

(** The history of an adapter after [updateCharts] on a summary that
    names it once. *)
Lemma recordPoints_get elapsed (s : summary) h a m :
  NoDup (obj_keys s) ->
  obj_get s a = Some m ->
  obj_get (fold_left (recordPoint elapsed) s h) a
  = obj_get (recordPoint elapsed h (a, m)) a.
Proof.
  revert h. induction s as [|[k v] s IH]; intros h N G; [done|].
  apply NoDup_cons in N as [Nk Ns]. simpl in G. cbn [fold_left].
  destruct (String.eqb k a) eqn:E.
  - apply String.eqb_eq in E. subst k. injection G as ->.
    assert (R : forall h', obj_get (fold_left (recordPoint elapsed) s h') a
                           = obj_get h' a).
    { clear -Nk. induction s as [|[k v] s IH]; intros h'; [done|].
      apply not_elem_of_cons in Nk as [Hne Nk]. cbn [fold_left].
      rewrite (IH Nk), recordPoint_get.
      destruct (String.eqb k a) eqn:E; [|done].
      apply String.eqb_eq in E. simpl in Hne. congruence. }
    by rewrite R.
  - rewrite (IH _ Ns G), !recordPoint_get, String.eqb_refl, E. done.
Qed.

Lemma recordPoints_other elapsed (s : summary) h a :
  a ∉ obj_keys s ->
  obj_get (fold_left (recordPoint elapsed) s h) a = obj_get h a.
Proof.
  revert h. induction s as [|[k v] s IH]; intros h N; [done|].
  apply not_elem_of_cons in N as [Hne N]. cbn [fold_left].
  rewrite (IH _ N), recordPoint_get.
  destruct (String.eqb k a) eqn:E; [|done].
  apply String.eqb_eq in E. simpl in Hne. congruence.
Qed.

Lemma last_push {A} (l : list A) a : last (push l a) = Some a.
Proof. unfold push. apply last_snoc. Qed.

Lemma last_shift {A} (l : list A) :
  (1 < length l)%nat -> last (shift l) = last l.
Proof. destruct l as [|a [|b l]]; simpl; [lia|lia|done]. Qed.

(** The point that [updateCharts] appends for an adapter of the summary
    carries its latest metrics. *)
Lemma updateCharts_last (s : summary) d a m :
  history_ok (dataHistory d) ->
  NoDup (obj_keys s) ->
  obj_get s a = Some m ->
  exists e, obj_get (dataHistory (updateCharts clock s d)) a = Some e
    /\ MarketDashboard.y <$> last (latency e)
       = Some (js_or (obj_field m "avg_latency_ms") (JNum 0))
    /\ MarketDashboard.y <$> last (success e)
       = Some (js_mul (js_or (obj_field m "success_rate") (JNum 0))
                      (JNum 100)).
Proof.
  intros K N G.
  assert (R : forall el h, history_ok h ->
            exists e, obj_get (fold_left (recordPoint el) s h) a = Some e
              /\ MarketDashboard.y <$> last (latency e)
                 = Some (js_or (obj_field m "avg_latency_ms") (JNum 0))
              /\ MarketDashboard.y <$> last (success e)
                 = Some (js_mul (js_or (obj_field m "success_rate") (JNum 0))
                                (JNum 100))).
  { intros el h Kh. rewrite (recordPoints_get el s h a m N G).
    rewrite recordPoint_get, String.eqb_refl. cbv zeta.
    eexists. split; [reflexivity|].
    assert (Hc : length (latency (default {| latency := []; success := [] |}
                                          (obj_get h a)))
                 = length (success (default {| latency := []; success := [] |}
                                            (obj_get h a)))).
    { destruct (obj_get h a) as [e|] eqn:E; simpl; [by apply (Kh a)|done]. }
    destruct (100 <? length (push _ _))%nat eqn:E.
    - apply Nat.ltb_lt in E. cbn [latency success].
      rewrite length_push in E.
      rewrite !last_shift, !last_push; [done| |];
        rewrite length_push; lia.
    - cbn [latency success]. by rewrite !last_push. }
  unfold updateCharts. destruct (chartStartTime_unset d).
  - cbn [Date_now set_chart dataHistory chartStartTime]. by apply R.
  - cbn [Date_now set_chart dataHistory chartStartTime]. by apply R.
Qed.

(** A close when there is no [lastSummary]. *)
Lemma onclose_no_summary d :
  lastSummary d = None ->
  let offline t :=
    [("avg_latency_ms", JNum 0); ("success_rate", JNum 0);
     ("messages_received", JNum 0); ("is_connected", JBool false);
     ("last_update", JTimeString t)] in
  let s := [("binance", offline (clock (clockReads d)));
            ("polymarket", offline (clock (S (clockReads d))))] in
  let d2 :=
    {| connected := false; testRunning := false;
       dataHistory := dataHistory d; chartStartTime := chartStartTime d;
       lastSummary := None; overviewCards := overviewCards d;
       reconnects := reconnects d; clockReads := S (S (clockReads d)) |} in
  overviewCards (onclose clock d)
  = overviewCards (updateOverviewCards s d2)
  /\ dataHistory (onclose clock d)
     = dataHistory (updateCharts clock s (updateOverviewCards s d2)).
Proof.
  intros H offline s d2. unfold onclose, updateAdaptersToOffline.
  cbn [lastSummary]. subst offline s d2. destruct (lastSummary d); [done|].
  cbn [fold_left offlineEntry Date_now]. unfold updateDashboard.
  cbn [overviewCards dataHistory]. split; [|reflexivity].
  apply updateCharts_cards.
Qed.

(** X22.  [lastSummary] is never assigned, so whatever adapters the
    snapshots named, a close replaces the overview cards by exactly two,
    for binance and polymarket, with latency 0, success rate 0 and
    offline, and appends a point of value 0 to both series of these two
    adapters: dashboard.js clears the metrics on a disconnect. *)
Theorem close_shows_two_zero_cards (inputs : list input) (a : string) :
  let d := Dashboard.run clock (inputs ++ [Close]) constructor in
  let zero := {| card_latency := JNum 0; card_successRate := JNum 0;
                 card_isConnected := false |} in
  overviewCards d = [("binance", zero); ("polymarket", zero)]
  /\ (a = "binance" \/ a = "polymarket" ->
      exists e, obj_get (dataHistory d) a = Some e
                /\ MarketDashboard.y <$> last (latency e) = Some (JNum 0)
                /\ MarketDashboard.y <$> last (success e) = Some (JNum 0)).
Proof.
  intros d zero. subst d. unfold Dashboard.run.
  rewrite fold_left_app. cbn [fold_left react].
  pose proof (run_lastSummary inputs constructor) as L.
  unfold Dashboard.run in L.
  set (d0 := fold_left (react clock) inputs constructor) in *.
  destruct (onclose_no_summary d0 L) as [-> ->].
  split; [reflexivity|].
  intros Ha.
  set (offline t :=
    [("avg_latency_ms", JNum 0); ("success_rate", JNum 0);
     ("messages_received", JNum 0); ("is_connected", JBool false);
     ("last_update", JTimeString t)]).
  assert (G : exists t, obj_get
            [("binance", offline (clock (clockReads d0)));
             ("polymarket", offline (clock (S (clockReads d0))))] a
            = Some (offline t)).
  { destruct Ha as [-> | ->]; eexists; reflexivity. }
  destruct G as [t G].
  eapply updateCharts_last in G as (e & E1 & E2 & E3).
  - exists e. split; [exact E1|]. split; [exact E2|exact E3].
  - cbn [updateOverviewCards dataHistory].
    apply dashboard_run_ok. by intros ? ? [=].
  - apply (bool_decide_unpack _). by vm_compute.
Qed.

(** X23.  After [resetCharts()] the next snapshot, when none of its ids is
    a name that objects inherit, starts every series afresh: the update
    completes, the epoch is the clock reading of that moment, each adapter
    of the snapshot has one point in each series, at the time that passed
    between the two clock readings of [updateCharts], and the adapters the
    snapshot does not name have no history left. *)
Theorem reset_restarts_series (d : dashboard) (s : summary) (a : string)
  (m : obj jsval) :
  plain_ids s ->
  NoDup (obj_keys s) ->
  obj_get s a = Some m ->
  let d' := updateCharts clock s (resetCharts d) in
  let elapsed := Qred (MarketDashboard.seconds (clock (S (clockReads d)))
                       - MarketDashboard.seconds (clock (clockReads d))) in
  DashboardAnyId.updateCharts clock s (resetCharts d)
  = (d', WebSocketService.Normal)
  /\ chartStartTime d' = Some (MarketDashboard.seconds (clock (clockReads d)))
  /\ obj_get (dataHistory d') a
     = Some {| latency :=
                 [MarketDashboard.mkPoint elapsed
                    (js_or (obj_field m "avg_latency_ms") (JNum 0))];
               success :=
                 [MarketDashboard.mkPoint elapsed
                    (js_mul (js_or (obj_field m "success_rate") (JNum 0))
                            (JNum 100))] |}
  /\ forall b, b ∉ obj_keys s -> obj_get (dataHistory d') b = None.
Proof.
  intros P N G d' elapsed. subst d' elapsed.
  split; [by apply updateCharts_plain|].
  unfold updateCharts, resetCharts.
  cbn [chartStartTime_unset set_chart chartStartTime Date_now dataHistory
       clockReads default].
  split; [done|]. split.
  - rewrite (recordPoints_get _ s [] a m N G).
    rewrite recordPoint_get, String.eqb_refl. reflexivity.
  - intros b Hb. by rewrite recordPoints_other.
Qed.

End DashboardClose.

Section DashboardCollapse.

Import MarketDashboardView DashboardStorage.


(** X25.  The two readers of a stored collapse state do not complement
    each other on a value that is neither "expanded" nor "collapsed", such
    as the "true" and "false" that the component's [toggleCollapse]
    stores under the same key: [_getCollapseState] answers "not expanded"
    and the card renders the list as not collapsed. *)
Theorem foreign_collapse_value_read_both_ways (collapseStates : obj bool)
  (st : localStorage) (adapter value : string) :
  readable st = true ->
  items st !! ("collapse_" +:+ adapter) = Some value ->
  value <> "expanded" ->
  value <> "collapsed" ->
  _getCollapseState st adapter = false
  /\ isCollapsed collapseStates st adapter = false
  /\ forall cs,
       let after := toggleCollapse adapter (cs, st) in
       writable st = true ->
       _getCollapseState after.2 adapter = false
       /\ isCollapsed collapseStates after.2 adapter = false.
Proof.
  intros R I E C. unfold _getCollapseState, isCollapsed, getItem.
  rewrite R, I.
  apply String.eqb_neq in E, C. rewrite E, C.
  split; [done|]. split; [done|].
  intros cs. cbv zeta. intros Hw. unfold toggleCollapse, setItem.
  rewrite Hw. cbn [snd readable items]. rewrite R, lookup_insert_eq.
  by destruct (default false (obj_get (obj_set cs adapter _) adapter)).
Qed.

End DashboardCollapse.

Section DashboardInstances.

Import Dashboard MarketDashboardView DashboardStorage.

(** A clock that ticks once a second, from one second after the instant
    0. *)
Let clock (n : nat) : Z := (1000 * (Z.of_nat n + 1))%Z.

(** A reset between two updates of the charts. *)
Lemma reset_restarts_series_witness :
  let s := [("binance", [("avg_latency_ms", JNum 10)])] in
  let d := updateCharts clock s constructor in
  let d' := updateCharts clock s (resetCharts d) in
  chartStartTime d' = Some (MarketDashboard.seconds (clock (clockReads d)))
  /\ option_map (fun e => length (latency e))
                (obj_get (dataHistory d') "binance")
     = Some 1%nat.
Proof.
  intros s d d'.
  assert (P : plain_ids s) by (repeat constructor).
  assert (N : NoDup (obj_keys s)).
  { apply (bool_decide_unpack _). vm_compute. exact I. }
  destruct (reset_restarts_series clock d s "binance"
              [("avg_latency_ms", JNum 10)] P N eq_refl)
    as (_ & H1 & H2 & _).
  split; [exact H1|].
  exact (f_equal (option_map (fun e => length (latency e))) H2).
Defined.


(** What the component's [toggleCollapse] leaves in the storage, read by
    dashboard.js. *)
Lemma foreign_collapse_value_read_both_ways_witness :
  let st := (toggleCollapse "binance"
               ([], {| items := ∅; readable := true; writable := true |})).2 in
  _getCollapseState st "binance" = false
  /\ isCollapsed collapseStates0 st "binance" = false.
Proof.
  intros st.
  destruct (foreign_collapse_value_read_both_ways collapseStates0 st
              "binance" "true" eq_refl eq_refl
              ltac:(discriminate) ltac:(discriminate))
    as (H1 & H2 & _).
  split; [exact H1 | exact H2].
Defined.

End DashboardInstances.

(** * Unmounting the parent component *)

Section Unmount.

Import WebSocketService MarketDashboard MarketDashboardUnmount.

Variable clock : nat -> Z.
Variable JSON_parse : string -> option decoded.

Lemma disconnect_listeners s : listeners (disconnect s) = listeners s.
Proof. unfold disconnect. by destruct (ws s). Qed.

Lemma connect_listeners s : listeners (connect s) = listeners s.
Proof. unfold connect. by destruct (ws s) as [[]|]. Qed.

Lemma splice1_last l cb :
  cb ∉ l -> splice1 (l ++ [cb]) (indexOf (l ++ [cb]) cb) = l.
Proof.
  intros Hni.
  destruct (indexOf_present (l ++ [cb]) cb) as (l1 & l2 & E & Hn1 & Hi).
  { apply elem_of_app. right. apply elem_of_cons. by left. }
  rewrite Hi, E, splice1_middle.
  assert (Hl : l1 = l /\ l2 = []).
  { clear Hi. revert l1 E Hn1. induction l as [|a l IH]; intros l1 E Hn1.
    - destruct l1 as [|b l1]; simpl in E.
      + by injection E as <-.
      + injection E as <- E. exfalso. apply Hn1. apply elem_of_cons. by left.
    - apply not_elem_of_cons in Hni as [Hne Hni].
      destruct l1 as [|b l1]; simpl in E.
      + injection E as -> E. done.
      + injection E as <- E.
        apply not_elem_of_cons in Hn1 as [_ Hn1].
        destruct (IH Hni l1 E Hn1) as [-> ->]. done. }
  destruct Hl as [-> ->]. by rewrite app_nil_r.
Qed.

Lemma on_frame event cb s :
  ws (on event cb s) = ws s
  /\ timers (on event cb s) = timers s
  /\ reconnectAttempts (on event cb s) = reconnectAttempts s.
Proof. done. Qed.

Lemma off_frame event cb s :
  ws (off event cb s) = ws s
  /\ timers (off event cb s) = timers s
  /\ reconnectAttempts (off event cb s) = reconnectAttempts s.
Proof.
  unfold off. destruct (listeners s !! event); [|done].
  by destruct (_ >? _)%Z.
Qed.

Lemma unmount_frame s :
  ws (beforeUnmount (mounted s)) = None
  /\ timers (beforeUnmount (mounted s)) = timers s
  /\ reconnectAttempts (beforeUnmount (mounted s)) = reconnectAttempts s.
Proof.
  unfold beforeUnmount.
  destruct (off_frame "message" onMessage (mounted s)) as (W & T & R).
  unfold disconnect. rewrite W.
  assert (H : timers (mounted s) = timers s
              /\ reconnectAttempts (mounted s) = reconnectAttempts s).
  { unfold mounted. cbn [on set_listeners timers reconnectAttempts].
    unfold connect. by destruct (ws s) as [[]|]. }
  destruct H as [HT HR].
  destruct (ws (mounted s)); cbn [set_ws ws timers reconnectAttempts];
    rewrite T, R, HT, HR; done.
Qed.

Lemma markAdaptersOffline_connected d :
  connected (markAdaptersOffline d) = connected d.
Proof. done. Qed.

(** The listeners once the component is mounted. *)
Lemma mounted_listeners s event :
  default [] (listeners (mounted s) !! event)
  = default [] (listeners s !! event)
    ++ (if String.eqb event "connected" then [onConnected]
        else if String.eqb event "disconnected" then [onDisconnected]
        else if String.eqb event "message" then [onMessage]
        else []).
Proof.
  unfold mounted. rewrite !on_listeners, connect_listeners.
  rewrite (String.eqb_sym event "connected"),
          (String.eqb_sym event "disconnected"),
          (String.eqb_sym event "message").
  destruct (String.eqb "message" event) eqn:E.
  { apply String.eqb_eq in E. subst event. done. }
  destruct (String.eqb "disconnected" event) eqn:E1.
  { apply String.eqb_eq in E1. subst event. done. }
  destruct (String.eqb "connected" event) eqn:E2.
  { apply String.eqb_eq in E2. subst event. done. }
  by rewrite app_nil_r.
Qed.

(** The listeners after the component has been mounted and unmounted. *)
Lemma unmount_listeners s event :
  onMessage ∉ default [] (listeners s !! "message") ->
  default [] (listeners (beforeUnmount (mounted s)) !! event)
  = default [] (listeners s !! event)
    ++ (if String.eqb event "connected" then [onConnected]
        else if String.eqb event "disconnected" then [onDisconnected]
        else []).
Proof.
  intros Hni. unfold beforeUnmount.
  rewrite disconnect_listeners, off_listeners.
  destruct (String.eqb "message" event) eqn:E.
  - apply String.eqb_eq in E. subst event. cbv zeta.
    rewrite mounted_listeners. cbn [String.eqb Ascii.eqb Bool.eqb].
    rewrite bool_decide_eq_true_2
      by (apply elem_of_app; right; apply elem_of_cons; by left).
    rewrite splice1_last by done. by rewrite app_nil_r.
  - rewrite mounted_listeners.
    rewrite (String.eqb_sym event "message"), E. done.
Qed.

(** X26.  Unmounting the component removes its message handler and
    nothing else: the handlers it registered for "connected" and
    "disconnected" stay in the service, so the close that follows still
    runs the component's handler (which marks the adapters offline), and,
    the retry budget not being used up, schedules a reconnection. *)
Theorem unmount_leaves_connection_listeners (s : service) (d : dashboard)
  (data : WebSocketService.payload decoded) :
  onMessage ∉ default [] (listeners s !! "message") ->
  (reconnectAttempts s < maxReconnectAttempts)%Z ->
  let s' := beforeUnmount (mounted s) in
  (emit (impl clock) "message" data s' d).2
    = (emit (impl clock) "message" data s d).2
  /\ (emit (impl clock) "connected" data s' d).2
     = (emit (impl clock) "connected" data s d).2 ++ [onConnected]
  /\ (emit (impl clock) "disconnected" data s' d).2
     = (emit (impl clock) "disconnected" data s d).2 ++ [onDisconnected]
  /\ let r := step JSON_parse (impl clock) SocketCloses (s', d) in
     all_offline r.2
     /\ connected r.2 = false
     /\ timers r.1
        = timers s ++ [(reconnectDelay (reconnectAttempts s + 1), RunConnect)].
Proof.
  intros Hni Hb s'.
  pose proof (fun event => unmount_listeners s event Hni) as L.
  destruct (unmount_frame s) as (FW & FT & FR).
  fold s' in L, FW, FT, FR.
  assert (S : socketState CLOSED s' = s').
  { unfold socketState. by rewrite FW. }
  repeat split.
  - pose proof (emit_spec (impl clock) "message" data s' d) as H.
    pose proof (emit_spec (impl clock) "message" data s d) as G.
    cbv zeta in H, G.
    destruct H as (_ & _ & _ & _ & _ & _ & ->).
    destruct G as (_ & _ & _ & _ & _ & _ & ->).
    rewrite L. cbn [String.eqb Ascii.eqb Bool.eqb]. by rewrite app_nil_r.
  - pose proof (emit_spec (impl clock) "connected" data s' d) as H.
    pose proof (emit_spec (impl clock) "connected" data s d) as G.
    cbv zeta in H, G.
    destruct H as (_ & _ & _ & _ & _ & _ & ->).
    destruct G as (_ & _ & _ & _ & _ & _ & ->).
    by rewrite L.
  - pose proof (emit_spec (impl clock) "disconnected" data s' d) as H.
    pose proof (emit_spec (impl clock) "disconnected" data s d) as G.
    cbv zeta in H, G.
    destruct H as (_ & _ & _ & _ & _ & _ & ->).
    destruct G as (_ & _ & _ & _ & _ & _ & ->).
    by rewrite L.
  - cbn [step].
    pose proof (onclose_spec (impl clock) (socketState CLOSED s') d) as H.
    cbv zeta in H. destruct H as (_ & _ & _ & -> & _).
    rewrite S, L. cbn [String.eqb Ascii.eqb Bool.eqb].
    rewrite fold_left_app. cbn [fold_left impl onDisconnected fst].
    apply markAdaptersOffline_all_offline.
  - cbn [step].
    pose proof (onclose_spec (impl clock) (socketState CLOSED s') d) as H.
    cbv zeta in H. destruct H as (_ & _ & _ & -> & _).
    rewrite S, L. cbn [String.eqb Ascii.eqb Bool.eqb].
    rewrite fold_left_app. cbn [fold_left impl onDisconnected fst].
    by rewrite markAdaptersOffline_connected.
  - cbn [step].
    pose proof (onclose_spec (impl clock) (socketState CLOSED s') d) as H.
    cbv zeta in H. destruct H as (_ & _ & _ & _ & H).
    rewrite S, FR in H. rewrite S.
    apply Z.ltb_lt in Hb. rewrite Hb in H. destruct H as [_ ->].
    by rewrite FT.
Qed.

End Unmount.

Section UnmountInstances.

Import WebSocketService MarketDashboard MarketDashboardUnmount.

Let decode (payload : string) : option decoded :=
  if String.eqb payload "null" then Some DNull else None.

Let clock (n : nat) : Z := (1000 * Z.of_nat n)%Z.

Lemma unmount_leaves_connection_listeners_witness :
  let s' := beforeUnmount (mounted createWebSocketService) in
  (emit (impl clock) "message" Undefined s' (data clock)).2 = []
  /\ (emit (impl clock) "disconnected" Undefined s' (data clock)).2
     = [onDisconnected]
  /\ timers (step decode (impl clock) SocketCloses (s', data clock)).1
     = [(3000%Z, RunConnect)].
Proof.
  intros s'.
  assert (H : onMessage
              ∉ default [] (listeners createWebSocketService !! "message")).
  { apply (bool_decide_unpack _). vm_compute. exact I. }
  destruct (unmount_leaves_connection_listeners clock decode
              createWebSocketService (data clock) Undefined H
              ltac:(vm_compute; reflexivity))
    as (H1 & _ & H3 & _ & _ & H6).
  split; [exact H1|]. split; [exact H3 | exact H6].
Defined.

End UnmountInstances.

(** * A snapshot that names an inherited id *)

Section InheritedId.

Import MarketDashboard.

Variable clock : nat -> Z.

Lemma updateAdapters_any_app (s1 rest : summary) d :
  plain_ids s1 ->
  MarketDashboardAnyId.updateAdapters clock (s1 ++ rest) d
  = MarketDashboardAnyId.updateAdapters clock rest (updateAdapters clock s1 d).
Proof.
  unfold updateAdapters. revert d.
  induction s1 as [|[a m] s1 IH]; intros d H; [done|].
  apply Forall_cons in H as [Ha Hs].
  cbn [app MarketDashboardAnyId.updateAdapters fold_left].
  rewrite (updateAdapter_plain clock d a m Ha). by apply IH.
Qed.

Lemma updateAdapters_plain_series (s : summary) d :
  plain_ids s ->
  MarketDashboardAnyId.plain_series d ->
  MarketDashboardAnyId.plain_series (updateAdapters clock s d).
Proof.
  unfold updateAdapters. revert d.
  induction s as [|[a m] s IH]; intros d H Hp; [done|].
  apply Forall_cons in H as [Ha Hs]. cbn [fold_left].
  apply IH; [done|]. unfold updateAdapter. cbn [Date_now]. cbv zeta.
  by apply updateChartData_plain_series.
Qed.

(** X27.  A snapshot is merged up to the first id that is a name objects
    inherit: there [updateChartData] finds no array to push to and the
    exception ends the [forEach].  The adapters before it are merged as
    usual, that id gets no series, and the adapters after it get neither
    a point nor, the id not being [__proto__], their new metrics. *)
Theorem merge_stops_at_inherited_id (d : dashboard)
  (s1 : summary) (a : string) (metrics : obj jsval) (s2 : summary) :
  MarketDashboardAnyId.plain_series d ->
  plain_ids s1 ->
  inherited a = true ->
  let before := updateAdapters clock s1 d in
  let r := MarketDashboardAnyId.updateAdapters clock
             (s1 ++ (a, metrics) :: s2) d in
  MarketDashboardAnyId.updateAdapters clock s1 d
  = (before, WebSocketService.Normal)
  /\ r.2 = WebSocketService.Throws
  /\ latencyData r.1 = latencyData before
  /\ successData r.1 = successData before
  /\ chartDataRef r.1 = chartDataRef before
  /\ obj_get (latencyData r.1) a = None
  /\ obj_get (successData r.1) a = None
  /\ (a <> "__proto__" ->
      forall b, b <> a ->
        obj_get (adapters r.1) b = obj_get (adapters before) b).
Proof.
  intros Hp H1 Ha before r.
  assert (Hp1 : MarketDashboardAnyId.plain_series before).
  { by apply updateAdapters_plain_series. }
  assert (R : r.2 = WebSocketService.Throws
              /\ latencyData r.1 = latencyData before
              /\ successData r.1 = successData before
              /\ chartDataRef r.1 = chartDataRef before
              /\ forall b, b <> a ->
                   obj_get (adapters r.1) b = obj_get (adapters before) b).
  { subst r. rewrite (updateAdapters_any_app s1 _ d H1). fold before.
    cbn [MarketDashboardAnyId.updateAdapters].
    unfold MarketDashboardAnyId.updateAdapter. cbn [Date_now]. cbv zeta.
    match goal with
    | |- context [MarketDashboardAnyId.updateChartData clock a metrics ?d0] =>
        assert (Hp0 : MarketDashboardAnyId.plain_series d0)
          by (by destruct (String.eqb a "__proto__"));
        assert (El : latencyData d0 = latencyData before)
          by (by destruct (String.eqb a "__proto__"));
        assert (Es : successData d0 = successData before)
          by (by destruct (String.eqb a "__proto__"));
        assert (Er : chartDataRef d0 = chartDataRef before)
          by (by destruct (String.eqb a "__proto__"));
        assert (Ea : forall b, b <> a ->
                  obj_get (adapters d0) b = obj_get (adapters before) b)
          by (intros b Hb0; destruct (String.eqb a "__proto__");
              [done|cbn; by rewrite obj_get_set_ne]);
        destruct (updateChartData_inherited clock a metrics d0 Ha Hp0)
          as (R1 & R2 & R3 & R4 & R5);
        destruct (MarketDashboardAnyId.updateChartData clock a metrics d0)
          as [d2 c]
    end.
    cbn [fst snd] in *. subst c. cbn [fst snd].
    split; [done|]. split; [by rewrite R2|]. split; [by rewrite R3|].
    split; [by rewrite R5|].
    intros b Hb0. rewrite R4. by apply Ea. }
  destruct R as (R0 & Rl & Rs & Rr & Ra).
  split; [by apply updateAdapters_plain|].
  split; [exact R0|]. split; [exact Rl|]. split; [exact Rs|].
  split; [exact Rr|]. split; [|split; [|intros _; exact Ra]].
  - rewrite Rl. by apply Hp1.
  - rewrite Rs. by apply Hp1.
Qed.

End InheritedId.

Section InheritedIdInstances.

Import MarketDashboard.

Let clock (n : nat) : Z := (1000 * (Z.of_nat n + 1))%Z.

(** A snapshot that names binance, [toString] and polymarket, in this
    order. *)
Lemma merge_stops_at_inherited_id_witness :
  let metrics := [("avg_latency_ms", JNum 10); ("success_rate", JNum 1)] in
  let r := MarketDashboardAnyId.updateAdapters clock
             [("binance", metrics); ("toString", metrics);
              ("polymarket", metrics)]
             (data clock) in
  r.2 = WebSocketService.Throws
  /\ obj_keys (latencyData r.1) = ["binance"]
  /\ obj_get (adapters r.1) "polymarket" = None.
Proof.
  intros metrics r.
  destruct (merge_stops_at_inherited_id clock (data clock)
              [("binance", metrics)] "toString" metrics
              [("polymarket", metrics)]
              (data_plain_series clock) ltac:(repeat constructor) eq_refl)
    as (_ & H1 & H2 & _ & _ & _ & _ & H6).
  split; [exact H1|]. split.
  - exact (f_equal obj_keys H2).
  - exact (H6 ltac:(discriminate) "polymarket" ltac:(discriminate)).
Defined.

End InheritedIdInstances.
